(** * The Arcjet decision engine ([arcjet/index.ts]), embedded in Rocq.

    The development follows the source file top to bottom: the block cache,
    the small helpers, the rule constructors, and the engine built by
    [arcjet(options)] with its [protect] and [withRule] operations.

    Conventions of the embedding.
    - Seconds, TTLs and priorities are JavaScript numbers that only ever hold
      integers here; they are modelled as [Z].
    - A JavaScript [Map<string, V>] is a [gmap string V].
    - Code that can throw returns an [Outcome]; the engine runs in a small
      state-and-exception monad [M] over a [World] that holds the clock, the
      block cache, the store of rule objects and the trace of calls made to
      the collaborators (logger, client, cache, rules).
    - Rule objects are shared by reference between an engine and the engines
      derived from it by [withRule]; they live in a store indexed by
      locations, and rule lists are lists of locations. *)

From Stdlib Require Import ZArith List Lia Permutation Sorted Ascii String.
From stdpp Require Import base option list gmap strings functions.

Local Open Scope string_scope.
Local Open Scope list_scope.
Local Open Scope Z_scope.

(** ** Block cache: [class Cache<T>] *)

Module Cache.

Record t (T : Type) : Type := mk {
  expires : gmap string Z;
  data : gmap string T
}.
Arguments mk {T} _ _.
Arguments expires {T} _.
Arguments data {T} _.

(** [constructor()] *)
Definition new {T : Type} : t T := mk ∅ ∅.

(** [ttl(key)]: [now] is the value read from [nowInSeconds()].
    [this.expires.get(key) ?? now] is the stored expiry, or [now] when the
    key has none. *)
Definition ttl {T : Type} (now : Z) (c : t T) (key : string) : Z :=
  let expiresAt := default now (expires c !! key) in
  expiresAt - now.

(** [get(key)]: the value when the entry is live; otherwise both maps drop
    the key and the call returns [undefined]. The cache after the call is
    the second component. *)
Definition get {T : Type} (now : Z) (c : t T) (key : string)
  : option T * t T :=
  let ttl := ttl now c key in
  if 0 <? ttl then (data c !! key, c)
  else (None, mk (delete key (expires c)) (delete key (data c))).

(** [set(key, value, expiresAt)] *)
Definition set {T : Type} (c : t T) (key : string) (value : T)
  (expiresAt : Z) : t T :=
  mk (<[key := expiresAt]> (expires c)) (<[key := value]> (data c)).

End Cache.

(** ** JavaScript values and exceptions *)

(** The values of type [unknown] the file inspects: request properties
    ([toString]) and caught exceptions ([errorMessage]). [JsError message] is
    an object with a string [message] property.

    The file never computes with a number held in such a value: it only
    converts it to a string or hands it on to [duration.parse]. A number is
    therefore represented by the string that the language's number-to-string
    conversion gives for it: [JsNumber "5"] is 5, [JsNumber "0.5"] is a
    half, [JsNumber "1e+21"] is ten to the 21st and [JsNumber "NaN"] is
    not-a-number. *)
Inductive JsValue : Type :=
| JsUndefined
| JsString (s : string)
| JsNumber (text : string)
| JsBoolean (b : bool)
| JsError (message : string)
| JsObject.

(** The result of a call that may throw. *)
Inductive Outcome (A : Type) : Type :=
| Ok (a : A)
| Throw (err : JsValue).
Arguments Ok {A} a.
Arguments Throw {A} err.

(** [errorMessage(err)]; the empty string is falsy. *)
Definition errorMessage (err : JsValue) : string :=
  match err with
  | JsString EmptyString => "Unknown problem"
  | JsString s => s
  | JsError message => message
  | _ => "Unknown problem"
  end.

(** ** Protocol value objects

    The classes of [@arcjet/protocol] are records here. Identifiers that the
    protocol constructors generate ([ruleId], decision [id]) are left out. *)

Inductive ArcjetMode : Type := LIVE | DRY_RUN.
Inductive ArcjetRuleType : Type :=
  RATE_LIMIT | BOT | EMAIL | SENSITIVE_INFO | SHIELD.
Inductive ArcjetRuleState : Type := NOT_RUN | RUN | CACHED.
Inductive ArcjetConclusion : Type := ALLOW | DENY | CHALLENGE | ERROR.

#[global] Instance ArcjetMode_eq_dec : EqDecision ArcjetMode.
Proof. solve_decision. Defined.
#[global] Instance ArcjetRuleType_eq_dec : EqDecision ArcjetRuleType.
Proof. solve_decision. Defined.
#[global] Instance ArcjetConclusion_eq_dec : EqDecision ArcjetConclusion.
Proof. solve_decision. Defined.

Definition ruleTypeName (t : ArcjetRuleType) : string :=
  match t with
  | RATE_LIMIT => "RATE_LIMIT"
  | BOT => "BOT"
  | EMAIL => "EMAIL"
  | SENSITIVE_INFO => "SENSITIVE_INFO"
  | SHIELD => "SHIELD"
  end.

Definition conclusionName (c : ArcjetConclusion) : string :=
  match c with
  | ALLOW => "ALLOW"
  | DENY => "DENY"
  | CHALLENGE => "CHALLENGE"
  | ERROR => "ERROR"
  end.

(** An entity found in the body, with [identifiedType] already a string. *)
Record ArcjetIdentifiedEntity : Type := {
  entity_start : Z;
  entity_end : Z;
  identifiedType : string
}.

(** [ArcjetReason] and its subclasses. [GenericReason] is
    [new ArcjetReason()]; [ErrorReason err] is [new ArcjetErrorReason(err)]. *)
Inductive ArcjetReason : Type :=
| GenericReason
| ErrorReason (err : JsValue)
| SensitiveInfoReason (denied allowed : list ArcjetIdentifiedEntity)
| EmailReason (emailTypes : list string)
| BotReason (allowed denied : list string)
| RateLimitReason
| ShieldReason.

Record ArcjetRuleResult : Type := {
  ttl : Z;
  state : ArcjetRuleState;
  conclusion : ArcjetConclusion;
  reason : ArcjetReason
}.

(** [result.isDenied()] *)
Definition isDenied (r : ArcjetRuleResult) : bool :=
  bool_decide (conclusion r = DENY).

Record ArcjetDecision : Type := {
  d_conclusion : ArcjetConclusion;
  d_ttl : Z;
  d_reason : ArcjetReason;
  d_results : list ArcjetRuleResult
}.

(** [new ArcjetDenyDecision({ttl, reason, results})] *)
Definition ArcjetDenyDecision (ttl : Z) (reason : ArcjetReason)
  (results : list ArcjetRuleResult) : ArcjetDecision :=
  {| d_conclusion := DENY; d_ttl := ttl; d_reason := reason;
     d_results := results |}.

(** [new ArcjetErrorDecision({ttl, reason, results})] *)
Definition ArcjetErrorDecision (ttl : Z) (reason : ArcjetReason)
  (results : list ArcjetRuleResult) : ArcjetDecision :=
  {| d_conclusion := ERROR; d_ttl := ttl; d_reason := reason;
     d_results := results |}.

(** [decision.isDenied()] *)
Definition decisionIsDenied (d : ArcjetDecision) : bool :=
  bool_decide (d_conclusion d = DENY).

(** ** Requests, details and contexts *)

(** Modelled from the spec: the header container of [@arcjet/headers] is
    represented by the sequence its [entries()] yields, (lower-cased name,
    value) pairs in insertion order; constructing it from an absent value
    gives the empty container. *)
Definition ArcjetHeaders : Type := list (string * string).

(** [ArcjetRequest]: the typed optional fields, and in [req_props] every
    other own property of the object in insertion order. *)
Record ArcjetRequest : Type := {
  req_ip : option string;
  req_method : option string;
  req_protocol : option string;
  req_host : option string;
  req_path : option string;
  req_headers : option ArcjetHeaders;
  req_cookies : option string;
  req_query : option string;
  req_props : list (string * JsValue)
}.

(** [{}] *)
Definition emptyRequest : ArcjetRequest :=
  {| req_ip := None; req_method := None; req_protocol := None;
     req_host := None; req_path := None; req_headers := None;
     req_cookies := None; req_query := None; req_props := [] |}.

Record ArcjetRequestDetails : Type := {
  ip : option string;
  method : option string;
  protocol : option string;
  host : option string;
  path : option string;
  headers : ArcjetHeaders;
  cookies : option string;
  query : option string;
  extra : list (string * string);
  email : option string
}.

Definition knownFields : list string :=
  ["ip"; "method"; "protocol"; "host"; "path"; "headers"; "body"; "email";
   "cookies"; "query"].

Definition isUnknownRequestProperty (key : string) : bool :=
  negb (bool_decide (key ∈ knownFields)).

(** [toString(value)] *)
Definition toString (value : JsValue) : string :=
  match value with
  | JsString s => s
  | JsNumber text => text
  | JsBoolean b => if b then "true" else "false"
  | _ => "<unsupported value>"
  end.

(** [extraProps(details)]: [Map.set] keeps the position of a key already
    present; an object has no duplicate keys, so the entries are kept in
    order. The typed fields of the request are all known fields. *)
Definition extraProps (request : ArcjetRequest) : list (string * string) :=
  omap (fun '(key, value) =>
          if isUnknownRequestProperty key then Some (key, toString value)
          else None)
       (req_props request).

(** [request.email] guarded by [typeof request.email === "string"]. *)
Definition requestEmail (request : ArcjetRequest) : option string :=
  match snd <$> list_find (fun kv => fst kv = "email") (req_props request) with
  | Some (_, JsString s) => Some s
  | _ => None
  end.

(** The frozen [details] object built at the start of [protect]. *)
Definition mkDetails (request : ArcjetRequest) : ArcjetRequestDetails :=
  {| ip := req_ip request;
     method := req_method request;
     protocol := req_protocol request;
     host := req_host request;
     path := req_path request;
     headers := default [] (req_headers request);
     cookies := req_cookies request;
     query := req_query request;
     extra := extraProps request;
     email := requestEmail request |}.

(** [toAnalyzeRequest(request)]: the headers flattened into a plain object,
    by assignment in iteration order. *)
Record AnalyzeRequest : Type := {
  analyze_details : ArcjetRequestDetails;
  analyze_headers : gmap string string
}.

Definition toAnalyzeRequest (request : ArcjetRequestDetails) : AnalyzeRequest :=
  {| analyze_details := request;
     analyze_headers :=
       fold_left (fun hs '(key, value) => <[key := value]> hs)
                 (headers request) ∅ |}.

(** [ArcjetAdapterContext]: [getBody()] resolves to the body, resolves to
    [undefined], or rejects. Further adapter fields are not inspected by this
    file and are left out. *)
Record ArcjetAdapterContext : Type := {
  getBody : Outcome (option string)
}.

(** [baseContext = {key, log, characteristics, ...ctx}] *)
Record BaseContext : Type := {
  base_key : string;
  base_characteristics : list string;
  base_ctx : ArcjetAdapterContext
}.

(** [context = {...baseContext, fingerprint, runtime}] *)
Record ArcjetContext : Type := {
  ctx_base : BaseContext;
  fingerprint : string;
  runtime : string
}.

(** ** Rules *)

(** The fields a rule variant carries besides [type], [priority], [mode]
    and [characteristics]; the constructor of a rate limit stands for its
    [algorithm]. *)
Inductive RuleFields : Type :=
| TokenBucketFields (match_ : option string) (refillRate interval capacity : Z)
| FixedWindowFields (match_ : option string) (max window : Z)
| SlidingWindowFields (match_ : option string) (max interval : Z)
| BotFields (allow deny : list string)
| EmailFields (block : list string)
    (requireTopLevelDomain allowDomainLiteral : bool)
| SensitiveInfoFields (allow deny : list string)
| ShieldFields.

(** The [validate]/[protect] pair of a local rule. [validate] is an
    assertion: it returns or throws. [protect] is awaited: it resolves to a
    result or rejects. *)
Record ArcjetLocalRule : Type := {
  rule_validate : ArcjetContext -> ArcjetRequestDetails -> Outcome unit;
  rule_protect :
    ArcjetContext -> ArcjetRequestDetails -> Outcome ArcjetRuleResult
}.

(** A rule object. [characteristics] is the one field the engine assigns
    to; it is [undefined] on every rule that is not a rate limit. [local]
    holds the two methods when the object has them. *)
Record ArcjetRule : Type := {
  type : ArcjetRuleType;
  priority : Z;
  mode : ArcjetMode;
  characteristics : option (list string);
  fields : RuleFields;
  local : option ArcjetLocalRule
}.

(** [rule.characteristics = cs] *)
Definition setCharacteristics (cs : list string) (rule : ArcjetRule)
  : ArcjetRule :=
  {| type := type rule; priority := priority rule; mode := mode rule;
     characteristics := Some cs; fields := fields rule;
     local := local rule |}.

(** [isLocalRule(rule)]: both methods are present; the narrowed rule. *)
Definition isLocalRule (rule : ArcjetRule) : option ArcjetLocalRule :=
  local rule.

(** Modelled from the spec: [isRateLimitRule] of [@arcjet/protocol/convert.js]
    recognises the RATE_LIMIT rules. *)
Definition isRateLimitRule (rule : ArcjetRule) : bool :=
  bool_decide (type rule = RATE_LIMIT).

Module Priority.
Definition SensitiveInfo : Z := 1.
Definition Shield : Z := 2.
Definition RateLimit : Z := 3.
Definition BotDetection : Z := 4.
Definition EmailValidation : Z := 5.
End Priority.

(** [opt.mode === "LIVE" ? "LIVE" : "DRY_RUN"] *)
Definition modeOf (mode : option string) : ArcjetMode :=
  match mode with
  | Some m => if bool_decide (m = "LIVE") then LIVE else DRY_RUN
  | None => DRY_RUN
  end.

(** *** Rate limits: [fixedWindow] *)

Record FixedWindowRateLimitOptions : Type := {
  fw_mode : option string;
  fw_match : option string;
  fw_characteristics : option (list string);
  fw_window : JsValue;
  fw_max : Z
}.

Section RateLimit.

(** [duration.parse] of [@arcjet/duration], applied to a string or number. *)
Variable durationParse : JsValue -> Outcome Z.

Fixpoint fixedWindowRules (opts : list FixedWindowRateLimitOptions)
  : Outcome (list ArcjetRule) :=
  match opts with
  | [] => Ok []
  | opt :: opts' =>
      match durationParse (fw_window opt) with
      | Throw e => Throw e
      | Ok window =>
          match fixedWindowRules opts' with
          | Throw e => Throw e
          | Ok rules =>
              Ok ({| type := RATE_LIMIT;
                     priority := Priority.RateLimit;
                     mode := modeOf (fw_mode opt);
                     characteristics := fw_characteristics opt;
                     fields :=
                       FixedWindowFields (fw_match opt) (fw_max opt) window;
                     local := None |} :: rules)
          end
      end
  end.

(** [fixedWindow(options?, ...additionalOptions)] *)
Definition fixedWindow (options : option FixedWindowRateLimitOptions)
  (additionalOptions : list FixedWindowRateLimitOptions)
  : Outcome (list ArcjetRule) :=
  match options with
  | None => Ok []
  | Some options => fixedWindowRules (options :: additionalOptions)
  end.

End RateLimit.

(** *** [shield] *)

Record ShieldOptions : Type := { shield_mode : option string }.

(** [shield(options?, ...additionalOptions)] *)
Definition shield (options : option ShieldOptions)
  (additionalOptions : list ShieldOptions) : list ArcjetRule :=
  map (fun opt =>
         {| type := SHIELD; priority := Priority.Shield;
            mode := modeOf (shield_mode opt); characteristics := None;
            fields := ShieldFields; local := None |})
      (default {| shield_mode := None |} options :: additionalOptions).

(** *** [sensitiveInfo] *)

(** [SensitiveInfoEntity] of [@arcjet/analyze]. *)
Inductive SensitiveInfoEntity : Type :=
| EntityEmail
| EntityPhoneNumber
| EntityIpAddress
| EntityCreditCardNumber
| EntityCustom (val : string).

Record DetectedSensitiveInfoEntity : Type := {
  detected_start : Z;
  detected_end : Z;
  detected_identifiedType : SensitiveInfoEntity
}.

Record SensitiveInfoResult : Type := {
  result_allowed : list DetectedSensitiveInfoEntity;
  result_denied : list DetectedSensitiveInfoEntity
}.

Inductive EntitiesTag : Type := TagAllow | TagDeny.

Record SensitiveInfoEntities : Type := {
  entities_tag : EntitiesTag;
  entities_val : list SensitiveInfoEntity
}.

(** The [detectSensitiveInfo] operation of [@arcjet/analyze]:
    [(context, body, entities, contextWindowSize, detect?)]. *)
Definition DetectSensitiveInfo : Type :=
  ArcjetContext -> string -> SensitiveInfoEntities -> Z ->
  option (list string -> list SensitiveInfoEntity) ->
  Outcome SensitiveInfoResult.

(** [protocolSensitiveInfoEntitiesToAnalyze(entity)]; the argument is a
    string by type, so the guard that throws on other values never fires. *)
Definition protocolSensitiveInfoEntitiesToAnalyze (entity : string)
  : SensitiveInfoEntity :=
  if bool_decide (entity = "EMAIL") then EntityEmail
  else if bool_decide (entity = "PHONE_NUMBER") then EntityPhoneNumber
  else if bool_decide (entity = "IP_ADDRESS") then EntityIpAddress
  else if bool_decide (entity = "CREDIT_CARD_NUMBER")
       then EntityCreditCardNumber
  else EntityCustom entity.

Definition analyzeSensitiveInfoEntitiesToString (entity : SensitiveInfoEntity)
  : string :=
  match entity with
  | EntityEmail => "EMAIL"
  | EntityIpAddress => "IP_ADDRESS"
  | EntityCreditCardNumber => "CREDIT_CARD_NUMBER"
  | EntityPhoneNumber => "PHONE_NUMBER"
  | EntityCustom val => val
  end.

Definition convertAnalyzeDetectedSensitiveInfoEntity
  (detectedEntities : list DetectedSensitiveInfoEntity)
  : list ArcjetIdentifiedEntity :=
  map (fun detectedEntity =>
         {| entity_start := detected_start detectedEntity;
            entity_end := detected_end detectedEntity;
            identifiedType :=
              analyzeSensitiveInfoEntitiesToString
                (detected_identifiedType detectedEntity) |})
      detectedEntities.

(** [SensitiveInfoOptions<Detect>]. The custom [detect] function may return
    [undefined] for a token. The elements of [allow] and [deny] are strings
    by type, so filtering out [undefined] elements keeps them all. *)
Record SensitiveInfoOptions : Type := {
  si_allow : option (list string);
  si_deny : option (list string);
  si_contextWindowSize : option Z;
  si_mode : option string;
  si_detect : option (list string -> list (option string))
}.

(** [n || 1] on an optional number: [undefined] and [0] are falsy. *)
Definition orOne (n : option Z) : Z :=
  match n with
  | Some n => if n =? 0 then 1 else n
  | None => 1
  end.

Section SensitiveInfo.

Variable detectSensitiveInfo : DetectSensitiveInfo.

(** The detector handed to the analyzer: [detect] with the [undefined]
    entries dropped and the rest converted. *)
Definition convertDetect (detect : list string -> list (option string))
  : list string -> list SensitiveInfoEntity :=
  fun tokens =>
    map protocolSensitiveInfoEntitiesToAnalyze (omap id (detect tokens)).

(** The [entities] argument: [allow] when only it is an array, [deny]
    whenever that is an array, and an empty allow list otherwise. *)
Definition entitiesOf (opt : SensitiveInfoOptions) : SensitiveInfoEntities :=
  let '(entitiesTag, entitiesVal) :=
    match si_allow opt with
    | Some allow => (TagAllow, map protocolSensitiveInfoEntitiesToAnalyze allow)
    | None => (TagAllow, [])
    end in
  let '(entitiesTag, entitiesVal) :=
    match si_deny opt with
    | Some deny => (TagDeny, map protocolSensitiveInfoEntitiesToAnalyze deny)
    | None => (entitiesTag, entitiesVal)
    end in
  {| entities_tag := entitiesTag; entities_val := entitiesVal |}.

(** What [protect] returns from the analyzer's answer. *)
Definition sensitiveInfoResult (result : SensitiveInfoResult)
  : ArcjetRuleResult :=
  let reason :=
    SensitiveInfoReason
      (convertAnalyzeDetectedSensitiveInfoEntity (result_denied result))
      (convertAnalyzeDetectedSensitiveInfoEntity (result_allowed result)) in
  match result_denied result with
  | [] => {| ttl := 0; state := RUN; conclusion := ALLOW; reason := reason |}
  | _ :: _ =>
      {| ttl := 0; state := RUN; conclusion := DENY; reason := reason |}
  end.

(** The [protect] method of the rule built from [opt], inside the call
    [sensitiveInfo(options, ...additionalOptions)]: the closure captures both
    the loop variable [opt] and the first argument [options]. *)
Definition sensitiveInfoProtect (options opt : SensitiveInfoOptions)
  (context : ArcjetContext) (details : ArcjetRequestDetails)
  : Outcome ArcjetRuleResult :=
  match getBody (base_ctx (ctx_base context)) with
  | Throw e => Throw e
  | Ok None =>
      Ok {| ttl := 0; state := NOT_RUN; conclusion := ERROR;
            reason :=
              ErrorReason
                (JsString
                   "Couldn't read the body of the request to perform sensitive info identification.") |}
  | Ok (Some body) =>
      let convertedDetect := convertDetect <$> si_detect opt in
      let entities := entitiesOf opt in
      match
        detectSensitiveInfo context body entities
          (orOne (si_contextWindowSize options)) convertedDetect
      with
      | Throw e => Throw e
      | Ok result => Ok (sensitiveInfoResult result)
      end
  end.

Definition sensitiveInfoRule (options opt : SensitiveInfoOptions)
  : ArcjetRule :=
  {| type := SENSITIVE_INFO;
     priority := Priority.SensitiveInfo;
     mode := modeOf (si_mode opt);
     characteristics := None;
     fields :=
       SensitiveInfoFields (default [] (si_allow opt))
                           (default [] (si_deny opt));
     local :=
       Some {| rule_validate := fun _ _ => Ok tt;
               rule_protect := sensitiveInfoProtect options opt |} |}.

(** The loop over [[options, ...additionalOptions]]: it throws at the first
    option object that sets both [allow] and [deny]. *)
Fixpoint sensitiveInfoRules (options : SensitiveInfoOptions)
  (opts : list SensitiveInfoOptions) : Outcome (list ArcjetRule) :=
  match opts with
  | [] => Ok []
  | opt :: opts' =>
      if bool_decide (is_Some (si_allow opt))
         && bool_decide (is_Some (si_deny opt))
      then
        Throw (JsError "Both allow and deny cannot be provided to sensitiveInfo")
      else
        match sensitiveInfoRules options opts' with
        | Throw e => Throw e
        | Ok rules => Ok (sensitiveInfoRule options opt :: rules)
        end
  end.

(** [sensitiveInfo(options, ...additionalOptions)] *)
Definition sensitiveInfo (options : SensitiveInfoOptions)
  (additionalOptions : list SensitiveInfoOptions)
  : Outcome (list ArcjetRule) :=
  sensitiveInfoRules options (options :: additionalOptions).

End SensitiveInfo.

(** ** The sort used on rule lists

    [Array.prototype.sort] with the comparator [a.priority - b.priority] is
    a stable ascending sort. Insertion from the right puts each element
    before the elements of equal key that followed it in the input. *)

Section Sort.

Context {A : Type} (key : A -> Z).

Fixpoint insertByKey (x : A) (l : list A) : list A :=
  match l with
  | [] => [x]
  | y :: l' => if key x <=? key y then x :: l else y :: insertByKey x l'
  end.

Definition sortByKey (l : list A) : list A := foldr insertByKey [] l.

(** The elements of [l] whose key is [p], in the order of [l]. *)
Definition withKey (p : Z) (l : list A) : list A :=
  List.filter (fun x => key x =? p) l.

(** Two lists agree on the order of their elements of equal key. *)
Definition sameTieOrder (l1 l2 : list A) : Prop :=
  forall p, withKey p l1 = withKey p l2.

End Sort.

(** ** The world the engine runs in *)

(** Locations of rule objects. *)
Definition loc : Type := nat.

(** Calls the engine makes to its collaborators, in order. Rule lists and
    results are recorded as they are at the moment of the call. *)
Inductive Event : Type :=
| LogDebug (msg : string)
| LogWarn (msg : string) (args : list string)
| LogError (msg : string) (args : list string)
| CacheGet (key : string)
| CacheTtl (key : string)
| CacheSet (key : string) (reason : ArcjetReason) (expiresAt : Z)
| RuleValidate (idx : nat)
| RuleProtect (idx : nat)
| ClientDecide (context : ArcjetContext) (details : ArcjetRequestDetails)
    (rules : list ArcjetRule)
| ClientReport (context : ArcjetContext) (details : ArcjetRequestDetails)
    (decision : ArcjetDecision) (rules : list ArcjetRule).

(** [clock n] is what the [n]-th call of [nowInSeconds()] returns. *)
Record World : Type := {
  clock : nat -> Z;
  reads : nat;
  blockCache : Cache.t ArcjetReason;
  store : loc -> ArcjetRule;
  trace : list Event
}.

Definition M (A : Type) : Type := World -> Outcome A * World.

#[global] Instance M_ret : MRet M := fun A a w => (Ok a, w).
#[global] Instance M_bind : MBind M := fun A B f m w =>
  match m w with
  | (Ok a, w') => f a w'
  | (Throw e, w') => (Throw e, w')
  end.

(** [try { body } catch (err) { handler }] *)
Definition try_catch {A : Type} (body : M A) (handler : JsValue -> M A)
  : M A :=
  fun w =>
    match body w with
    | (Ok a, w') => (Ok a, w')
    | (Throw e, w') => handler e w'
    end.

(** A call that returns or throws, without touching the world. *)
Definition call {A : Type} (o : Outcome A) : M A := fun w => (o, w).

(** The world after the calls [es] have been made. *)
Definition addTrace (w : World) (es : list Event) : World :=
  {| clock := clock w; reads := reads w; blockCache := blockCache w;
     store := store w; trace := trace w ++ es |}.

Definition emit (e : Event) : M unit := fun w => (Ok tt, addTrace w [e]).

(** [nowInSeconds()] *)
Definition nowInSeconds : M Z :=
  fun w =>
    (Ok (clock w (reads w)),
     {| clock := clock w; reads := S (reads w); blockCache := blockCache w;
        store := store w; trace := trace w |}).

Definition getCache : M (Cache.t ArcjetReason) := fun w => (Ok (blockCache w), w).

Definition putCache (c : Cache.t ArcjetReason) : M unit :=
  fun w =>
    (Ok tt,
     {| clock := clock w; reads := reads w; blockCache := c;
        store := store w; trace := trace w |}).

(** Reading a rule object, and all the objects of a rule list. *)
Definition deref (l : loc) : M ArcjetRule := fun w => (Ok (store w l), w).

Definition derefAll (rules : list loc) : M (list ArcjetRule) :=
  fun w => (Ok (map (store w) rules), w).

(** Assigning to a rule object. *)
Definition assign (l : loc) (rule : ArcjetRule) : M unit :=
  fun w =>
    (Ok tt,
     {| clock := clock w; reads := reads w; blockCache := blockCache w;
        store := <[l := rule]> (store w); trace := trace w |}).

(** [blockCache.get(key)], [blockCache.ttl(key)] and [blockCache.set(...)]
    as the engine calls them. *)
Definition blockCache_get (key : string) : M (option ArcjetReason) :=
  emit (CacheGet key);;
  now ← nowInSeconds;
  c ← getCache;
  let '(value, c') := Cache.get now c key in
  putCache c';;
  mret value.

Definition blockCache_ttl (key : string) : M Z :=
  emit (CacheTtl key);;
  now ← nowInSeconds;
  c ← getCache;
  mret (Cache.ttl now c key).

Definition blockCache_set (key : string) (value : ArcjetReason)
  (expiresAt : Z) : M unit :=
  emit (CacheSet key value expiresAt);;
  c ← getCache;
  putCache (Cache.set c key value expiresAt).

(** ** The engine: [arcjet(options)] *)

(** The remote client. [report] is fire-and-forget and appears as a
    [ClientReport] event. *)
Record Client : Type := {
  decide :
    ArcjetContext -> ArcjetRequestDetails -> list ArcjetRule ->
    Outcome ArcjetDecision
}.

(** [ArcjetOptions] with the client and the logger present. *)
Record ArcjetOptions : Type := {
  key : string;
  rules : list (list loc);
  opt_characteristics : option (list string);
  client : Client
}.

(** The format string of the warning logged when a DRY_RUN rule denies; it
    holds [%s] between double quotes. *)
Definition dryRunWarning : string :=
  "Dry run mode is enabled for " +:+ String "034"%char "%s" +:+
  String "034"%char " rule. Overriding decision. Decision was: %s".

(** How the rule loop of [protect] ends: by [return decision] inside the
    loop, or by running off the end with the results gathered. *)
Inductive LoopExit : Type :=
| Returned (decision : ArcjetDecision)
| Completed (results : list ArcjetRuleResult).

Section Engine.

(** [generateFingerprint] of [@arcjet/analyze] and [runtime()] of
    [@arcjet/runtime]. *)
Variable generateFingerprint : BaseContext -> AnalyzeRequest -> string.
Variable rt : string.
Variable options : ArcjetOptions.

(** [rootRules = rules.flat(1).sort(...)], given the rule objects. *)
Definition rootRules (st : loc -> ArcjetRule) : list loc :=
  sortByKey (fun l => priority (st l)) (concat (rules options)).

(** The result every rule starts with. *)
Definition notRun : ArcjetRuleResult :=
  {| ttl := 0; state := NOT_RUN; conclusion := ALLOW;
     reason := GenericReason |}.

(** The first loop of [protect]: one NOT_RUN result per rule, and the
    engine's characteristics assigned to the rate limit rules that have
    none. *)
Fixpoint initResults (engineCharacteristics : list string) (rules : list loc)
  : M (list ArcjetRuleResult) :=
  match rules with
  | [] => mret []
  | l :: rules' =>
      candidate_rule ← deref l;
      (if isRateLimitRule candidate_rule then
         match characteristics candidate_rule with
         | None =>
             assign l (setCharacteristics engineCharacteristics candidate_rule)
         | Some _ => mret tt
         end
       else mret tt);;
      results ← initResults engineCharacteristics rules';
      mret (notRun :: results)
  end.

(** The body of the [try] around a local rule, and its [catch]. *)
Definition runLocalRule (context : ArcjetContext)
  (details : ArcjetRequestDetails) (idx : nat) (rule : ArcjetRule)
  (localRule : ArcjetLocalRule) : M ArcjetRuleResult :=
  try_catch
    (emit (RuleValidate idx);;
     call (rule_validate localRule context details);;
     emit (RuleProtect idx);;
     result ← call (rule_protect localRule context details);
     emit (LogDebug "Local rule result:");;
     mret result)
    (fun err =>
       emit (LogError "Failure running rule: %s due to %s"
               [ruleTypeName (type rule); errorMessage err]);;
       mret {| ttl := 0; state := RUN; conclusion := ERROR;
               reason := ErrorReason err |}).

(** The loop [for (const [idx, rule] of rules.entries())], from index [idx]
    on; [rest] are the rules not yet visited and [rules] the whole list. *)
Fixpoint evalRules (context : ArcjetContext) (details : ArcjetRequestDetails)
  (rules : list loc) (idx : nat) (rest : list loc)
  (results : list ArcjetRuleResult) : M LoopExit :=
  match rest with
  | [] => mret (Completed results)
  | l :: rest' =>
      rule ← deref l;
      match isLocalRule rule with
      | None => evalRules context details rules (S idx) rest' results
      | Some localRule =>
          result ← runLocalRule context details idx rule localRule;
          let results := <[idx := result]> results in
          if isDenied result then
            let decision :=
              ArcjetDenyDecision (ttl result) (reason result) results in
            snapshot ← derefAll rules;
            emit (ClientReport context details decision snapshot);;
            if bool_decide (mode rule ≠ DRY_RUN) then
              (if 0 <? ttl result then
                 emit (LogDebug "Caching decision for %d seconds");;
                 now ← nowInSeconds;
                 blockCache_set (fingerprint context) (d_reason decision)
                   (now + d_ttl decision)
               else mret tt);;
              mret (Returned decision)
            else
              emit (LogWarn dryRunWarning
                      [ruleTypeName (type rule);
                       conclusionName (d_conclusion decision)]);;
              evalRules context details rules (S idx) rest' results
          else evalRules context details rules (S idx) rest' results
      end
  end.

(** The remote decision: the [try]/[catch] at the end of [protect]. *)
Definition remoteDecision (context : ArcjetContext)
  (details : ArcjetRequestDetails) (rules : list loc)
  (results : list ArcjetRuleResult) : M ArcjetDecision :=
  try_catch
    (snapshot ← derefAll rules;
     emit (ClientDecide context details snapshot);;
     decision ← call (decide (client options) context details snapshot);
     (if decisionIsDenied decision && (0 <? d_ttl decision) then
        emit (LogDebug "decide: Caching block locally for %d seconds");;
        now ← nowInSeconds;
        blockCache_set (fingerprint context) (d_reason decision)
          (now + d_ttl decision)
      else mret tt);;
     mret decision)
    (fun err =>
       emit (LogError "Encountered problem getting remote decision: %s"
               [errorMessage err]);;
       let decision := ArcjetErrorDecision 0 (ErrorReason err) results in
       snapshot ← derefAll rules;
       emit (ClientReport context details decision snapshot);;
       mret decision).

(** [baseContext] and the frozen [context] that [protect] builds. *)
Definition baseContextOf (ctx : ArcjetAdapterContext) : BaseContext :=
  {| base_key := key options;
     base_characteristics := default [] (opt_characteristics options);
     base_ctx := ctx |}.

Definition contextOf (ctx : ArcjetAdapterContext)
  (details : ArcjetRequestDetails) : ArcjetContext :=
  {| ctx_base := baseContextOf ctx;
     fingerprint :=
       generateFingerprint (baseContextOf ctx) (toAnalyzeRequest details);
     runtime := rt |}.

(** [protect(rules, ctx, request)] *)
Definition protect (rules : list loc) (ctx : ArcjetAdapterContext)
  (request : option ArcjetRequest) : M ArcjetDecision :=
  let request := default emptyRequest request in
  let details := mkDetails request in
  let characteristics := default [] (opt_characteristics options) in
  let context := contextOf ctx details in
  let fingerprint := fingerprint context in
  emit (LogDebug "fingerprint (%s): %s");;
  (if bool_decide (length rules < 1)%nat then
     emit (LogWarn
             "Calling `protect()` with no rules is deprecated. Did you mean to configure the Shield rule?"
             [])
   else mret tt);;
  if bool_decide (10 < length rules)%nat then
    emit (LogError "Failure running rules. Only 10 rules may be specified." []);;
    let decision :=
      ArcjetErrorDecision 0
        (ErrorReason (JsString "Only 10 rules may be specified")) [] in
    emit (ClientReport context details decision []);;
    mret decision
  else
    results ← initResults characteristics rules;
    existingBlockReason ← blockCache_get fingerprint;
    match existingBlockReason with
    | Some existingBlockReason =>
        emit (LogDebug "decide: alreadyBlocked");;
        ttl ← blockCache_ttl fingerprint;
        let decision := ArcjetDenyDecision ttl existingBlockReason results in
        snapshot ← derefAll rules;
        emit (ClientReport context details decision snapshot);;
        emit (LogDebug "decide: already blocked");;
        mret decision
    | None =>
        exit ← evalRules context details rules 0 rules results;
        match exit with
        | Returned decision => mret decision
        | Completed results => remoteDecision context details rules results
        end
    end.

(** [withRule(baseRules, rule)]: the rule list of the derived engine. *)
Definition withRule (st : loc -> ArcjetRule) (baseRules : list loc)
  (rule : list loc) : list loc :=
  sortByKey (fun l => priority (st l)) (baseRules ++ rule).

End Engine.


(** ** Auxiliary definitions for the statements *)

(** The rule objects after the first loop of [protect] has run over
    [rules]. *)
Fixpoint injectCharacteristics (engineCharacteristics : list string)
  (rules : list loc) (st : loc -> ArcjetRule) : loc -> ArcjetRule :=
  match rules with
  | [] => st
  | l :: rules' =>
      let candidate_rule := st l in
      injectCharacteristics engineCharacteristics rules'
        (if isRateLimitRule candidate_rule then
           match characteristics candidate_rule with
           | None =>
               <[l := setCharacteristics engineCharacteristics candidate_rule]> st
           | Some _ => st
           end
         else st)
  end.

Definition setStore (w : World) (st : loc -> ArcjetRule) : World :=
  {| clock := clock w; reads := reads w; blockCache := blockCache w;
     store := st; trace := trace w |}.

(** The world in which the rule loop of [protect] starts when the cache
    holds no live block for [fingerprint]: the characteristics are assigned,
    the clock has been read once, and the cache has dropped the entry. *)
Definition beforeRules (engineCharacteristics : list string)
  (rules : list loc) (fingerprint : string) (w : World) : World :=
  {| clock := clock w;
     reads := S (reads w);
     blockCache :=
       snd (Cache.get (clock w (reads w)) (blockCache w) fingerprint);
     store := injectCharacteristics engineCharacteristics rules (store w);
     trace :=
       trace w
       ++ LogDebug "fingerprint (%s): %s"
          :: (if bool_decide (length rules < 1)%nat then
                [LogWarn
                   "Calling `protect()` with no rules is deprecated. Did you mean to configure the Shield rule?"
                   []]
              else [])
       ++ [CacheGet fingerprint] |}.

(** A list sorted by key, ascending. *)
Definition sortedByKey {A : Type} (key : A -> Z) (l : list A) : Prop :=
  StronglySorted (fun x y => key x <= key y) l.

(** The result the engine records for a rule that threw [err]. *)
Definition errorResult (err : JsValue) : ArcjetRuleResult :=
  {| ttl := 0; state := RUN; conclusion := ERROR; reason := ErrorReason err |}.

(** What the [try]/[catch] around a local rule leaves in [results[idx]],
    and the calls it makes. *)
Definition localResult (localRule : ArcjetLocalRule)
  (context : ArcjetContext) (details : ArcjetRequestDetails)
  : ArcjetRuleResult :=
  match rule_validate localRule context details with
  | Throw err => errorResult err
  | Ok _ =>
      match rule_protect localRule context details with
      | Throw err => errorResult err
      | Ok result => result
      end
  end.

Definition failureLog (rule : ArcjetRule) (err : JsValue) : Event :=
  LogError "Failure running rule: %s due to %s"
    [ruleTypeName (type rule); errorMessage err].

Definition localEvents (idx : nat) (rule : ArcjetRule)
  (localRule : ArcjetLocalRule) (context : ArcjetContext)
  (details : ArcjetRequestDetails) : list Event :=
  match rule_validate localRule context details with
  | Throw err => [RuleValidate idx; failureLog rule err]
  | Ok _ =>
      match rule_protect localRule context details with
      | Throw err => [RuleValidate idx; RuleProtect idx; failureLog rule err]
      | Ok _ =>
          [RuleValidate idx; RuleProtect idx; LogDebug "Local rule result:"]
      end
  end.

(** The world after [blockCache.set(key, reason, nowInSeconds() + ttl)],
    with the debug message [msg] logged before it. *)
Definition cacheBlock (msg : string) (key : string) (reason : ArcjetReason)
  (ttl : Z) (w : World) : World :=
  let expiresAt := clock w (reads w) + ttl in
  {| clock := clock w; reads := S (reads w);
     blockCache := Cache.set (blockCache w) key reason expiresAt;
     store := store w;
     trace := trace w ++ [LogDebug msg; CacheSet key reason expiresAt] |}.

(** [options] with another rule list. *)
Definition withRules (options : ArcjetOptions) (rules : list (list loc))
  : ArcjetOptions :=
  {| key := key options; rules := rules;
     opt_characteristics := opt_characteristics options;
     client := client options |}.

(** What a rule object keeps across a [protect] call: every field but
    [characteristics]. *)
Definition sameButCharacteristics (r r' : ArcjetRule) : Prop :=
  type r' = type r /\ priority r' = priority r /\ mode r' = mode r
  /\ fields r' = fields r /\ local r' = local r.

(** The kind of a call, for reading traces. *)
Inductive EventKind : Type :=
| KDebug | KWarn | KError | KCacheGet | KCacheTtl | KCacheSet
| KValidate (idx : nat) | KProtect (idx : nat) | KDecide | KReport.

Definition eventKind (e : Event) : EventKind :=
  match e with
  | LogDebug _ => KDebug
  | LogWarn _ _ => KWarn
  | LogError _ _ => KError
  | CacheGet _ => KCacheGet
  | CacheTtl _ => KCacheTtl
  | CacheSet _ _ _ => KCacheSet
  | RuleValidate idx => KValidate idx
  | RuleProtect idx => KProtect idx
  | ClientDecide _ _ _ => KDecide
  | ClientReport _ _ _ _ => KReport
  end.

(** The calls made after the first [n]. *)
Definition callsAfter (n : nat) (w : World) : list EventKind :=
  map eventKind (drop n (trace w)).

(** ** A concrete scenario

    Stand-ins for the collaborators and a handful of rule objects built by
    the constructors above, used to run the engine on concrete inputs. *)

Module Scenario.

(** A fingerprint that is the client address. *)
Definition fingerprintOf : BaseContext -> AnalyzeRequest -> string :=
  fun _ request => default "anonymous" (ip (analyze_details request)).

Definition rt : string := "node".

(** An analyzer that reports every entity of a deny list as found, in a
    span as long as the context window it was given. *)
Definition detect : DetectSensitiveInfo :=
  fun _ _ entities contextWindowSize _ =>
    Ok {| result_allowed := [];
          result_denied :=
            match entities_tag entities with
            | TagDeny =>
                map (fun e => {| detected_start := 0;
                                 detected_end := contextWindowSize;
                                 detected_identifiedType := e |})
                    (entities_val entities)
            | TagAllow => []
            end |}.

(** The value of a string of decimal digits. *)
Fixpoint digitsValue (acc : Z) (s : string) : option Z :=
  match s with
  | EmptyString => Some acc
  | String c s' =>
      let d := Z.of_nat (nat_of_ascii c) - 48 in
      if (0 <=? d) && (d <=? 9) then digitsValue (10 * acc + d) s' else None
  end.

(** A stand-in for [duration.parse] that accepts a number of whole
    seconds. *)
Definition durationParse : JsValue -> Outcome Z :=
  fun v =>
    match v with
    | JsNumber (String c text) =>
        match digitsValue 0 (String c text) with
        | Some n => Ok n
        | None => Throw (JsError "invalid duration")
        end
    | _ => Throw (JsError "invalid duration")
    end.

Definition denyEmail : SensitiveInfoOptions :=
  {| si_allow := None; si_deny := Some ["EMAIL"];
     si_contextWindowSize := Some 3; si_mode := Some "LIVE";
     si_detect := None |}.

Definition denyPhone : SensitiveInfoOptions :=
  {| si_allow := None; si_deny := Some ["PHONE_NUMBER"];
     si_contextWindowSize := Some 7; si_mode := Some "LIVE";
     si_detect := None |}.

Definition dryDenyEmail : SensitiveInfoOptions :=
  {| si_allow := None; si_deny := Some ["EMAIL"];
     si_contextWindowSize := None; si_mode := None; si_detect := None |}.

Definition oneMinuteWindow : FixedWindowRateLimitOptions :=
  {| fw_mode := Some "LIVE"; fw_match := None; fw_characteristics := None;
     fw_window := JsNumber "60"; fw_max := 10 |}.

Definition built {A : Type} (o : Outcome (list A)) : list A :=
  match o with
  | Ok l => l
  | Throw _ => []
  end.

(** The rule objects, by location:
    0 and 1 from [sensitiveInfo(denyEmail, denyPhone)],
    2 from [fixedWindow(oneMinuteWindow)], 3 from [shield()],
    4 from [sensitiveInfo(dryDenyEmail)]. *)
Definition objects : list ArcjetRule :=
  built (sensitiveInfo detect denyEmail [denyPhone])
  ++ built (fixedWindow durationParse (Some oneMinuteWindow) [])
  ++ shield None []
  ++ built (sensitiveInfo detect dryDenyEmail []).

Definition noRule : ArcjetRule :=
  {| type := SHIELD; priority := Priority.Shield; mode := DRY_RUN;
     characteristics := None; fields := ShieldFields; local := None |}.

Definition st : loc -> ArcjetRule := fun l => nth l objects noRule.

Definition allowed : ArcjetDecision :=
  {| d_conclusion := ALLOW; d_ttl := 0; d_reason := GenericReason;
     d_results := [] |}.

Definition blocked : ArcjetDecision :=
  {| d_conclusion := DENY; d_ttl := 60; d_reason := ShieldReason;
     d_results := [] |}.

Definition allowAll : Client := {| decide := fun _ _ _ => Ok allowed |}.
Definition denyAll : Client := {| decide := fun _ _ _ => Ok blocked |}.
Definition failing : Client :=
  {| decide := fun _ _ _ => Throw (JsError "deadline exceeded") |}.

Definition opts (c : Client) : ArcjetOptions :=
  {| key := "ajkey_test"; rules := []; opt_characteristics := None;
     client := c |}.

Definition ctx : ArcjetAdapterContext :=
  {| getBody := Ok (Some "alice@example.com, 555-0100") |}.

Definition brokenCtx : ArcjetAdapterContext :=
  {| getBody := Throw (JsError "stream closed") |}.

Definition req : option ArcjetRequest :=
  Some {| req_ip := Some "203.0.113.7"; req_method := Some "POST";
          req_protocol := None; req_host := None; req_path := Some "/signup";
          req_headers := None; req_cookies := None; req_query := None;
          req_props := [] |}.

(** A fresh engine at second 1000, with a clock that stands still. *)
Definition w0 : World :=
  {| clock := fun _ => 1000; reads := 0; blockCache := Cache.new;
     store := st; trace := [] |}.

(** The same, with a block cached for the client until second 1060. *)
Definition wBlocked : World :=
  {| clock := fun _ => 1000; reads := 0;
     blockCache := Cache.set Cache.new "203.0.113.7" ShieldReason 1060;
     store := st; trace := [] |}.

(** A fresh engine whose clock advances 10 seconds between readings. *)
Definition wTicking : World :=
  {| clock := fun n => 1000 + 10 * Z.of_nat n; reads := 0;
     blockCache := Cache.new; store := st; trace := [] |}.

(** The request as [protect] sees it. *)
Definition details : ArcjetRequestDetails :=
  mkDetails (default emptyRequest req).

Definition context (c : Client) (adapter : ArcjetAdapterContext)
  : ArcjetContext :=
  contextOf fingerprintOf rt (opts c) adapter details.

(** The two methods of the rule object at location 4. *)
Definition dryRule : ArcjetLocalRule :=
  {| rule_validate := fun _ _ => Ok tt;
     rule_protect := sensitiveInfoProtect detect dryDenyEmail dryDenyEmail |}.

End Scenario.

(** ** The other rule constructors *)

(** *** Rate limits: [tokenBucket] and [slidingWindow] *)

Record TokenBucketRateLimitOptions : Type := {
  tb_mode : option string;
  tb_match : option string;
  tb_characteristics : option (list string);
  tb_refillRate : Z;
  tb_interval : JsValue;
  tb_capacity : Z
}.

Record SlidingWindowRateLimitOptions : Type := {
  sw_mode : option string;
  sw_match : option string;
  sw_characteristics : option (list string);
  sw_interval : JsValue;
  sw_max : Z
}.

Section RateLimits.

(** [duration.parse] of [@arcjet/duration]. *)
Variable durationParse : JsValue -> Outcome Z.

Fixpoint tokenBucketRules (opts : list TokenBucketRateLimitOptions)
  : Outcome (list ArcjetRule) :=
  match opts with
  | [] => Ok []
  | opt :: opts' =>
      match durationParse (tb_interval opt) with
      | Throw e => Throw e
      | Ok interval =>
          match tokenBucketRules opts' with
          | Throw e => Throw e
          | Ok rules =>
              Ok ({| type := RATE_LIMIT;
                     priority := Priority.RateLimit;
                     mode := modeOf (tb_mode opt);
                     characteristics := tb_characteristics opt;
                     fields :=
                       TokenBucketFields (tb_match opt) (tb_refillRate opt)
                         interval (tb_capacity opt);
                     local := None |} :: rules)
          end
      end
  end.

(** [tokenBucket(options?, ...additionalOptions)] *)
Definition tokenBucket (options : option TokenBucketRateLimitOptions)
  (additionalOptions : list TokenBucketRateLimitOptions)
  : Outcome (list ArcjetRule) :=
  match options with
  | None => Ok []
  | Some options => tokenBucketRules (options :: additionalOptions)
  end.

Fixpoint slidingWindowRules (opts : list SlidingWindowRateLimitOptions)
  : Outcome (list ArcjetRule) :=
  match opts with
  | [] => Ok []
  | opt :: opts' =>
      match durationParse (sw_interval opt) with
      | Throw e => Throw e
      | Ok interval =>
          match slidingWindowRules opts' with
          | Throw e => Throw e
          | Ok rules =>
              Ok ({| type := RATE_LIMIT;
                     priority := Priority.RateLimit;
                     mode := modeOf (sw_mode opt);
                     characteristics := sw_characteristics opt;
                     fields :=
                       SlidingWindowFields (sw_match opt) (sw_max opt) interval;
                     local := None |} :: rules)
          end
      end
  end.

(** [slidingWindow(options?, ...additionalOptions)] *)
Definition slidingWindow (options : option SlidingWindowRateLimitOptions)
  (additionalOptions : list SlidingWindowRateLimitOptions)
  : Outcome (list ArcjetRule) :=
  match options with
  | None => Ok []
  | Some options => slidingWindowRules (options :: additionalOptions)
  end.

End RateLimits.

(** *** [validateEmail] *)

(** [isEmailType(type)] *)
Definition isEmailType (t : string) : bool :=
  bool_decide (t = "FREE") || bool_decide (t = "DISPOSABLE")
  || bool_decide (t = "NO_MX_RECORDS") || bool_decide (t = "NO_GRAVATAR")
  || bool_decide (t = "INVALID").

(** [assert(condition, msg)]: throws [new Error(msg)]. *)
Definition assert (condition : bool) (msg : string) : Outcome unit :=
  if condition then Ok tt else Throw (JsError msg).

Inductive EmailValidity : Type := Valid | Invalid.

(** The answer of [isValidEmail] of [@arcjet/analyze]. *)
Record EmailValidationResult : Type := {
  validity : EmailValidity;
  blocked : list string
}.

(** [emailOpts], the configuration handed to the analyzer. *)
Record EmailValidationConfig : Type := {
  cfg_requireTopLevelDomain : bool;
  cfg_allowDomainLiteral : bool;
  blockedEmails : list string
}.

(** [isValidEmail(context, email, emailOpts)]; the second argument is
    [details.email] as the rule reads it. *)
Definition IsValidEmail : Type :=
  ArcjetContext -> option string -> EmailValidationConfig ->
  Outcome EmailValidationResult.

Record EmailOptions : Type := {
  em_mode : option string;
  em_block : option (list string);
  em_requireTopLevelDomain : option bool;
  em_allowDomainLiteral : option bool
}.

(** [{}] *)
Definition noEmailOptions : EmailOptions :=
  {| em_mode := None; em_block := None; em_requireTopLevelDomain := None;
     em_allowDomainLiteral := None |}.

Section Email.

Variable isValidEmail : IsValidEmail.

Definition emailOptsOf (opt : EmailOptions) : EmailValidationConfig :=
  {| cfg_requireTopLevelDomain := default true (em_requireTopLevelDomain opt);
     cfg_allowDomainLiteral := default false (em_allowDomainLiteral opt);
     blockedEmails := default [] (em_block opt) |}.

(** The [validate] method of an EMAIL rule. *)
Definition emailValidate (context : ArcjetContext)
  (details : ArcjetRequestDetails) : Outcome unit :=
  assert (bool_decide (is_Some (email details)))
    "ValidateEmail requires `email` to be set.".

(** The [protect] method of the EMAIL rule built from [opt]. *)
Definition emailProtect (opt : EmailOptions) (context : ArcjetContext)
  (details : ArcjetRequestDetails) : Outcome ArcjetRuleResult :=
  match isValidEmail context (email details) (emailOptsOf opt) with
  | Throw e => Throw e
  | Ok result =>
      match validity result with
      | Valid =>
          Ok {| ttl := 0; state := RUN; conclusion := ALLOW;
                reason := EmailReason [] |}
      | Invalid =>
          let typedEmailTypes := List.filter isEmailType (blocked result) in
          Ok {| ttl := 0; state := RUN; conclusion := DENY;
                reason := EmailReason typedEmailTypes |}
      end
  end.

Definition emailRule (opt : EmailOptions) : ArcjetRule :=
  {| type := EMAIL;
     priority := Priority.EmailValidation;
     mode := modeOf (em_mode opt);
     characteristics := None;
     fields :=
       EmailFields (default [] (em_block opt))
         (default true (em_requireTopLevelDomain opt))
         (default false (em_allowDomainLiteral opt));
     local :=
       Some {| rule_validate := emailValidate;
               rule_protect := emailProtect opt |} |}.

(** [validateEmail(options?, ...additionalOptions)] *)
Definition validateEmail (options : option EmailOptions)
  (additionalOptions : list EmailOptions) : list ArcjetRule :=
  map emailRule (default noEmailOptions options :: additionalOptions).

End Email.

(** *** [detectBot] *)

(** [BotConfig] of [@arcjet/analyze]: the two tagged variants. *)
Inductive BotConfig : Type :=
| AllowedBotConfig (entities : list string) (skipCustomDetect : bool)
| DeniedBotConfig (entities : list string) (skipCustomDetect : bool).

Record BotResult : Type := {
  bot_allowed : list string;
  bot_denied : list string
}.

(** [detectBot(context, request, config)] of [@arcjet/analyze]. *)
Definition AnalyzeDetectBot : Type :=
  ArcjetContext -> AnalyzeRequest -> BotConfig -> Outcome BotResult.

(** [BotOptions]: [allow] and [deny], where given, are arrays. Their
    elements are strings by type, but the constructor checks each of them
    at run time, so they are kept as the values they are. *)
Record BotOptions : Type := {
  bot_mode : option string;
  bot_allow : option (list JsValue);
  bot_deny : option (list JsValue)
}.

(** [typeof value === "string"] *)
Definition isString (value : JsValue) : bool :=
  match value with
  | JsString _ => true
  | _ => false
  end.

(** The strings in an array; all of its elements once the array has passed
    the check of the constructor. *)
Definition stringsOf (values : list JsValue) : list string :=
  omap (fun value => match value with JsString s => Some s | _ => None end)
       values.

(** [{ allow: [] }] *)
Definition defaultBotOptions : BotOptions :=
  {| bot_mode := None; bot_allow := Some []; bot_deny := None |}.

(** Modelled from the spec: [headers.has(name)] of [@arcjet/headers] for a
    lower-case [name]; the container keeps its names in lower case. *)
Definition headersHas (name : string) (hs : ArcjetHeaders) : bool :=
  bool_decide (name ∈ map fst hs).

Section Bot.

Variable analyzeDetectBot : AnalyzeDetectBot.

(** The [config] a BOT rule closes over. *)
Definition botConfigOf (opt : BotOptions) : BotConfig :=
  let config := AllowedBotConfig [] true in
  let config :=
    match bot_allow opt with
    | Some allow => AllowedBotConfig (stringsOf allow) true
    | None => config
    end in
  match bot_deny opt with
  | Some deny => DeniedBotConfig (stringsOf deny) true
  | None => config
  end.

(** The [validate] method of a BOT rule: [details.headers] is always an
    [ArcjetHeaders], so only the last of the three checks can fail. *)
Definition botValidate (context : ArcjetContext)
  (details : ArcjetRequestDetails) : Outcome unit :=
  if headersHas "user-agent" (headers details) then Ok tt
  else Throw (JsError "bot detection requires user-agent header").

(** The [protect] method of the BOT rule with configuration [config]. *)
Definition botProtect (config : BotConfig) (context : ArcjetContext)
  (request : ArcjetRequestDetails) : Outcome ArcjetRuleResult :=
  match analyzeDetectBot context (toAnalyzeRequest request) config with
  | Throw e => Throw e
  | Ok result =>
      match bot_denied result with
      | _ :: _ =>
          Ok {| ttl := 60; state := RUN; conclusion := DENY;
                reason := BotReason (bot_allowed result) (bot_denied result) |}
      | [] =>
          Ok {| ttl := 0; state := RUN; conclusion := ALLOW;
                reason := BotReason (bot_allowed result) (bot_denied result) |}
      end
  end.

Definition botRule (opt : BotOptions) : ArcjetRule :=
  {| type := BOT;
     priority := Priority.BotDetection;
     mode := modeOf (bot_mode opt);
     characteristics := None;
     fields :=
       BotFields (stringsOf (default [] (bot_allow opt)))
         (stringsOf (default [] (bot_deny opt)));
     local :=
       Some {| rule_validate := botValidate;
               rule_protect := botProtect (botConfigOf opt) |} |}.

(** The loop over [[options ?? { allow: [] }, ...additionalOptions]]. For
    each option object in turn it throws when both lists are given, then
    when an element of [allow] is not a string, then when an element of
    [deny] is not a string; the last two messages both name [allow]. *)
Fixpoint detectBotRules (opts : list BotOptions) : Outcome (list ArcjetRule) :=
  match opts with
  | [] => Ok []
  | opt :: opts' =>
      if bool_decide (is_Some (bot_allow opt))
         && bool_decide (is_Some (bot_deny opt))
      then Throw (JsError "Both allow and deny cannot be provided to detectBot")
      else if negb (forallb isString (default [] (bot_allow opt)))
      then Throw (JsError "all values in `allow` must be a string")
      else if negb (forallb isString (default [] (bot_deny opt)))
      then Throw (JsError "all values in `allow` must be a string")
      else
        match detectBotRules opts' with
        | Throw e => Throw e
        | Ok rules => Ok (botRule opt :: rules)
        end
  end.

(** [detectBot(options?, ...additionalOptions)] *)
Definition detectBot (options : option BotOptions)
  (additionalOptions : list BotOptions) : Outcome (list ArcjetRule) :=
  detectBotRules (default defaultBotOptions options :: additionalOptions).

End Bot.

(** *** [protectSignup] *)

(** An option of [protectSignup]: one option object or an array of them. *)
Inductive OneOrMany (A : Type) : Type :=
| One (a : A)
| Many (l : list A).
Arguments One {A} a.
Arguments Many {A} l.

Record ProtectSignupOptions : Type := {
  su_rateLimit : option (OneOrMany SlidingWindowRateLimitOptions);
  su_bots : option (OneOrMany BotOptions);
  su_email : option (OneOrMany EmailOptions)
}.

(** [Array.isArray(x) ? f(...x) : f(x)] for a constructor [f] with the
    signature [(options?, ...additionalOptions)]. *)
Definition spreadInto {A B : Type} (f : option A -> list A -> B)
  (x : option (OneOrMany A)) : B :=
  match x with
  | Some (Many []) => f None []
  | Some (Many (a :: l)) => f (Some a) l
  | Some (One a) => f (Some a) []
  | None => f None []
  end.

Section ProtectSignup.

Variable durationParse : JsValue -> Outcome Z.
Variable analyzeDetectBot : AnalyzeDetectBot.
Variable isValidEmail : IsValidEmail.

(** [protectSignup(options?)] *)
Definition protectSignup (options : option ProtectSignupOptions)
  : Outcome (list ArcjetRule) :=
  match spreadInto (slidingWindow durationParse) (options ≫= su_rateLimit) with
  | Throw e => Throw e
  | Ok rateLimitRules =>
      match spreadInto (detectBot analyzeDetectBot) (options ≫= su_bots) with
      | Throw e => Throw e
      | Ok botRules =>
          let emailRules :=
            spreadInto (validateEmail isValidEmail) (options ≫= su_email) in
          Ok (rateLimitRules ++ botRules ++ emailRules)
      end
  end.

End ProtectSignup.

(** ** Further auxiliary definitions *)

(** The two maps of a cache hold the same keys. *)
Definition cacheConsistent {T : Type} (c : Cache.t T) : Prop :=
  forall k, is_Some (Cache.expires c !! k) <-> is_Some (Cache.data c !! k).

(** The world with another block cache. *)
Definition setCache (w : World) (c : Cache.t ArcjetReason) : World :=
  {| clock := clock w; reads := reads w; blockCache := c; store := store w;
     trace := trace w |}.

(** The number of rules [protectSignup] builds from one of its options:
    [atLeast] is 1 for the constructors that always emit a rule. *)
Definition spreadCount {A : Type} (atLeast : nat) (x : option (OneOrMany A))
  : nat :=
  match x with
  | Some (Many (_ :: l)) => S (length l)
  | Some (One _) => 1
  | _ => atLeast
  end.

(** ** A signup scenario *)

Module Signup.

(** An analyzer that finds every address but one invalid, and reports a
    kind the protocol does not know besides a known one. *)
Definition isValidEmail : IsValidEmail :=
  fun _ candidate _ =>
    Ok {| validity :=
            if bool_decide (candidate = Some "alice@example.com") then Valid
            else Invalid;
          blocked := ["INVALID"; "SUSPICIOUS"] |}.

(** An analyzer that reports the bots of a deny list as denied. *)
Definition analyzeDetectBot : AnalyzeDetectBot :=
  fun _ _ config =>
    match config with
    | AllowedBotConfig entities _ =>
        Ok {| bot_allowed := entities; bot_denied := [] |}
    | DeniedBotConfig entities _ =>
        Ok {| bot_allowed := []; bot_denied := entities |}
    end.

Definition liveEmail : EmailOptions :=
  {| em_mode := Some "LIVE"; em_block := None;
     em_requireTopLevelDomain := None; em_allowDomainLiteral := None |}.

Definition denyCurl : BotOptions :=
  {| bot_mode := Some "LIVE"; bot_allow := None;
     bot_deny := Some [JsString "CURL"] |}.

Definition tenPerMinute : SlidingWindowRateLimitOptions :=
  {| sw_mode := Some "LIVE"; sw_match := None; sw_characteristics := None;
     sw_interval := JsNumber "60"; sw_max := 10 |}.

Definition signupOptions : ProtectSignupOptions :=
  {| su_rateLimit := Some (One tenPerMinute);
     su_bots := Some (Many [denyCurl]);
     su_email := Some (One liveEmail) |}.

(** The rule objects, by location: 0 the sliding window, 1 the bot rule,
    2 the email rule, all from [protectSignup(signupOptions)]. *)
Definition objects : list ArcjetRule :=
  Scenario.built
    (protectSignup Scenario.durationParse analyzeDetectBot isValidEmail
       (Some signupOptions)).

Definition st : loc -> ArcjetRule := fun l => nth l objects Scenario.noRule.

(** A request from curl without an email address. *)
Definition curlRequest : option ArcjetRequest :=
  Some {| req_ip := Some "198.51.100.4"; req_method := Some "POST";
          req_protocol := None; req_host := None; req_path := Some "/signup";
          req_headers := Some [("user-agent", "curl/8.0")];
          req_cookies := None; req_query := None; req_props := [] |}.

(** A browser request with an email address that is not valid. *)
Definition badEmailRequest : option ArcjetRequest :=
  Some {| req_ip := Some "198.51.100.9"; req_method := Some "POST";
          req_protocol := None; req_host := None; req_path := Some "/signup";
          req_headers := None; req_cookies := None; req_query := None;
          req_props :=
            [("email", JsString "not-an-email"); ("requested", JsNumber "5");
             ("body", JsString "ignored"); ("beta", JsBoolean true)] |}.

Definition w0 : World :=
  {| clock := fun n => 2000 + Z.of_nat n; reads := 0;
     blockCache := Cache.new; store := st; trace := [] |}.

Definition context (request : option ArcjetRequest) : ArcjetContext :=
  contextOf Scenario.fingerprintOf Scenario.rt
    (Scenario.opts Scenario.allowAll) Scenario.ctx
    (mkDetails (default emptyRequest request)).

End Signup.

(** * Properties *)

(** ** The stable sort *)

Section SortFacts.

Context {A : Type} (key : A -> Z).

Lemma insertByKey_perm (x : A) (l : list A) :
  Permutation (x :: l) (insertByKey key x l).
Proof.
  induction l as [|y l IH]; cbn; [reflexivity|].
  destruct (key x <=? key y); [reflexivity|].
  rewrite perm_swap. now apply perm_skip.
Qed.

Lemma sortByKey_perm (l : list A) : Permutation l (sortByKey key l).
Proof.
  induction l as [|x l IH]; cbn; [reflexivity|].
  rewrite <- insertByKey_perm. now apply perm_skip.
Qed.

Lemma insertByKey_sorted (x : A) (l : list A) :
  sortedByKey key l -> sortedByKey key (insertByKey key x l).
Proof.
  unfold sortedByKey. induction 1 as [|y l Hl IH Hy]; cbn.
  - repeat constructor.
  - destruct (key x <=? key y) eqn:E.
    + apply Z.leb_le in E. constructor; [now constructor|].
      constructor; [exact E|].
      eapply List.Forall_impl; [|exact Hy]. cbn. intros z Hz. lia.
    + apply Z.leb_gt in E. constructor; [exact IH|].
      eapply Permutation_Forall; [apply insertByKey_perm|].
      constructor; [lia|exact Hy].
Qed.

Lemma sortByKey_sorted (l : list A) : sortedByKey key (sortByKey key l).
Proof.
  induction l as [|x l IH]; cbn; [constructor|].
  now apply insertByKey_sorted.
Qed.

(** Insertion passes only over elements of strictly smaller key, so it
    keeps the order within each key. *)
Lemma withKey_insertByKey (p : Z) (x : A) (l : list A) :
  withKey key p (insertByKey key x l) = withKey key p (x :: l).
Proof.
  induction l as [|y l IH]; [reflexivity|].
  cbn [insertByKey]. destruct (key x <=? key y) eqn:E; [reflexivity|].
  apply Z.leb_gt in E. unfold withKey in *. cbn [List.filter] in *.
  rewrite IH.
  destruct (key x =? p) eqn:Ex, (key y =? p) eqn:Ey; try reflexivity.
  apply Z.eqb_eq in Ex, Ey. lia.
Qed.

(** Stability: sorting keeps the order within each key. *)
Lemma withKey_sortByKey (p : Z) (l : list A) :
  withKey key p (sortByKey key l) = withKey key p l.
Proof.
  induction l as [|x l IH]; [reflexivity|].
  cbn [sortByKey foldr]. rewrite withKey_insertByKey.
  unfold withKey in *. cbn [List.filter]. fold (sortByKey key l).
  now rewrite IH.
Qed.

Lemma withKey_head (x : A) (l : list A) :
  withKey key (key x) (x :: l) = x :: withKey key (key x) l.
Proof. unfold withKey. cbn. now rewrite Z.eqb_refl. Qed.

Lemma withKey_In (p : Z) (x : A) (l : list A) :
  In x (withKey key p l) -> In x l /\ key x = p.
Proof.
  unfold withKey. rewrite List.filter_In. intros [H1 H2].
  split; [exact H1|]. now apply Z.eqb_eq.
Qed.

(** A sorted list is determined by its elements of each key, in order. *)
Lemma sortedByKey_unique (l1 l2 : list A) :
  sortedByKey key l1 -> sortedByKey key l2 -> sameTieOrder key l1 l2 ->
  l1 = l2.
Proof.
  unfold sortedByKey. intros H1. revert l2.
  induction H1 as [|x l1 Hl1 IH Hx]; intros l2 H2 Hs.
  - destruct l2 as [|y l2]; [reflexivity|].
    specialize (Hs (key y)). rewrite withKey_head in Hs. discriminate.
  - destruct H2 as [|y l2 Hl2 Hy].
    + specialize (Hs (key x)). rewrite withKey_head in Hs. discriminate.
    + assert (Hxy : key x = key y).
      { pose proof (Hs (key x)) as Hsx. pose proof (Hs (key y)) as Hsy.
        rewrite withKey_head in Hsx. rewrite withKey_head in Hsy.
        assert (Ix : In x (withKey key (key x) (y :: l2)))
          by (rewrite <- Hsx; now left).
        assert (Iy : In y (withKey key (key y) (x :: l1)))
          by (rewrite Hsy; now left).
        apply withKey_In in Ix as [Ix _]. apply withKey_In in Iy as [Iy _].
        rewrite List.Forall_forall in Hx, Hy.
        destruct Ix as [->|Ix]; [reflexivity|].
        destruct Iy as [->|Iy]; [reflexivity|].
        apply Hy in Ix. apply Hx in Iy. lia. }
      assert (x = y).
      { pose proof (Hs (key x)) as Hsx. rewrite withKey_head in Hsx.
        rewrite Hxy in Hsx at 2. rewrite withKey_head in Hsx. congruence. }
      subst y. f_equal. apply IH; [exact Hl2|].
      intros p. specialize (Hs p). unfold withKey in *.
      cbn [List.filter] in Hs. destruct (key x =? p); congruence.
Qed.

(** The sorted list depends only on the order within each key. *)
Lemma sortByKey_sameTieOrder (l1 l2 : list A) :
  sameTieOrder key l1 l2 -> sortByKey key l1 = sortByKey key l2.
Proof.
  intros Hs. apply sortedByKey_unique; try apply sortByKey_sorted.
  intros p. rewrite !withKey_sortByKey. apply Hs.
Qed.

Lemma withKey_distinct_length (p : Z) (l : list A) :
  List.NoDup (map key l) -> (length (withKey key p l) <= 1)%nat.
Proof.
  induction l as [|x l IH]; [cbn; lia|].
  cbn [map]. intros Hnd. apply List.NoDup_cons_iff in Hnd as [Hx Hnd].
  unfold withKey. cbn [List.filter]. fold (withKey key p l).
  destruct (key x =? p) eqn:E; [|now apply IH].
  apply Z.eqb_eq in E.
  destruct (withKey key p l) as [|y l'] eqn:El; [cbn; lia|].
  exfalso. apply Hx.
  assert (Iy : In y (withKey key p l)) by (rewrite El; now left).
  apply withKey_In in Iy as [Iy Ky]. rewrite E, <- Ky.
  now apply in_map.
Qed.

(** When all keys differ, every permutation has the same order within each
    key. *)
Lemma distinct_keys_sameTieOrder (l1 l2 : list A) :
  List.NoDup (map key l1) -> Permutation l1 l2 -> sameTieOrder key l1 l2.
Proof.
  intros Hnd Hp p.
  assert (Hnd2 : List.NoDup (map key l2)).
  { eapply Permutation_NoDup; [|exact Hnd]. now apply Permutation_map. }
  pose proof (withKey_distinct_length p l1 Hnd) as L1.
  pose proof (withKey_distinct_length p l2 Hnd2) as L2.
  assert (Hpf : Permutation (withKey key p l1) (withKey key p l2)).
  { unfold withKey. clear Hnd Hnd2 L1 L2.
    induction Hp as [|x l l' Hp IH|x y l|l l' l'' Hp1 IH1 Hp2 IH2]; cbn.
    - constructor.
    - destruct (key x =? p); [now apply perm_skip|exact IH].
    - destruct (key x =? p), (key y =? p);
        try apply perm_swap; reflexivity.
    - now transitivity (List.filter (fun x => key x =? p) l'). }
  destruct (withKey key p l1) as [|a [|]], (withKey key p l2) as [|b [|]];
    cbn in L1, L2; try lia.
  - reflexivity.
  - now apply Permutation_nil in Hpf.
  - symmetry in Hpf. now apply Permutation_nil in Hpf.
  - apply Permutation_length_1 in Hpf. now subst.
Qed.

End SortFacts.

(** ** The engine's monad *)

Ltac unfold_M :=
  unfold blockCache_get, blockCache_ttl, blockCache_set, emit, nowInSeconds,
    getCache, putCache, deref, derefAll, assign, call, try_catch,
    mbind, M_bind, mret, M_ret in *.

Lemma addTrace_addTrace (w : World) (es es' : list Event) :
  addTrace (addTrace w es) es' = addTrace w (es ++ es').
Proof. unfold addTrace. cbn. now rewrite <- app_assoc. Qed.

(** ** Block cache *)

(** C1 (as amended). [ttl(k)] returns the stored expiry minus the current
    time when the cache holds an expiry for [k], which is negative once that
    expiry has passed, and 0 when it holds none; the call leaves the cache as
    it was. *)
Theorem C1_ttl_is_expiry_minus_now (w : World) (k : string) :
  let now := clock w (reads w) in
  fst (blockCache_ttl k w)
  = Ok (match Cache.expires (blockCache w) !! k with
        | Some expiresAt => expiresAt - now
        | None => 0
        end)
  /\ blockCache (snd (blockCache_ttl k w)) = blockCache w
  /\ trace (snd (blockCache_ttl k w)) = trace w ++ [CacheTtl k].
Proof.
  unfold_M. cbn. unfold Cache.ttl.
  destruct (Cache.expires (blockCache w) !! k) as [e|]; cbn.
  - repeat split.
  - rewrite Z.sub_diag. repeat split.
Qed.

(** C1, the claim as written fails: five seconds after the expiry of an
    entry that no [get] has evicted, [ttl] is -5, not [max(0, -5)]. *)
Lemma C1_ttl_negative_after_expiry :
  let c := Cache.set Cache.new "203.0.113.7" ShieldReason 1060 in
  Cache.expires c !! "203.0.113.7" = Some 1060
  /\ Cache.ttl 1065 c "203.0.113.7" = -5
  /\ Cache.ttl 1065 c "203.0.113.7" <> Z.max 0 (1060 - 1065).
Proof. vm_compute. repeat split; discriminate. Qed.

(** ** The first loop of [protect] *)

Lemma initResults_spec (cs : list string) (rules : list loc) (w : World) :
  initResults cs rules w
  = (Ok (replicate (length rules) notRun),
     setStore w (injectCharacteristics cs rules (store w))).
Proof.
  revert w. induction rules as [|l rules IH]; intros w.
  - destruct w; reflexivity.
  - cbn [initResults injectCharacteristics length replicate].
    unfold_M.
    destruct (isRateLimitRule (store w l));
      [destruct (characteristics (store w l))|];
      rewrite IH; reflexivity.
Qed.

(** Over the limit [protect] returns at once, having made calls only. *)
Lemma protect_over_limit_returns
  (generateFingerprint : BaseContext -> AnalyzeRequest -> string)
  (rt : string) (options : ArcjetOptions) (rules : list loc)
  (ctx : ArcjetAdapterContext) (request : option ArcjetRequest) (w : World) :
  (10 < length rules)%nat ->
  exists decision es,
    protect generateFingerprint rt options rules ctx request w
    = (Ok decision, addTrace w es).
Proof.
  intros Hlen. unfold protect.
  rewrite (bool_decide_eq_false_2 (length rules < 1)%nat) by lia.
  rewrite (bool_decide_eq_true_2 (10 < length rules)%nat) by exact Hlen.
  unfold_M. cbn. rewrite !addTrace_addTrace. eauto.
Qed.

(** ** Too many rules *)

(** C5. With more than 10 rules [protect] returns an ERROR decision with
    the reason "Only 10 rules may be specified" and no results; besides
    logging, the only call it makes is [client.report] with that decision and
    an empty rule list: no rule is validated or run, and the cache is not
    touched. *)
Theorem C5_more_than_ten_rules
  (generateFingerprint : BaseContext -> AnalyzeRequest -> string)
  (rt : string) (options : ArcjetOptions) (rules : list loc)
  (ctx : ArcjetAdapterContext) (request : option ArcjetRequest) (w : World) :
  (10 < length rules)%nat ->
  let details := mkDetails (default emptyRequest request) in
  let context := contextOf generateFingerprint rt options ctx details in
  let decision :=
    ArcjetErrorDecision 0
      (ErrorReason (JsString "Only 10 rules may be specified")) [] in
  protect generateFingerprint rt options rules ctx request w
  = (Ok decision,
     addTrace w
       [LogDebug "fingerprint (%s): %s";
        LogError "Failure running rules. Only 10 rules may be specified." [];
        ClientReport context details decision []]).
Proof.
  intros Hlen. unfold protect.
  rewrite (bool_decide_eq_false_2 (length rules < 1)%nat) by lia.
  rewrite (bool_decide_eq_true_2 (10 < length rules)%nat) by exact Hlen.
  unfold_M. cbn. rewrite !addTrace_addTrace. reflexivity.
Qed.

Lemma C5_eleven_rules_witness :
  protect Scenario.fingerprintOf Scenario.rt (Scenario.opts Scenario.allowAll)
    (replicate 11 3%nat) Scenario.ctx Scenario.req Scenario.w0
  = (Ok (ArcjetErrorDecision 0
           (ErrorReason (JsString "Only 10 rules may be specified")) []),
     addTrace Scenario.w0
       [LogDebug "fingerprint (%s): %s";
        LogError "Failure running rules. Only 10 rules may be specified." [];
        ClientReport
          (contextOf Scenario.fingerprintOf Scenario.rt
             (Scenario.opts Scenario.allowAll) Scenario.ctx
             (mkDetails (default emptyRequest Scenario.req)))
          (mkDetails (default emptyRequest Scenario.req))
          (ArcjetErrorDecision 0
             (ErrorReason (JsString "Only 10 rules may be specified")) [])
          []]).
Proof.
  apply (C5_more_than_ten_rules Scenario.fingerprintOf Scenario.rt
           (Scenario.opts Scenario.allowAll) (replicate 11 3%nat)).
  cbn. lia.
Defined.

(** ** The rule loop *)

Lemma runLocalRule_spec (context : ArcjetContext)
  (details : ArcjetRequestDetails) (idx : nat) (rule : ArcjetRule)
  (localRule : ArcjetLocalRule) (w : World) :
  runLocalRule context details idx rule localRule w
  = (Ok (localResult localRule context details),
     addTrace w (localEvents idx rule localRule context details)).
Proof.
  unfold runLocalRule, localResult, localEvents, failureLog. unfold_M. cbn.
  destruct (rule_validate localRule context details) as [[]|err]; cbn.
  - destruct (rule_protect localRule context details) as [result|err]; cbn;
      now rewrite !addTrace_addTrace.
  - now rewrite !addTrace_addTrace.
Qed.

(** One turn of the loop. *)
Lemma evalRules_cons (context : ArcjetContext)
  (details : ArcjetRequestDetails) (rules : list loc) (idx : nat) (l : loc)
  (rest : list loc) (results : list ArcjetRuleResult) (w : World) :
  evalRules context details rules idx (l :: rest) results w
  = let rule := store w l in
    match isLocalRule rule with
    | None => evalRules context details rules (S idx) rest results w
    | Some localRule =>
        let result := localResult localRule context details in
        let results' := <[idx := result]> results in
        let w1 :=
          addTrace w (localEvents idx rule localRule context details) in
        if isDenied result then
          let decision :=
            ArcjetDenyDecision (ttl result) (reason result) results' in
          let w2 :=
            addTrace w1
              [ClientReport context details decision (map (store w) rules)] in
          if bool_decide (mode rule ≠ DRY_RUN) then
            (Ok (Returned decision),
             if 0 <? ttl result then
               cacheBlock "Caching decision for %d seconds"
                 (fingerprint context) (reason result) (ttl result) w2
             else w2)
          else
            evalRules context details rules (S idx) rest results'
              (addTrace w2
                 [LogWarn dryRunWarning [ruleTypeName (type rule); "DENY"]])
        else evalRules context details rules (S idx) rest results' w1
    end.
Proof.
  cbn [evalRules]. unfold mbind at 1. unfold M_bind at 1. unfold deref at 1.
  cbn zeta. destruct (isLocalRule (store w l)) as [localRule|]; [|reflexivity].
  unfold mbind at 1. unfold M_bind at 1. rewrite runLocalRule_spec.
  destruct (isDenied (localResult localRule context details)); [|reflexivity].
  destruct (bool_decide (mode (store w l) ≠ DRY_RUN)).
  - destruct (0 <? ttl (localResult localRule context details)).
    + unfold_M. unfold cacheBlock, addTrace. cbn.
      now rewrite <- !app_assoc.
    + unfold_M. reflexivity.
  - unfold_M. reflexivity.
Qed.

(** The loop never throws, and it leaves the rule objects and the clock
    function alone. *)
Lemma evalRules_total (context : ArcjetContext)
  (details : ArcjetRequestDetails) (rules rest : list loc) (idx : nat)
  (results : list ArcjetRuleResult) (w : World) :
  exists exit w',
    evalRules context details rules idx rest results w = (Ok exit, w')
    /\ store w' = store w.
Proof.
  revert idx results w.
  induction rest as [|l rest IH]; intros idx results w.
  - exists (Completed results), w. split; reflexivity.
  - rewrite evalRules_cons. cbn zeta.
    destruct (isLocalRule (store w l)) as [localRule|]; [|apply IH].
    destruct (isDenied (localResult localRule context details)).
    + destruct (bool_decide (mode (store w l) ≠ DRY_RUN)).
      * eexists _, _. split; [reflexivity|].
        now destruct (0 <? ttl (localResult localRule context details)).
      * match goal with
        | |- context [evalRules _ _ _ ?i _ ?r ?w0] =>
            destruct (IH i r w0) as (exit & w' & -> & Hst)
        end.
        exists exit, w'. split; [reflexivity|exact Hst].
    + match goal with
      | |- context [evalRules _ _ _ ?i _ ?r ?w0] =>
          destruct (IH i r w0) as (exit & w' & -> & Hst)
      end.
      exists exit, w'. split; [reflexivity|exact Hst].
Qed.

(** A decision returned from inside the loop comes from a local rule that
    is not in DRY_RUN mode and whose result is DENY. *)
Lemma evalRules_returned_live (context : ArcjetContext)
  (details : ArcjetRequestDetails) (rules rest : list loc) (idx : nat)
  (results : list ArcjetRuleResult) (w w' : World)
  (decision : ArcjetDecision) :
  evalRules context details rules idx rest results w
  = (Ok (Returned decision), w') ->
  exists l localRule,
    In l rest /\ isLocalRule (store w l) = Some localRule
    /\ mode (store w l) <> DRY_RUN
    /\ conclusion (localResult localRule context details) = DENY
    /\ d_conclusion decision = DENY
    /\ d_reason decision = reason (localResult localRule context details)
    /\ d_ttl decision = ttl (localResult localRule context details).
Proof.
  revert idx results w.
  induction rest as [|l rest IH]; intros idx results w.
  - cbn. unfold_M. intros [=].
  - rewrite evalRules_cons. cbn zeta.
    assert (Hrec : forall i r es,
      evalRules context details rules i rest r (addTrace w es)
      = (Ok (Returned decision), w') ->
      exists l0 localRule,
        In l0 (l :: rest) /\ isLocalRule (store w l0) = Some localRule
        /\ mode (store w l0) <> DRY_RUN
        /\ conclusion (localResult localRule context details) = DENY
        /\ d_conclusion decision = DENY
        /\ d_reason decision = reason (localResult localRule context details)
        /\ d_ttl decision = ttl (localResult localRule context details)).
    { intros i r es H. apply IH in H as (l0 & lr & Hin & H).
      exists l0, lr. split; [now right|exact H]. }
    destruct (isLocalRule (store w l)) as [localRule|] eqn:Hlocal.
    + destruct (isDenied (localResult localRule context details)) eqn:Hd.
      * destruct (bool_decide (mode (store w l) ≠ DRY_RUN)) eqn:Hm.
        -- intros [= <- _]. exists l, localRule.
           apply bool_decide_eq_true_1 in Hm, Hd.
           repeat split; auto. now left.
        -- rewrite addTrace_addTrace, addTrace_addTrace. apply Hrec.
      * apply Hrec.
    + intros H. apply IH in H as (l0 & lr & Hin & H).
      exists l0, lr. split; [now right|exact H].
Qed.

(** The loop over a list that starts with [pre], when the turns for [pre]
    all run to their end: it goes on with the rest from where they stop.
    Such turns keep the length of [results], the rule objects and the
    block cache. *)
Lemma evalRules_app (context : ArcjetContext)
  (details : ArcjetRequestDetails) (rules pre rest : list loc) (idx : nat)
  (results results1 : list ArcjetRuleResult) (w w1 : World) :
  evalRules context details rules idx pre results w
  = (Ok (Completed results1), w1) ->
  evalRules context details rules idx (pre ++ rest) results w
  = evalRules context details rules (idx + length pre) rest results1 w1
  /\ length results1 = length results
  /\ store w1 = store w
  /\ blockCache w1 = blockCache w.
Proof.
  revert idx results w.
  induction pre as [|l pre IH]; intros idx results w.
  - cbn [evalRules app length]. unfold mret, M_ret. intros [= <- <-].
    rewrite Nat.add_0_r. auto.
  - cbn [app length]. rewrite !evalRules_cons. cbn zeta.
    rewrite Nat.add_succ_r, <- Nat.add_succ_l.
    destruct (isLocalRule (store w l)) as [localRule|]; [|apply IH].
    destruct (isDenied (localResult localRule context details)).
    + destruct (bool_decide (mode (store w l) ≠ DRY_RUN)); [intros [=]|].
      intros H. apply IH in H as (-> & Hlen & Hst & Hc).
      rewrite length_insert in Hlen. auto.
    + intros H. apply IH in H as (-> & Hlen & Hst & Hc).
      rewrite length_insert in Hlen. auto.
Qed.

(** ** The remote decision and the whole of [protect] *)

Lemma remoteDecision_spec (options : ArcjetOptions) (context : ArcjetContext)
  (details : ArcjetRequestDetails) (rules : list loc)
  (results : list ArcjetRuleResult) (w : World) :
  remoteDecision options context details rules results w
  = let snapshot := map (store w) rules in
    let w1 := addTrace w [ClientDecide context details snapshot] in
    match decide (client options) context details snapshot with
    | Ok decision =>
        (Ok decision,
         if decisionIsDenied decision && (0 <? d_ttl decision) then
           cacheBlock "decide: Caching block locally for %d seconds"
             (fingerprint context) (d_reason decision) (d_ttl decision) w1
         else w1)
    | Throw err =>
        let decision := ArcjetErrorDecision 0 (ErrorReason err) results in
        (Ok decision,
         addTrace w1
           [LogError "Encountered problem getting remote decision: %s"
              [errorMessage err];
            ClientReport context details decision snapshot])
    end.
Proof.
  unfold remoteDecision. unfold_M. cbn.
  destruct (decide (client options) context details (map (store w) rules))
    as [decision|err]; cbn.
  - destruct (decisionIsDenied decision && (0 <? d_ttl decision)); cbn.
    + unfold cacheBlock, addTrace. cbn. now rewrite <- !app_assoc.
    + reflexivity.
  - now rewrite !addTrace_addTrace.
Qed.

Lemma bind_run {A B : Type} (m : M A) (f : A -> M B) (w w' : World) (a : A) :
  m w = (Ok a, w') -> (m ≫= f) w = f a w'.
Proof. intros H. unfold mbind, M_bind. now rewrite H. Qed.

Lemma blockCache_get_spec (key : string) (w : World) :
  blockCache_get key w
  = (Ok (fst (Cache.get (clock w (reads w)) (blockCache w) key)),
     {| clock := clock w; reads := S (reads w);
        blockCache := snd (Cache.get (clock w (reads w)) (blockCache w) key);
        store := store w; trace := trace w ++ [CacheGet key] |}).
Proof.
  unfold blockCache_get. unfold_M. cbn -[Cache.get].
  now destruct (Cache.get (clock w (reads w)) (blockCache w) key).
Qed.

Lemma blockCache_ttl_spec (key : string) (w : World) :
  blockCache_ttl key w
  = (Ok (Cache.ttl (clock w (reads w)) (blockCache w) key),
     {| clock := clock w; reads := S (reads w); blockCache := blockCache w;
        store := store w; trace := trace w ++ [CacheTtl key] |}).
Proof. reflexivity. Qed.

(** [protect] with at most 10 rules, unfolded up to the rule loop. *)
Lemma protect_within_limit
  (generateFingerprint : BaseContext -> AnalyzeRequest -> string)
  (rt : string) (options : ArcjetOptions) (rules : list loc)
  (ctx : ArcjetAdapterContext) (request : option ArcjetRequest) (w : World) :
  (length rules <= 10)%nat ->
  let details := mkDetails (default emptyRequest request) in
  let context := contextOf generateFingerprint rt options ctx details in
  let f := fingerprint context in
  let w1 := beforeRules (default [] (opt_characteristics options)) rules f w in
  let results := replicate (length rules) notRun in
  protect generateFingerprint rt options rules ctx request w
  = match fst (Cache.get (clock w (reads w)) (blockCache w) f) with
    | Some existingBlockReason =>
        let decision :=
          ArcjetDenyDecision
            (Cache.ttl (clock w (S (reads w))) (blockCache w1) f)
            existingBlockReason results in
        (Ok decision,
         {| clock := clock w; reads := S (S (reads w));
            blockCache := blockCache w1; store := store w1;
            trace :=
              trace w1
              ++ [LogDebug "decide: alreadyBlocked"; CacheTtl f;
                  ClientReport context details decision
                    (map (store w1) rules);
                  LogDebug "decide: already blocked"] |})
    | None =>
        match evalRules context details rules 0 rules results w1 with
        | (Ok (Returned decision), w2) => (Ok decision, w2)
        | (Ok (Completed results), w2) =>
            remoteDecision options context details rules results w2
        | (Throw e, w2) => (Throw e, w2)
        end
    end.
Proof.
  intros Hlen. cbn zeta. unfold protect.
  rewrite (bool_decide_eq_false_2 (10 < length rules)%nat) by lia.
  set (details := mkDetails (default emptyRequest request)).
  set (context := contextOf generateFingerprint rt options ctx details).
  clearbody context. clearbody details.
  erewrite bind_run by reflexivity.
  erewrite bind_run.
  2:{ instantiate (1 := addTrace w
        (LogDebug "fingerprint (%s): %s"
         :: (if bool_decide (length rules < 1)%nat then
               [LogWarn
                  "Calling `protect()` with no rules is deprecated. Did you mean to configure the Shield rule?"
                  []]
             else []))).
      instantiate (1 := tt).
      destruct (bool_decide (length rules < 1)%nat); [|reflexivity].
      unfold emit. now rewrite addTrace_addTrace. }
  erewrite bind_run by apply initResults_spec.
  erewrite bind_run by apply blockCache_get_spec.
  match goal with
  | |- context [{| clock := ?a; reads := ?b; blockCache := ?c;
                   store := ?d; trace := ?t ++ [CacheGet ?k] |}] =>
      replace {| clock := a; reads := b; blockCache := c; store := d;
                 trace := t ++ [CacheGet k] |}
        with (beforeRules (default [] (opt_characteristics options))
                rules (fingerprint context) w)
        by (unfold beforeRules, setStore, addTrace; cbn -[Cache.get];
            now rewrite <- app_assoc)
  end.
  cbn -[Cache.get beforeRules].
  destruct (Cache.get (clock w (reads w)) (blockCache w)
              (fingerprint context)).1 as [existing|].
  - erewrite bind_run by reflexivity.
    erewrite bind_run by apply blockCache_ttl_spec.
    unfold_M. unfold addTrace, beforeRules. cbn -[Cache.get].
    repeat (rewrite <- !app_assoc; cbn -[Cache.get]). reflexivity.
  - unfold mbind, M_bind.
    match goal with
    | |- context [evalRules ?a ?b ?c ?d ?e ?f ?g] =>
        destruct (evalRules a b c d e f g) as [[[decision|results]|e0] w2]
    end; reflexivity.
Qed.

(** [protect] always returns a decision: nothing it calls outside a
    [try] can throw, and both [catch] blocks return. *)
Lemma protect_never_throws
  (generateFingerprint : BaseContext -> AnalyzeRequest -> string)
  (rt : string) (options : ArcjetOptions) (rules : list loc)
  (ctx : ArcjetAdapterContext) (request : option ArcjetRequest) (w : World) :
  exists decision w',
    protect generateFingerprint rt options rules ctx request w
    = (Ok decision, w').
Proof.
  destruct (Nat.le_gt_cases (length rules) 10) as [Hle|Hgt].
  - rewrite protect_within_limit by exact Hle. cbn zeta.
    match goal with
    | |- context [match ?o with Some _ => _ | None => _ end] => destruct o
    end; [eauto|].
    match goal with
    | |- context [evalRules ?a ?b ?c ?d ?e ?f ?g] =>
        destruct (evalRules_total a b c e d f g) as ([decision|results] & w2 & -> & _)
    end; [eauto|].
    rewrite remoteDecision_spec. cbn zeta.
    match goal with
    | |- context [decide ?c ?x ?y ?z] => destruct (decide c x y z)
    end; eauto.
  - destruct (protect_over_limit_returns generateFingerprint rt options rules
                ctx request w Hgt) as (decision & es & ->). eauto.
Qed.

(** ** A cached block *)

(** C6. When the cache holds a live block for the request's fingerprint
    (expiry strictly after the time [get] reads) and there are between 1 and
    10 rules, [protect] returns a DENY decision whose reason is the cached
    one, whose ttl is what [blockCache.ttl] returns for the fingerprint, and
    whose results are all NOT_RUN; it calls [client.report] with that
    decision, and validates and runs no rule. *)
Theorem C6_cached_block_is_served
  (generateFingerprint : BaseContext -> AnalyzeRequest -> string)
  (rt : string) (options : ArcjetOptions) (rules : list loc)
  (ctx : ArcjetAdapterContext) (request : option ArcjetRequest) (w : World)
  (expiresAt : Z) (cached : ArcjetReason) :
  let details := mkDetails (default emptyRequest request) in
  let context := contextOf generateFingerprint rt options ctx details in
  let f := fingerprint context in
  (1 <= length rules <= 10)%nat ->
  Cache.expires (blockCache w) !! f = Some expiresAt ->
  Cache.data (blockCache w) !! f = Some cached ->
  clock w (reads w) < expiresAt ->
  let st' :=
    injectCharacteristics (default [] (opt_characteristics options)) rules
      (store w) in
  let results := replicate (length rules) notRun in
  let decision :=
    ArcjetDenyDecision (Cache.ttl (clock w (S (reads w))) (blockCache w) f)
      cached results in
  protect generateFingerprint rt options rules ctx request w
  = (Ok decision,
     {| clock := clock w; reads := S (S (reads w));
        blockCache := blockCache w; store := st';
        trace :=
          trace w
          ++ [LogDebug "fingerprint (%s): %s"; CacheGet f;
              LogDebug "decide: alreadyBlocked"; CacheTtl f;
              ClientReport context details decision (map st' rules);
              LogDebug "decide: already blocked"] |})
  /\ Forall (fun r => state r = NOT_RUN) results.
Proof.
  intros details context f [Hlo Hhi] Hexp Hdata Hlive. cbn zeta. split.
  - rewrite protect_within_limit by exact Hhi. cbn zeta.
    fold details. fold context. fold f.
    assert (Hget : Cache.get (clock w (reads w)) (blockCache w) f
                   = (Some cached, blockCache w)).
    { unfold Cache.get, Cache.ttl. rewrite Hexp, Hdata.
      change (default (clock w (reads w)) (Some expiresAt)) with expiresAt.
      now rewrite (proj2 (Z.ltb_lt 0 (expiresAt - clock w (reads w))))
        by lia. }
    unfold beforeRules. rewrite Hget. cbn [fst snd store blockCache trace].
    rewrite (bool_decide_eq_false_2 (length rules < 1)%nat) by lia.
    cbn. rewrite <- app_assoc. reflexivity.
  - apply Forall_replicate. reflexivity.
Qed.

(** ** Failure of the remote decision *)

(** C7. When the rule loop runs to its end and [client.decide] throws
    [err], [protect] returns (it does not throw) an ERROR decision whose
    reason carries [err] and whose results are the ones the loop gathered,
    after calling [client.report] with that decision. *)
Theorem C7_remote_failure_fails_open
  (generateFingerprint : BaseContext -> AnalyzeRequest -> string)
  (rt : string) (options : ArcjetOptions) (rules : list loc)
  (ctx : ArcjetAdapterContext) (request : option ArcjetRequest) (w w1 : World)
  (results : list ArcjetRuleResult) (err : JsValue) :
  let details := mkDetails (default emptyRequest request) in
  let context := contextOf generateFingerprint rt options ctx details in
  let f := fingerprint context in
  (length rules <= 10)%nat ->
  fst (Cache.get (clock w (reads w)) (blockCache w) f) = None ->
  evalRules context details rules 0 rules (replicate (length rules) notRun)
    (beforeRules (default [] (opt_characteristics options)) rules f w)
  = (Ok (Completed results), w1) ->
  decide (client options) context details (map (store w1) rules) = Throw err ->
  let decision := ArcjetErrorDecision 0 (ErrorReason err) results in
  protect generateFingerprint rt options rules ctx request w
  = (Ok decision,
     addTrace w1
       [ClientDecide context details (map (store w1) rules);
        LogError "Encountered problem getting remote decision: %s"
          [errorMessage err];
        ClientReport context details decision (map (store w1) rules)]).
Proof.
  intros details context f Hlen Hget Hloop Hdecide. cbn zeta.
  rewrite protect_within_limit by exact Hlen. cbn zeta.
  fold details. fold context. fold f. rewrite Hget, Hloop.
  rewrite remoteDecision_spec. cbn zeta. rewrite Hdecide.
  now rewrite addTrace_addTrace.
Qed.

(** [protect] on the rules [pre ++ l :: post], when the cache holds no live
    block and the loop has run over [pre] without returning: what is left is
    the loop from [l] on. *)
Lemma protect_after_prefix
  (generateFingerprint : BaseContext -> AnalyzeRequest -> string)
  (rt : string) (options : ArcjetOptions) (pre : list loc) (l : loc)
  (post : list loc) (ctx : ArcjetAdapterContext)
  (request : option ArcjetRequest) (w w1 : World)
  (results : list ArcjetRuleResult) :
  let rules := pre ++ l :: post in
  let details := mkDetails (default emptyRequest request) in
  let context := contextOf generateFingerprint rt options ctx details in
  let f := fingerprint context in
  (length rules <= 10)%nat ->
  fst (Cache.get (clock w (reads w)) (blockCache w) f) = None ->
  evalRules context details rules 0 pre (replicate (length rules) notRun)
    (beforeRules (default [] (opt_characteristics options)) rules f w)
  = (Ok (Completed results), w1) ->
  protect generateFingerprint rt options rules ctx request w
  = match
      evalRules context details rules (length pre) (l :: post) results w1
    with
    | (Ok (Returned decision), w2) => (Ok decision, w2)
    | (Ok (Completed results2), w2) =>
        remoteDecision options context details rules results2 w2
    | (Throw e, w2) => (Throw e, w2)
    end
  /\ (length pre < length results)%nat
  /\ blockCache w1
     = snd (Cache.get (clock w (reads w)) (blockCache w) f).
Proof.
  intros rules details context f Hlen Hget Hpre. subst rules.
  destruct (evalRules_app context details (pre ++ l :: post) pre (l :: post)
              0 _ _ _ _ Hpre) as (Happ & Hlength & _ & Hcache).
  split; [|split].
  - rewrite protect_within_limit by exact Hlen. cbn zeta.
    fold details. fold context. fold f. rewrite Hget, Happ. reflexivity.
  - rewrite Hlength, length_replicate, length_app. cbn. lia.
  - exact Hcache.
Qed.

(** The loop over rules none of which is local, followed by the remote
    decision. *)
Lemma remote_after_remote_only (options : ArcjetOptions)
  (context : ArcjetContext) (details : ArcjetRequestDetails)
  (rules post : list loc) (idx : nat) (results : list ArcjetRuleResult)
  (w : World) :
  Forall (fun l => isLocalRule (store w l) = None) post ->
  match evalRules context details rules idx post results w with
  | (Ok (Returned decision), w2) => (Ok decision, w2)
  | (Ok (Completed results2), w2) =>
      remoteDecision options context details rules results2 w2
  | (Throw e, w2) => (Throw e, w2)
  end
  = let snapshot := map (store w) rules in
    let w1 := addTrace w [ClientDecide context details snapshot] in
    match decide (client options) context details snapshot with
    | Ok decision =>
        (Ok decision,
         if decisionIsDenied decision && (0 <? d_ttl decision) then
           cacheBlock "decide: Caching block locally for %d seconds"
             (fingerprint context) (d_reason decision) (d_ttl decision) w1
         else w1)
    | Throw err =>
        let decision := ArcjetErrorDecision 0 (ErrorReason err) results in
        (Ok decision,
         addTrace w1
           [LogError "Encountered problem getting remote decision: %s"
              [errorMessage err];
            ClientReport context details decision snapshot])
    end.
Proof.
  intros Hpost. revert idx.
  induction Hpost as [|l post Hl Hpost IH]; intros idx.
  - cbn [evalRules]. unfold mret, M_ret. apply remoteDecision_spec.
  - rewrite evalRules_cons. cbn zeta. rewrite Hl. apply IH.
Qed.

(** ** DRY_RUN *)

(** C4. Take a [protect] call with at most 10 rules and no live block in
    the cache, in which the loop reaches the rule at index [idx], a local
    rule in DRY_RUN mode whose [protect] returns a DENY result. [protect]
    does not return there: it stores the result at [idx], calls
    [client.report] with the intermediate DENY decision and the rule list,
    logs the override warning, leaves the clock and the block cache
    untouched, and goes on with the rules after [idx]; what it returns is
    what they and the remote decision give. When none of the rules after
    [idx] is local, that is the decision of [client.decide], or the ERROR
    decision when [client.decide] throws. *)
Theorem C4_dry_run_deny_is_overridden
  (generateFingerprint : BaseContext -> AnalyzeRequest -> string)
  (rt : string) (options : ArcjetOptions) (pre : list loc) (l : loc)
  (post : list loc) (ctx : ArcjetAdapterContext)
  (request : option ArcjetRequest) (w w1 : World)
  (results : list ArcjetRuleResult) (localRule : ArcjetLocalRule)
  (result : ArcjetRuleResult) :
  let rules := pre ++ l :: post in
  let idx := length pre in
  let details := mkDetails (default emptyRequest request) in
  let context := contextOf generateFingerprint rt options ctx details in
  let f := fingerprint context in
  (length rules <= 10)%nat ->
  fst (Cache.get (clock w (reads w)) (blockCache w) f) = None ->
  evalRules context details rules 0 pre (replicate (length rules) notRun)
    (beforeRules (default [] (opt_characteristics options)) rules f w)
  = (Ok (Completed results), w1) ->
  mode (store w1 l) = DRY_RUN ->
  isLocalRule (store w1 l) = Some localRule ->
  rule_validate localRule context details = Ok tt ->
  rule_protect localRule context details = Ok result ->
  conclusion result = DENY ->
  let results' := <[idx := result]> results in
  let reported := ArcjetDenyDecision (ttl result) (reason result) results' in
  let snapshot := map (store w1) rules in
  let w2 :=
    {| clock := clock w1; reads := reads w1;
       blockCache :=
         snd (Cache.get (clock w (reads w)) (blockCache w) f);
       store := store w1;
       trace :=
         trace w1
         ++ [RuleValidate idx; RuleProtect idx;
             LogDebug "Local rule result:";
             ClientReport context details reported snapshot;
             LogWarn dryRunWarning
               [ruleTypeName (type (store w1 l)); "DENY"]] |} in
  results' !! idx = Some result
  /\ protect generateFingerprint rt options rules ctx request w
     = match evalRules context details rules (S idx) post results' w2 with
       | (Ok (Returned decision), w3) => (Ok decision, w3)
       | (Ok (Completed results3), w3) =>
           remoteDecision options context details rules results3 w3
       | (Throw e, w3) => (Throw e, w3)
       end
  /\ (Forall (fun l' => isLocalRule (store w1 l') = None) post ->
      protect generateFingerprint rt options rules ctx request w
      = match decide (client options) context details snapshot with
        | Ok decision =>
            (Ok decision,
             if decisionIsDenied decision && (0 <? d_ttl decision) then
               cacheBlock "decide: Caching block locally for %d seconds" f
                 (d_reason decision) (d_ttl decision)
                 (addTrace w2 [ClientDecide context details snapshot])
             else addTrace w2 [ClientDecide context details snapshot])
        | Throw err =>
            let decision :=
              ArcjetErrorDecision 0 (ErrorReason err) results' in
            (Ok decision,
             addTrace w2
               [ClientDecide context details snapshot;
                LogError "Encountered problem getting remote decision: %s"
                  [errorMessage err];
                ClientReport context details decision snapshot])
        end)
  /\ (forall (decision : ArcjetDecision) (w3 : World),
        evalRules context details rules (S idx) post results' w2
        = (Ok (Returned decision), w3) ->
        exists (l' : loc) (localRule' : ArcjetLocalRule)
               (result' : ArcjetRuleResult),
          In l' post /\ l' <> l
          /\ mode (store w1 l') <> DRY_RUN
          /\ isLocalRule (store w1 l') = Some localRule'
          /\ rule_protect localRule' context details = Ok result'
          /\ conclusion result' = DENY
          /\ d_reason decision = reason result'
          /\ d_ttl decision = ttl result').
Proof.
  intros rules idx details context f Hlen Hget Hpre Hmode Hlocal Hv Hp Hc.
  cbn zeta.
  destruct (protect_after_prefix generateFingerprint rt options pre l post
              ctx request w w1 results Hlen Hget Hpre)
    as (Hprotect & Hidx & Hcache).
  fold rules details context f idx in Hprotect, Hidx.
  rewrite evalRules_cons in Hprotect. cbn zeta in Hprotect.
  rewrite Hlocal in Hprotect. unfold localResult, localEvents in Hprotect.
  rewrite Hv, Hp in Hprotect. unfold isDenied in Hprotect.
  rewrite (bool_decide_eq_true_2 _ Hc) in Hprotect.
  rewrite bool_decide_eq_false_2 in Hprotect
    by (rewrite Hmode; intros H; now apply H).
  rewrite !addTrace_addTrace in Hprotect. unfold addTrace in Hprotect.
  rewrite Hcache in Hprotect. cbn [app] in Hprotect.
  split; [now apply list_lookup_insert_eq|].
  split; [exact Hprotect|]. split.
  - intros Hpost. rewrite Hprotect.
    rewrite remote_after_remote_only by exact Hpost. cbn zeta.
    cbn [store]. fold rules.
    destruct (decide (client options) context details (map (store w1) rules))
      as [decision|err]; [reflexivity|].
    now rewrite addTrace_addTrace.
  - intros decision w3 Hret.
    apply evalRules_returned_live in Hret
      as (l' & localRule' & Hin & Hlocal' & Hmode' & Hc' & _ & Hreason & Httl).
    cbn [store] in Hlocal', Hmode'.
    unfold localResult in Hc', Hreason, Httl.
    destruct (rule_validate localRule' context details) as [[]|e];
      [|discriminate Hc'].
    destruct (rule_protect localRule' context details) as [result'|e]
      eqn:Hp'; [|discriminate Hc'].
    exists l', localRule', result'.
    split; [exact Hin|].
    split; [intros Heq; apply Hmode'; rewrite Heq; exact Hmode|].
    split; [exact Hmode'|]. split; [exact Hlocal'|].
    split; [exact Hp'|]. split; [exact Hc'|]. split; assumption.
Qed.

(** ** Exceptions in local rules *)

(** C9. Take a [protect] call with at most 10 rules and no live block in
    the cache, in which the loop reaches the rule at index [idx], a local
    rule whose [validate] or [protect] throws [err]. The exception is
    caught: the failure is logged, the rule's entry in [results] becomes
    RUN/ERROR with a reason carrying [err] while every other entry stays as
    it was, no report is made and nothing is cached for it, and the loop
    goes on with the rules after [idx]; what [protect] returns is what they
    and the remote decision give. *)
Theorem C9_rule_exception_is_recovered
  (generateFingerprint : BaseContext -> AnalyzeRequest -> string)
  (rt : string) (options : ArcjetOptions) (pre : list loc) (l : loc)
  (post : list loc) (ctx : ArcjetAdapterContext)
  (request : option ArcjetRequest) (w w1 : World)
  (results : list ArcjetRuleResult) (localRule : ArcjetLocalRule)
  (err : JsValue) :
  let rules := pre ++ l :: post in
  let idx := length pre in
  let details := mkDetails (default emptyRequest request) in
  let context := contextOf generateFingerprint rt options ctx details in
  let f := fingerprint context in
  (length rules <= 10)%nat ->
  fst (Cache.get (clock w (reads w)) (blockCache w) f) = None ->
  evalRules context details rules 0 pre (replicate (length rules) notRun)
    (beforeRules (default [] (opt_characteristics options)) rules f w)
  = (Ok (Completed results), w1) ->
  isLocalRule (store w1 l) = Some localRule ->
  rule_validate localRule context details = Throw err
  \/ (rule_validate localRule context details = Ok tt
      /\ rule_protect localRule context details = Throw err) ->
  let entry :=
    {| ttl := 0; state := RUN; conclusion := ERROR;
       reason := ErrorReason err |} in
  let results' := <[idx := entry]> results in
  let calls :=
    match rule_validate localRule context details with
    | Throw _ => [RuleValidate idx]
    | Ok _ => [RuleValidate idx; RuleProtect idx]
    end
    ++ [LogError "Failure running rule: %s due to %s"
          [ruleTypeName (type (store w1 l)); errorMessage err]] in
  let w2 :=
    {| clock := clock w1; reads := reads w1;
       blockCache :=
         snd (Cache.get (clock w (reads w)) (blockCache w) f);
       store := store w1; trace := trace w1 ++ calls |} in
  results' !! idx = Some entry
  /\ (forall j, j <> idx -> results' !! j = results !! j)
  /\ protect generateFingerprint rt options rules ctx request w
     = match evalRules context details rules (S idx) post results' w2 with
       | (Ok (Returned decision), w3) => (Ok decision, w3)
       | (Ok (Completed results3), w3) =>
           remoteDecision options context details rules results3 w3
       | (Throw e, w3) => (Throw e, w3)
       end
  /\ (Forall (fun l' => isLocalRule (store w1 l') = None) post ->
      let snapshot := map (store w1) rules in
      protect generateFingerprint rt options rules ctx request w
      = match decide (client options) context details snapshot with
        | Ok decision =>
            (Ok decision,
             if decisionIsDenied decision && (0 <? d_ttl decision) then
               cacheBlock "decide: Caching block locally for %d seconds" f
                 (d_reason decision) (d_ttl decision)
                 (addTrace w2 [ClientDecide context details snapshot])
             else addTrace w2 [ClientDecide context details snapshot])
        | Throw err' =>
            let decision :=
              ArcjetErrorDecision 0 (ErrorReason err') results' in
            (Ok decision,
             addTrace w2
               [ClientDecide context details snapshot;
                LogError "Encountered problem getting remote decision: %s"
                  [errorMessage err'];
                ClientReport context details decision snapshot])
        end).
Proof.
  intros rules idx details context f Hlen Hget Hpre Hlocal Hthrow.
  cbn zeta.
  destruct (protect_after_prefix generateFingerprint rt options pre l post
              ctx request w w1 results Hlen Hget Hpre)
    as (Hprotect & Hidx & Hcache).
  fold rules details context f idx in Hprotect, Hidx.
  rewrite evalRules_cons in Hprotect. cbn zeta in Hprotect.
  rewrite Hlocal in Hprotect.
  assert (Hres : localResult localRule context details
                 = {| ttl := 0; state := RUN; conclusion := ERROR;
                      reason := ErrorReason err |}).
  { unfold localResult. destruct Hthrow as [->|[-> ->]]; reflexivity. }
  assert (Hcalls : localEvents idx (store w1 l) localRule context details
                   = match rule_validate localRule context details with
                     | Throw _ => [RuleValidate idx]
                     | Ok _ => [RuleValidate idx; RuleProtect idx]
                     end
                     ++ [LogError "Failure running rule: %s due to %s"
                           [ruleTypeName (type (store w1 l));
                            errorMessage err]]).
  { unfold localEvents. destruct Hthrow as [->|[-> ->]]; reflexivity. }
  rewrite Hres, Hcalls in Hprotect. unfold isDenied in Hprotect.
  cbn [conclusion] in Hprotect.
  rewrite bool_decide_eq_false_2 in Hprotect by discriminate.
  unfold addTrace in Hprotect. rewrite Hcache in Hprotect.
  split; [now apply list_lookup_insert_eq|].
  split; [intros j Hj; apply list_lookup_insert_ne; congruence|].
  split; [exact Hprotect|].
  intros Hpost. cbn zeta. rewrite Hprotect.
  rewrite remote_after_remote_only by exact Hpost. cbn zeta.
  cbn [store]. fold rules.
  destruct (decide (client options) context details (map (store w1) rules))
    as [decision|err']; [reflexivity|].
  now rewrite addTrace_addTrace.
Qed.

(** ** No rules *)

(** C3 (as amended). With an empty rule list [protect] logs the deprecation
    warning and calls [blockCache.get] for the fingerprint. When the cache
    holds a live block for it, [protect] calls [blockCache.ttl], returns the
    cached DENY with the time left, reports it, and does not call
    [client.decide]. When the cache holds no live block, the next call is
    [client.decide]: [protect] returns the decision it produces, caching it
    when it is a DENY with a positive ttl, and the ERROR decision of the
    remote-failure path when it throws. *)
Theorem C3_no_rules_cache_then_remote
  (generateFingerprint : BaseContext -> AnalyzeRequest -> string)
  (rt : string) (options : ArcjetOptions)
  (ctx : ArcjetAdapterContext) (request : option ArcjetRequest) (w : World) :
  let details := mkDetails (default emptyRequest request) in
  let context := contextOf generateFingerprint rt options ctx details in
  let f := fingerprint context in
  let started :=
    trace w
    ++ [LogDebug "fingerprint (%s): %s";
        LogWarn
          "Calling `protect()` with no rules is deprecated. Did you mean to configure the Shield rule?"
          [];
        CacheGet f] in
  (forall (expiresAt : Z) (cached : ArcjetReason),
     Cache.expires (blockCache w) !! f = Some expiresAt ->
     Cache.data (blockCache w) !! f = Some cached ->
     clock w (reads w) < expiresAt ->
     let decision :=
       ArcjetDenyDecision (expiresAt - clock w (S (reads w))) cached [] in
     protect generateFingerprint rt options [] ctx request w
     = (Ok decision,
        {| clock := clock w; reads := S (S (reads w));
           blockCache := blockCache w; store := store w;
           trace :=
             started
             ++ [LogDebug "decide: alreadyBlocked"; CacheTtl f;
                 ClientReport context details decision [];
                 LogDebug "decide: already blocked"] |}))
  /\ (fst (Cache.get (clock w (reads w)) (blockCache w) f) = None ->
      let w1 :=
        {| clock := clock w; reads := S (reads w);
           blockCache :=
             snd (Cache.get (clock w (reads w)) (blockCache w) f);
           store := store w;
           trace := started ++ [ClientDecide context details []] |} in
      protect generateFingerprint rt options [] ctx request w
      = match decide (client options) context details [] with
        | Ok decision =>
            (Ok decision,
             if decisionIsDenied decision && (0 <? d_ttl decision) then
               cacheBlock "decide: Caching block locally for %d seconds" f
                 (d_reason decision) (d_ttl decision) w1
             else w1)
        | Throw err =>
            let decision := ArcjetErrorDecision 0 (ErrorReason err) [] in
            (Ok decision,
             addTrace w1
               [LogError "Encountered problem getting remote decision: %s"
                  [errorMessage err];
                ClientReport context details decision []])
        end).
Proof.
  intros details context f. cbn zeta. split.
  - intros expiresAt cached Hexp Hdata Hlive.
    rewrite protect_within_limit by (cbn; lia). cbn zeta.
    fold details. fold context. fold f.
    assert (Hget : Cache.get (clock w (reads w)) (blockCache w) f
                   = (Some cached, blockCache w)).
    { unfold Cache.get, Cache.ttl. rewrite Hexp, Hdata.
      change (default (clock w (reads w)) (Some expiresAt)) with expiresAt.
      now rewrite (proj2 (Z.ltb_lt 0 (expiresAt - clock w (reads w))))
        by lia. }
    unfold beforeRules. rewrite Hget.
    cbn [fst snd store blockCache trace length replicate map
         injectCharacteristics].
    unfold Cache.ttl. rewrite Hexp.
    change (default (clock w (S (reads w))) (Some expiresAt)) with expiresAt.
    cbn. rewrite <- !app_assoc. reflexivity.
  - intros Hget.
    rewrite protect_within_limit by (cbn; lia). cbn zeta.
    fold details. fold context. fold f. rewrite Hget.
    cbn [evalRules length replicate]. unfold mret, M_ret.
    rewrite remoteDecision_spec. cbn zeta. cbn [map].
    destruct (decide (client options) context details []) as [decision|err].
    + unfold beforeRules, addTrace. cbn -[Cache.get].
      rewrite <- !app_assoc. reflexivity.
    + unfold beforeRules, addTrace. cbn -[Cache.get].
      rewrite <- !app_assoc. reflexivity.
Qed.

(** ** The statements on the concrete scenario *)

Lemma C4_dry_run_witness :
  let run :=
    protect Scenario.fingerprintOf Scenario.rt
      (Scenario.opts Scenario.allowAll) [3; 4; 3]%nat Scenario.ctx
      Scenario.req Scenario.w0 in
  mode (Scenario.st 4%nat) = DRY_RUN
  /\ conclusion
       (localResult Scenario.dryRule
          (Scenario.context Scenario.allowAll Scenario.ctx) Scenario.details)
     = DENY
  /\ fst run = Ok Scenario.allowed
  /\ callsAfter 0 (snd run)
     = [KDebug; KCacheGet; KValidate 1; KProtect 1; KDebug; KReport; KWarn;
        KDecide]
  /\ blockCache (snd run) = Cache.new.
Proof.
  cbn zeta. split; [reflexivity|]. split; [reflexivity|].
  destruct (C4_dry_run_deny_is_overridden Scenario.fingerprintOf Scenario.rt
              (Scenario.opts Scenario.allowAll) [3%nat] 4%nat [3%nat]
              Scenario.ctx Scenario.req Scenario.w0
              (beforeRules [] [3; 4; 3]%nat "203.0.113.7" Scenario.w0)
              [notRun; notRun; notRun] Scenario.dryRule
              (localResult Scenario.dryRule
                 (Scenario.context Scenario.allowAll Scenario.ctx)
                 Scenario.details))
    as (_ & _ & Hremote & _).
  - cbn. lia.
  - vm_compute. reflexivity.
  - reflexivity.
  - reflexivity.
  - reflexivity.
  - reflexivity.
  - reflexivity.
  - reflexivity.
  - cbn [app] in Hremote. unfold loc in Hremote.
    rewrite Hremote by (repeat constructor).
    split; [reflexivity|]. split; reflexivity.
Defined.

Lemma C9_rule_exception_witness :
  let broken :=
    protect Scenario.fingerprintOf Scenario.rt
      (Scenario.opts Scenario.allowAll) [4; 3]%nat Scenario.brokenCtx
      Scenario.req Scenario.w0 in
  let signup :=
    protect Scenario.fingerprintOf Scenario.rt
      (Scenario.opts Scenario.allowAll) [0; 1; 2]%nat Scenario.ctx
      Signup.badEmailRequest Signup.w0 in
  let failed message :=
    {| ttl := 0; state := RUN; conclusion := ERROR;
       reason := ErrorReason (JsError message) |} in
  let invalid :=
    {| ttl := 0; state := RUN; conclusion := DENY;
       reason := EmailReason ["INVALID"] |} in
  (fst broken = Ok Scenario.allowed
   /\ callsAfter 0 (snd broken)
      = [KDebug; KCacheGet; KValidate 0; KProtect 0; KError; KDecide])
  /\ fst signup
     = Ok (ArcjetDenyDecision 0 (EmailReason ["INVALID"])
             [notRun; failed "bot detection requires user-agent header";
              invalid])
  /\ callsAfter 0 (snd signup)
     = [KDebug; KCacheGet; KValidate 1; KError; KValidate 2; KProtect 2;
        KDebug; KReport].
Proof.
  cbn zeta. split.
  - destruct (C9_rule_exception_is_recovered Scenario.fingerprintOf
                Scenario.rt (Scenario.opts Scenario.allowAll) [] 4%nat
                [3%nat] Scenario.brokenCtx Scenario.req Scenario.w0
                (beforeRules [] [4; 3]%nat "203.0.113.7" Scenario.w0)
                [notRun; notRun] Scenario.dryRule (JsError "stream closed"))
      as (_ & _ & _ & Hremote).
    + cbn. lia.
    + vm_compute. reflexivity.
    + reflexivity.
    + reflexivity.
    + right. split; reflexivity.
    + cbn [app] in Hremote. unfold loc in Hremote.
      rewrite Hremote by (repeat constructor). split; reflexivity.
  - destruct (C9_rule_exception_is_recovered Scenario.fingerprintOf
                Scenario.rt (Scenario.opts Scenario.allowAll) [0%nat] 1%nat
                [2%nat] Scenario.ctx Signup.badEmailRequest Signup.w0
                (beforeRules [] [0; 1; 2]%nat "198.51.100.9" Signup.w0)
                [notRun; notRun; notRun]
                {| rule_validate := botValidate;
                   rule_protect :=
                     botProtect Signup.analyzeDetectBot
                       (botConfigOf Signup.denyCurl) |}
                (JsError "bot detection requires user-agent header"))
      as (_ & _ & Hloop & _).
    + cbn. lia.
    + vm_compute. reflexivity.
    + reflexivity.
    + reflexivity.
    + left. reflexivity.
    + cbn [app] in Hloop. unfold loc in Hloop. rewrite Hloop.
      split; vm_compute; reflexivity.
Defined.

Lemma C6_cached_block_witness :
  fst (protect Scenario.fingerprintOf Scenario.rt
         (Scenario.opts Scenario.allowAll) [4; 3; 2]%nat Scenario.ctx
         Scenario.req Scenario.wBlocked)
  = Ok (ArcjetDenyDecision 60 ShieldReason [notRun; notRun; notRun])
  /\ callsAfter 0
       (snd (protect Scenario.fingerprintOf Scenario.rt
               (Scenario.opts Scenario.allowAll) [4; 3; 2]%nat Scenario.ctx
               Scenario.req Scenario.wBlocked))
     = [KDebug; KCacheGet; KDebug; KCacheTtl; KReport; KDebug].
Proof.
  destruct (C6_cached_block_is_served Scenario.fingerprintOf Scenario.rt
              (Scenario.opts Scenario.allowAll) [4; 3; 2]%nat Scenario.ctx
              Scenario.req Scenario.wBlocked 1060 ShieldReason)
    as [H _].
  - cbn. lia.
  - vm_compute. reflexivity.
  - vm_compute. reflexivity.
  - cbn. lia.
  - rewrite H. split; reflexivity.
Defined.

Lemma C7_deadline_exceeded_witness :
  let context := Scenario.context Scenario.failing Scenario.ctx in
  let result := localResult Scenario.dryRule context Scenario.details in
  fst (protect Scenario.fingerprintOf Scenario.rt
         (Scenario.opts Scenario.failing) [4; 3]%nat Scenario.ctx
         Scenario.req Scenario.w0)
  = Ok (ArcjetErrorDecision 0 (ErrorReason (JsError "deadline exceeded"))
          [result; notRun])
  /\ conclusion result = DENY.
Proof.
  cbn zeta. split; [|reflexivity].
  erewrite (C7_remote_failure_fails_open Scenario.fingerprintOf Scenario.rt
              (Scenario.opts Scenario.failing) [4; 3]%nat Scenario.ctx
              Scenario.req Scenario.w0).
  - reflexivity.
  - cbn. lia.
  - vm_compute. reflexivity.
  - vm_compute. reflexivity.
  - reflexivity.
Defined.

Lemma C3_no_rules_witness :
  let engine :=
    protect Scenario.fingerprintOf Scenario.rt
      (Scenario.opts Scenario.allowAll) [] Scenario.ctx Scenario.req in
  (fst (engine Scenario.wBlocked) = Ok (ArcjetDenyDecision 60 ShieldReason [])
   /\ callsAfter 0 (snd (engine Scenario.wBlocked))
      = [KDebug; KWarn; KCacheGet; KDebug; KCacheTtl; KReport; KDebug])
  /\ engine Scenario.w0
     = (Ok Scenario.allowed,
        {| clock := clock Scenario.w0; reads := 1; blockCache := Cache.new;
           store := Scenario.st;
           trace :=
             [LogDebug "fingerprint (%s): %s";
              LogWarn
                "Calling `protect()` with no rules is deprecated. Did you mean to configure the Shield rule?"
                [];
              CacheGet "203.0.113.7";
              ClientDecide (Scenario.context Scenario.allowAll Scenario.ctx)
                Scenario.details []] |}).
Proof.
  cbn zeta. split.
  - destruct (C3_no_rules_cache_then_remote Scenario.fingerprintOf
                Scenario.rt (Scenario.opts Scenario.allowAll) Scenario.ctx
                Scenario.req Scenario.wBlocked) as [Hlive _].
    rewrite (Hlive 1060 ShieldReason).
    + split; reflexivity.
    + vm_compute. reflexivity.
    + vm_compute. reflexivity.
    + cbn. lia.
  - destruct (C3_no_rules_cache_then_remote Scenario.fingerprintOf
                Scenario.rt (Scenario.opts Scenario.allowAll) Scenario.ctx
                Scenario.req Scenario.w0) as [_ Hnone].
    rewrite Hnone by (vm_compute; reflexivity). reflexivity.
Defined.

(** C3, the claim as written fails. An engine without rules whose first
    remote decision was a DENY with ttl 60 is asked again for the same
    client: both calls invoke [blockCache.get]; the second finds the block,
    invokes [blockCache.ttl], never calls [client.decide], and returns the
    cached DENY with the ttl that is left, where [client.decide] would have
    returned a ttl of 60. *)
Lemma C3_empty_rules_consult_the_cache :
  let engine :=
    protect Scenario.fingerprintOf Scenario.rt
      (Scenario.opts Scenario.denyAll) [] Scenario.ctx Scenario.req in
  let w1 := snd (engine Scenario.wTicking) in
  fst (engine Scenario.wTicking) = Ok Scenario.blocked
  /\ callsAfter 0 w1
     = [KDebug; KWarn; KCacheGet; KDecide; KDebug; KCacheSet]
  /\ callsAfter (length (trace w1)) (snd (engine w1))
     = [KDebug; KWarn; KCacheGet; KDebug; KCacheTtl; KReport; KDebug]
  /\ fst (engine w1) = Ok (ArcjetDenyDecision 40 ShieldReason [])
  /\ decide Scenario.denyAll
       (Scenario.context Scenario.denyAll Scenario.ctx) Scenario.details []
     = Ok (ArcjetDenyDecision 60 ShieldReason []).
Proof. vm_compute. repeat split. Qed.

(** ** The order of the rules given to the engine *)

(** C2 (as amended). Two rule sets that are permutations of each other and
    list their rules of equal priority in the same relative order give the
    same sorted rule list, and [protect] configured with either makes the
    same calls and returns the same decision. *)
Theorem C2_same_order_within_priorities
  (generateFingerprint : BaseContext -> AnalyzeRequest -> string)
  (rt : string) (options : ArcjetOptions) (R P : list (list loc))
  (ctx : ArcjetAdapterContext) (request : option ArcjetRequest) (w : World) :
  Permutation (concat R) (concat P) ->
  sameTieOrder (fun l => priority (store w l)) (concat R) (concat P) ->
  rootRules (withRules options R) (store w)
  = rootRules (withRules options P) (store w)
  /\ protect generateFingerprint rt (withRules options R)
       (rootRules (withRules options R) (store w)) ctx request w
     = protect generateFingerprint rt (withRules options P)
         (rootRules (withRules options P) (store w)) ctx request w.
Proof.
  intros _ Hties.
  assert (Hroot : rootRules (withRules options R) (store w)
                  = rootRules (withRules options P) (store w)).
  { unfold rootRules, withRules. cbn [rules].
    now apply sortByKey_sameTieOrder. }
  split; [exact Hroot|]. rewrite Hroot. reflexivity.
Qed.

Lemma C2_distinct_priorities_witness :
  let o := Scenario.opts Scenario.allowAll in
  let R := [[0]; [3]]%nat in
  let P := [[3]; [0]]%nat in
  rootRules (withRules o R) Scenario.st = [0; 3]%nat
  /\ rootRules (withRules o P) Scenario.st = [0; 3]%nat
  /\ protect Scenario.fingerprintOf Scenario.rt (withRules o R)
       (rootRules (withRules o R) Scenario.st) Scenario.ctx Scenario.req
       Scenario.w0
     = protect Scenario.fingerprintOf Scenario.rt (withRules o P)
         (rootRules (withRules o P) Scenario.st) Scenario.ctx Scenario.req
         Scenario.w0.
Proof.
  cbn zeta. split; [reflexivity|]. split; [reflexivity|].
  apply (C2_same_order_within_priorities Scenario.fingerprintOf Scenario.rt
           (Scenario.opts Scenario.allowAll) [[0]; [3]]%nat [[3]; [0]]%nat
           Scenario.ctx Scenario.req Scenario.w0).
  - apply perm_swap.
  - apply distinct_keys_sameTieOrder; [|apply perm_swap].
    vm_compute. constructor; [|constructor; [|constructor]].
    + intros [H|[]]. discriminate H.
    + intros [].
Defined.

(** C2, the claim as written fails. The two rules built by
    [sensitiveInfo(denyEmail, denyPhone)] have the same priority and are both
    LIVE; given in either order they are evaluated in that order, and the
    decision carries the reason of whichever comes first. *)
Lemma C2_order_of_equal_priorities_matters :
  let o := Scenario.opts Scenario.allowAll in
  let R := [[0; 1]]%nat in
  let P := [[1; 0]]%nat in
  let run rules :=
    fst (protect Scenario.fingerprintOf Scenario.rt (withRules o rules)
           (rootRules (withRules o rules) Scenario.st) Scenario.ctx
           Scenario.req Scenario.w0) in
  let found name :=
    SensitiveInfoReason
      [{| entity_start := 0; entity_end := 3; identifiedType := name |}] [] in
  let denied name :=
    {| ttl := 0; state := RUN; conclusion := DENY; reason := found name |} in
  Permutation (concat R) (concat P)
  /\ priority (Scenario.st 0%nat) = priority (Scenario.st 1%nat)
  /\ run R
     = Ok (ArcjetDenyDecision 0 (found "EMAIL") [denied "EMAIL"; notRun])
  /\ run P
     = Ok (ArcjetDenyDecision 0 (found "PHONE_NUMBER")
             [denied "PHONE_NUMBER"; notRun])
  /\ run R <> run P.
Proof.
  cbn zeta. split; [apply perm_swap|].
  split; [reflexivity|]. split; [vm_compute; reflexivity|].
  split; [vm_compute; reflexivity|]. vm_compute. discriminate.
Qed.

(** ** [withRule] *)

Lemma injectCharacteristics_spec (cs : list string) (rules : list loc)
  (st : loc -> ArcjetRule) (l : loc) :
  injectCharacteristics cs rules st l = st l
  \/ (In l rules /\ type (st l) = RATE_LIMIT
      /\ characteristics (st l) = None
      /\ injectCharacteristics cs rules st l = setCharacteristics cs (st l)).
Proof.
  revert st. induction rules as [|l0 rules IH]; intros st; [now left|].
  cbn [injectCharacteristics].
  destruct (isRateLimitRule (st l0)) eqn:Hrate;
    [destruct (characteristics (st l0)) eqn:Hcs|].
  - destruct (IH st) as [H|(Hin & H)]; [now left|right].
    split; [now right|exact H].
  - apply bool_decide_eq_true_1 in Hrate.
    destruct (Nat.eq_dec l l0) as [->|Hne].
    + right. split; [now left|].
      destruct (IH (<[l0 := setCharacteristics cs (st l0)]> st))
        as [H|(_ & _ & H & _)].
      * rewrite H, fn_lookup_insert. auto.
      * rewrite fn_lookup_insert in H. discriminate.
    + destruct (IH (<[l0 := setCharacteristics cs (st l0)]> st))
        as [H|(Hin & H)];
        rewrite fn_lookup_insert_ne in H by congruence.
      * now left.
      * right. split; [now right|exact H].
  - destruct (IH st) as [H|(Hin & H)]; [now left|right].
    split; [now right|exact H].
Qed.

Lemma injectCharacteristics_assigned (cs : list string) (rules : list loc)
  (st : loc -> ArcjetRule) (l : loc) :
  In l rules -> type (st l) = RATE_LIMIT -> characteristics (st l) = None ->
  injectCharacteristics cs rules st l = setCharacteristics cs (st l).
Proof.
  revert st. induction rules as [|l0 rules IH]; intros st Hin Htype Hcs;
    [destruct Hin|].
  cbn [injectCharacteristics].
  destruct (Nat.eq_dec l l0) as [->|Hne].
  - unfold isRateLimitRule. rewrite (bool_decide_eq_true_2 _ Htype), Hcs.
    destruct (injectCharacteristics_spec cs rules
                (<[l0 := setCharacteristics cs (st l0)]> st) l0)
      as [H|(_ & _ & H & _)].
    + now rewrite H, fn_lookup_insert.
    + rewrite fn_lookup_insert in H. discriminate.
  - destruct Hin as [->|Hin]; [congruence|].
    destruct (isRateLimitRule (st l0));
      [destruct (characteristics (st l0))|]; try now apply IH.
    rewrite IH; rewrite ?fn_lookup_insert_ne by congruence; auto.
Qed.

(** The only thing [protect] does to the rule objects is the assignment of
    characteristics in its first loop. *)
Lemma protect_store_within_limit
  (generateFingerprint : BaseContext -> AnalyzeRequest -> string)
  (rt : string) (options : ArcjetOptions) (rules : list loc)
  (ctx : ArcjetAdapterContext) (request : option ArcjetRequest) (w : World) :
  (length rules <= 10)%nat ->
  store (snd (protect generateFingerprint rt options rules ctx request w))
  = injectCharacteristics (default [] (opt_characteristics options)) rules
      (store w).
Proof.
  intros Hle. rewrite protect_within_limit by exact Hle. cbn zeta.
  match goal with
  | |- context [match ?o with Some _ => _ | None => _ end] => destruct o
  end; [reflexivity|].
  match goal with
  | |- context [evalRules ?a ?b ?c ?d ?e ?f ?g] =>
      destruct (evalRules_total a b c e d f g)
        as ([decision|results] & w2 & -> & Hst)
  end; [exact Hst|].
  rewrite remoteDecision_spec. cbn zeta.
  match goal with
  | |- context [decide ?c ?x ?y ?z] => destruct (decide c x y z) as [d|err]
  end; [destruct (decisionIsDenied d && (0 <? d_ttl d))|]; exact Hst.
Qed.

(** C8 (as amended). [withRule] gives the derived engine the parent's
    rules followed by the new ones, sorted by priority with the order within
    each priority kept; the parent's rule list is a value the call does not
    touch. The rule objects are shared: a [protect] call on the derived
    engine keeps the type, priority, mode, variant fields and methods of
    every rule object. When the derived engine has at most 10 rules, the
    call assigns the engine's characteristics to every rate limit rule of
    the derived engine that had none; it changes no other rule object, and
    with more than 10 rules it changes none at all. *)
Theorem C8_withRule_shares_rule_objects
  (generateFingerprint : BaseContext -> AnalyzeRequest -> string)
  (rt : string) (options : ArcjetOptions) (st : loc -> ArcjetRule)
  (baseRules rule : list loc) :
  let derived := withRule st baseRules rule in
  let prio := fun l => priority (st l) in
  Permutation (baseRules ++ rule) derived
  /\ sortedByKey prio derived
  /\ sameTieOrder prio (baseRules ++ rule) derived
  /\ forall (ctx : ArcjetAdapterContext) (request : option ArcjetRequest)
       (w : World) (l : loc),
       let w' :=
         snd (protect generateFingerprint rt options derived ctx request w) in
       sameButCharacteristics (store w l) (store w' l)
       /\ ((length derived <= 10)%nat ->
           In l derived ->
           type (store w l) = RATE_LIMIT ->
           characteristics (store w l) = None ->
           characteristics (store w' l)
           = Some (default [] (opt_characteristics options)))
       /\ ((10 < length derived)%nat
           \/ ~ In l derived
           \/ type (store w l) <> RATE_LIMIT
           \/ characteristics (store w l) <> None ->
           store w' l = store w l).
Proof.
  cbn zeta. unfold withRule.
  split; [apply sortByKey_perm|]. split; [apply sortByKey_sorted|].
  split; [intros p; symmetry; apply withKey_sortByKey|].
  intros ctx request w l.
  set (derived := sortByKey (fun l => priority (st l)) (baseRules ++ rule)).
  set (cs := default [] (opt_characteristics options)).
  destruct (Nat.le_gt_cases (length derived) 10) as [Hle|Hgt].
  - rewrite protect_store_within_limit by exact Hle. fold cs.
    split; [|split].
    + destruct (injectCharacteristics_spec cs derived (store w) l)
        as [-> | (_ & _ & _ & ->)]; repeat split.
    + intros _ Hin Htype Hcs.
      now rewrite injectCharacteristics_assigned.
    + intros Hnot.
      destruct (injectCharacteristics_spec cs derived (store w) l)
        as [H | (Hin & Htype & Hcs & _)]; [exact H|].
      destruct Hnot as [H|[H|[H|H]]]; [lia|contradiction..].
  - destruct (protect_over_limit_returns generateFingerprint rt options
                derived ctx request w Hgt) as (decision & es & ->).
    cbn [snd addTrace store].
    split; [repeat split|]. split; [lia|reflexivity].
Qed.

Lemma C8_shared_rule_witness :
  let o := withRules (Scenario.opts Scenario.allowAll) [[2%nat]] in
  let derived := withRule Scenario.st [2%nat] [3%nat] in
  let w' :=
    snd (protect Scenario.fingerprintOf Scenario.rt o derived Scenario.ctx
           Scenario.req Scenario.w0) in
  derived = [3; 2]%nat
  /\ type (Scenario.st 2%nat) = RATE_LIMIT
  /\ characteristics (Scenario.st 2%nat) = None
  /\ characteristics (store w' 2%nat) = Some []
  /\ store w' 3%nat = Scenario.st 3%nat.
Proof.
  cbn zeta. split; [reflexivity|]. split; [reflexivity|].
  split; [reflexivity|].
  destruct (C8_withRule_shares_rule_objects Scenario.fingerprintOf
              Scenario.rt
              (withRules (Scenario.opts Scenario.allowAll) [[2%nat]])
              Scenario.st [2%nat] [3%nat]) as (_ & _ & _ & Hshared).
  destruct (Hshared Scenario.ctx Scenario.req Scenario.w0 2%nat)
    as (_ & Hassigned & _).
  destruct (Hshared Scenario.ctx Scenario.req Scenario.w0 3%nat)
    as (_ & _ & Hkept).
  split.
  - apply Hassigned;
      [vm_compute; lia|vm_compute; auto|reflexivity|reflexivity].
  - apply Hkept. right. right. left. discriminate.
Defined.

(** C8, the claim as written fails. The parent engine holds the rate limit
    rule built by [fixedWindow(oneMinuteWindow)], which has no
    characteristics; after one [protect] call on the engine derived with
    [withRule(shield())], that same rule object has them. *)
Lemma C8_derived_protect_changes_parent_rule :
  let o := withRules (Scenario.opts Scenario.allowAll) [[2%nat]] in
  let parent := rootRules o Scenario.st in
  let derived := withRule Scenario.st parent [3%nat] in
  let w' :=
    snd (protect Scenario.fingerprintOf Scenario.rt o derived Scenario.ctx
           Scenario.req Scenario.w0) in
  parent = [2%nat]
  /\ derived = [3; 2]%nat
  /\ characteristics (store Scenario.w0 2%nat) = None
  /\ characteristics (store w' 2%nat) = Some []
  /\ store w' 2%nat <> store Scenario.w0 2%nat.
Proof. vm_compute. repeat split. discriminate. Qed.

(** ** [sensitiveInfo] *)

Lemma sensitiveInfoRules_spec (detect : DetectSensitiveInfo)
  (options : SensitiveInfoOptions) (opts : list SensitiveInfoOptions)
  (rules : list ArcjetRule) :
  sensitiveInfoRules detect options opts = Ok rules ->
  rules = map (sensitiveInfoRule detect options) opts.
Proof.
  revert rules. induction opts as [|opt opts IH]; intros rules; cbn.
  - now intros [= <-].
  - destruct (bool_decide (is_Some (si_allow opt))
              && bool_decide (is_Some (si_deny opt))); [discriminate|].
    destruct (sensitiveInfoRules detect options opts) as [rules'|e];
      [|discriminate].
    intros [= <-]. f_equal. now apply IH.
Qed.

(** C10. In the rules returned by [sensitiveInfo(options,
    ...additionalOptions)], the [protect] method of the rule built from the
    [i]-th option object, once it has the body, calls the analyzer with that
    object's entities and detector but with the context window size of the
    first object [options] (1 when that is absent or 0), whatever size the
    [i]-th object gives. *)
Theorem C10_context_window_of_first_options (detect : DetectSensitiveInfo)
  (options : SensitiveInfoOptions)
  (additionalOptions : list SensitiveInfoOptions) (rules : list ArcjetRule)
  (i : nat) (opt : SensitiveInfoOptions) (rule : ArcjetRule) :
  sensitiveInfo detect options additionalOptions = Ok rules ->
  (options :: additionalOptions) !! i = Some opt ->
  rules !! i = Some rule ->
  exists localRule,
    isLocalRule rule = Some localRule
    /\ forall (context : ArcjetContext) (details : ArcjetRequestDetails)
         (body : string),
         getBody (base_ctx (ctx_base context)) = Ok (Some body) ->
         rule_protect localRule context details
         = match
             detect context body (entitiesOf opt)
               match si_contextWindowSize options with
               | Some size => if size =? 0 then 1 else size
               | None => 1
               end
               (convertDetect <$> si_detect opt)
           with
           | Ok result => Ok (sensitiveInfoResult result)
           | Throw e => Throw e
           end.
Proof.
  intros Hbuilt Hopt Hrule. unfold sensitiveInfo in Hbuilt.
  apply sensitiveInfoRules_spec in Hbuilt. subst rules.
  rewrite list_lookup_fmap, Hopt in Hrule. cbn in Hrule.
  injection Hrule as <-.
  eexists. split; [reflexivity|].
  intros context details body Hbody. cbn [rule_protect].
  unfold sensitiveInfoProtect. now rewrite Hbody.
Qed.

Lemma C10_second_rule_witness :
  let found size :=
    Ok {| ttl := 0; state := RUN; conclusion := DENY;
          reason :=
            SensitiveInfoReason
              [{| entity_start := 0; entity_end := size;
                  identifiedType := "PHONE_NUMBER" |}]
              [] |} in
  (Scenario.objects !! 1%nat
   = Some (sensitiveInfoRule Scenario.detect Scenario.denyEmail
             Scenario.denyPhone)
   /\ si_contextWindowSize Scenario.denyEmail = Some 3
   /\ si_contextWindowSize Scenario.denyPhone = Some 7
   /\ exists localRule,
        isLocalRule (Scenario.st 1%nat) = Some localRule
        /\ rule_protect localRule
             (Scenario.context Scenario.allowAll Scenario.ctx)
             Scenario.details
           = found 3)
  /\ si_contextWindowSize Scenario.dryDenyEmail = None
  /\ exists localRule,
       isLocalRule
         (sensitiveInfoRule Scenario.detect Scenario.dryDenyEmail
            Scenario.denyPhone)
       = Some localRule
       /\ rule_protect localRule
            (Scenario.context Scenario.allowAll Scenario.ctx)
            Scenario.details
          = found 1.
Proof.
  cbn zeta. split; [|split; [reflexivity|]].
  - split; [reflexivity|]. split; [reflexivity|]. split; [reflexivity|].
    destruct (C10_context_window_of_first_options Scenario.detect
                Scenario.denyEmail [Scenario.denyPhone]
                [sensitiveInfoRule Scenario.detect Scenario.denyEmail
                   Scenario.denyEmail;
                 sensitiveInfoRule Scenario.detect Scenario.denyEmail
                   Scenario.denyPhone]
                1%nat Scenario.denyPhone
                (sensitiveInfoRule Scenario.detect Scenario.denyEmail
                   Scenario.denyPhone))
      as (localRule & Hlocal & Hcall).
    + reflexivity.
    + reflexivity.
    + reflexivity.
    + exists localRule. split; [exact Hlocal|].
      rewrite (Hcall _ _ "alice@example.com, 555-0100") by reflexivity.
      reflexivity.
  - destruct (C10_context_window_of_first_options Scenario.detect
                Scenario.dryDenyEmail [Scenario.denyPhone]
                [sensitiveInfoRule Scenario.detect Scenario.dryDenyEmail
                   Scenario.dryDenyEmail;
                 sensitiveInfoRule Scenario.detect Scenario.dryDenyEmail
                   Scenario.denyPhone]
                1%nat Scenario.denyPhone
                (sensitiveInfoRule Scenario.detect Scenario.dryDenyEmail
                   Scenario.denyPhone))
      as (localRule & Hlocal & Hcall).
    + reflexivity.
    + reflexivity.
    + reflexivity.
    + exists localRule. split; [exact Hlocal|].
      rewrite (Hcall _ _ "alice@example.com, 555-0100") by reflexivity.
      reflexivity.
Defined.

(** * Further properties *)

(** ** The block cache on its own *)

(** A value stored with [set] is what [get] returns for that key at any
    time strictly before the expiry given, whatever the cache held before,
    and such a [get] changes nothing. *)
Theorem Cache_get_after_set {T : Type} (now : Z) (c : Cache.t T)
  (key : string) (value : T) (expiresAt : Z) :
  now < expiresAt ->
  Cache.get now (Cache.set c key value expiresAt) key
  = (Some value, Cache.set c key value expiresAt).
Proof.
  intros Hlive. unfold Cache.get, Cache.ttl, Cache.set.
  cbn [Cache.expires Cache.data].
  rewrite !lookup_insert_eq.
  change (default now (Some expiresAt)) with expiresAt.
  now rewrite (proj2 (Z.ltb_lt 0 (expiresAt - now))) by lia.
Qed.

Lemma Cache_get_after_set_witness :
  1000 < 1060
  /\ Cache.get 1000
       (Cache.set (Cache.set Cache.new "203.0.113.7" GenericReason 1010)
          "203.0.113.7" ShieldReason 1060)
       "203.0.113.7"
     = (Some ShieldReason,
        Cache.set (Cache.set Cache.new "203.0.113.7" GenericReason 1010)
          "203.0.113.7" ShieldReason 1060).
Proof.
  split; [lia|].
  apply (Cache_get_after_set 1000
           (Cache.set Cache.new "203.0.113.7" GenericReason 1010)
           "203.0.113.7" ShieldReason 1060).
  lia.
Defined.

(** Lazy eviction: when the entry of a key has expired (or the key has no
    entry), [get] returns nothing and drops the key from both maps; the
    entries of all other keys stay. *)
Theorem Cache_get_expired_evicts {T : Type} (now : Z) (c : Cache.t T)
  (key : string) :
  Cache.ttl now c key <= 0 ->
  let c' := snd (Cache.get now c key) in
  fst (Cache.get now c key) = None
  /\ Cache.expires c' !! key = None
  /\ Cache.data c' !! key = None
  /\ Cache.ttl now c' key = 0
  /\ forall other, other <> key ->
       Cache.expires c' !! other = Cache.expires c !! other
       /\ Cache.data c' !! other = Cache.data c !! other.
Proof.
  intros Hexpired. cbn zeta. unfold Cache.get.
  rewrite (proj2 (Z.ltb_ge 0 (Cache.ttl now c key))) by lia.
  cbn [fst snd]. unfold Cache.ttl. cbn [Cache.expires Cache.data].
  rewrite !lookup_delete_eq. repeat split.
  - cbn. lia.
  - now apply lookup_delete_ne.
  - now apply lookup_delete_ne.
Qed.

Lemma Cache_get_expired_evicts_witness :
  let c :=
    Cache.set (Cache.set Cache.new "203.0.113.7" ShieldReason 1060)
      "198.51.100.4" GenericReason 2000 in
  Cache.ttl 1060 c "203.0.113.7" <= 0
  /\ fst (Cache.get 1060 c "203.0.113.7") = None
  /\ Cache.expires (snd (Cache.get 1060 c "203.0.113.7")) !! "203.0.113.7"
     = None
  /\ Cache.expires (snd (Cache.get 1060 c "203.0.113.7")) !! "198.51.100.4"
     = Some 2000.
Proof.
  cbn zeta.
  destruct (Cache_get_expired_evicts 1060
              (Cache.set (Cache.set Cache.new "203.0.113.7" ShieldReason 1060)
                 "198.51.100.4" GenericReason 2000)
              "203.0.113.7")
    as (Hget & Hexp & _ & _ & Hother).
  - vm_compute. discriminate.
  - split; [vm_compute; discriminate|]. split; [exact Hget|].
    split; [exact Hexp|].
    rewrite (proj1 (Hother "198.51.100.4" ltac:(discriminate))).
    vm_compute. reflexivity.
Defined.

Lemma Cache_get_again {T : Type} (now : Z) (c : Cache.t T) (key : string) :
  Cache.get now (snd (Cache.get now c key)) key = Cache.get now c key.
Proof.
  destruct (Cache.get now c key) as [r c'] eqn:Hget. cbn [snd].
  unfold Cache.get in Hget.
  destruct (0 <? Cache.ttl now c key) eqn:Hlive; injection Hget as <- <-.
  - unfold Cache.get. now rewrite Hlive.
  - unfold Cache.get, Cache.ttl.
    cbn [Cache.expires Cache.data]. rewrite lookup_delete_eq.
    cbn. rewrite Z.sub_diag. cbn. f_equal. f_equal.
    + apply delete_id, lookup_delete_eq.
    + apply delete_id, lookup_delete_eq.
Qed.

(** Two [get]s of a key in succession, with no [set] in between and at the
    same reading of the clock, return the same value, and the second leaves
    the cache as the first left it. Once a [get] has returned nothing, every
    later [get] of that key returns nothing until the key is [set] again. *)
Theorem Cache_get_idempotent {T : Type} (now : Z) (c : Cache.t T)
  (key : string) :
  Cache.get now (snd (Cache.get now c key)) key = Cache.get now c key
  /\ (fst (Cache.get now c key) = None ->
      forall later,
        fst (Cache.get later (snd (Cache.get now c key)) key) = None).
Proof.
  split; [apply Cache_get_again|].
  destruct (Cache.get now c key) as [r c'] eqn:Hget. cbn [fst snd].
  unfold Cache.get in Hget.
  destruct (0 <? Cache.ttl now c key) eqn:Hlive; injection Hget as <- <-.
  - intros Hnone later. unfold Cache.get.
    destruct (0 <? Cache.ttl later c key); [exact Hnone|reflexivity].
  - intros _ later. unfold Cache.get, Cache.ttl.
    cbn [Cache.expires Cache.data]. rewrite lookup_delete_eq.
    cbn. now rewrite Z.sub_diag.
Qed.

(** [set] for one key leaves what [ttl] and [get] answer for every other
    key as it was. *)
Theorem Cache_set_other_key {T : Type} (now : Z) (c : Cache.t T)
  (key other : string) (value : T) (expiresAt : Z) :
  other <> key ->
  Cache.ttl now (Cache.set c key value expiresAt) other = Cache.ttl now c other
  /\ fst (Cache.get now (Cache.set c key value expiresAt) other)
     = fst (Cache.get now c other).
Proof.
  intros Hne.
  assert (Httl : Cache.ttl now (Cache.set c key value expiresAt) other
                 = Cache.ttl now c other).
  { unfold Cache.ttl, Cache.set. cbn [Cache.expires].
    now rewrite lookup_insert_ne by congruence. }
  split; [exact Httl|]. unfold Cache.get. rewrite Httl.
  destruct (0 <? Cache.ttl now c other); [|reflexivity].
  unfold Cache.set. cbn [fst Cache.data].
  now rewrite lookup_insert_ne by congruence.
Qed.

Lemma Cache_set_other_key_witness :
  let c := Cache.set Cache.new "203.0.113.7" ShieldReason 1060 in
  "203.0.113.7" <> "198.51.100.4"
  /\ fst (Cache.get 1000 (Cache.set c "198.51.100.4" GenericReason 1001)
            "203.0.113.7")
     = Some ShieldReason.
Proof.
  cbn zeta. split; [discriminate|].
  rewrite (proj2 (Cache_set_other_key 1000
                    (Cache.set Cache.new "203.0.113.7" ShieldReason 1060)
                    "198.51.100.4" "203.0.113.7" GenericReason 1001
                    ltac:(discriminate))).
  vm_compute. reflexivity.
Defined.

Lemma cacheConsistent_new {T : Type} : cacheConsistent (@Cache.new T).
Proof.
  intros k. unfold Cache.new. cbn. rewrite !lookup_empty.
  split; intros [x Hx]; discriminate.
Qed.

Lemma cacheConsistent_set {T : Type} (c : Cache.t T) (key : string)
  (value : T) (expiresAt : Z) :
  cacheConsistent c -> cacheConsistent (Cache.set c key value expiresAt).
Proof.
  intros Hc k. unfold Cache.set. cbn [Cache.expires Cache.data].
  destruct (String.string_dec k key) as [->|Hne].
  - rewrite !lookup_insert_eq. split; eauto.
  - rewrite !lookup_insert_ne by congruence. apply Hc.
Qed.

Lemma cacheConsistent_get {T : Type} (now : Z) (c : Cache.t T)
  (key : string) :
  cacheConsistent c -> cacheConsistent (snd (Cache.get now c key)).
Proof.
  intros Hc. unfold Cache.get.
  destruct (0 <? Cache.ttl now c key); [exact Hc|].
  intros k. cbn [snd Cache.expires Cache.data].
  destruct (String.string_dec k key) as [->|Hne].
  - rewrite !lookup_delete_eq. split; intros [x Hx]; discriminate.
  - rewrite !lookup_delete_ne by congruence. apply Hc.
Qed.

(** The cache keeps its two maps on the same keys: a new cache does, and
    [set] and [get] keep it so; and in such a cache [get] returns a value
    exactly when the key has an expiry strictly after the current time. *)
Theorem Cache_consistent_invariant {T : Type} (now : Z) (c : Cache.t T)
  (key : string) (value : T) (expiresAt : Z) :
  cacheConsistent (@Cache.new T)
  /\ (cacheConsistent c ->
      cacheConsistent (Cache.set c key value expiresAt)
      /\ cacheConsistent (snd (Cache.get now c key))
      /\ (is_Some (fst (Cache.get now c key))
          <-> exists e, Cache.expires c !! key = Some e /\ now < e)).
Proof.
  split; [apply cacheConsistent_new|].
  intros Hc. split; [now apply cacheConsistent_set|].
  split; [now apply cacheConsistent_get|].
  unfold Cache.get, Cache.ttl.
  destruct (Cache.expires c !! key) as [e|] eqn:He; cbn.
  - destruct (Z.ltb_spec 0 (e - now)) as [Hlive|Hdead]; cbn.
    + split; [intros _; exists e; split; [reflexivity|lia]|].
      intros _. apply Hc. rewrite He. eauto.
    + split; [intros [x Hx]; discriminate|].
      intros (e' & [= <-] & Hlt). lia.
  - rewrite Z.sub_diag. cbn.
    split; [intros [x Hx]; discriminate|]. intros (e' & [=] & _).
Qed.

Lemma Cache_consistent_witness :
  let c := Cache.set Cache.new "203.0.113.7" ShieldReason 1060 in
  cacheConsistent c
  /\ fst (Cache.get 1000 c "203.0.113.7") = Some ShieldReason
  /\ fst (Cache.get 1060 c "203.0.113.7") = None
  /\ cacheConsistent (Cache.set c "198.51.100.4" GenericReason 1030)
  /\ cacheConsistent (snd (Cache.get 1060 c "203.0.113.7"))
  /\ (is_Some (fst (Cache.get 1000 c "203.0.113.7"))
      <-> exists e, Cache.expires c !! "203.0.113.7" = Some e /\ 1000 < e)
  /\ (is_Some (fst (Cache.get 1060 c "203.0.113.7"))
      <-> exists e, Cache.expires c !! "203.0.113.7" = Some e /\ 1060 < e).
Proof.
  cbn zeta.
  destruct (Cache_consistent_invariant 1000 (@Cache.new ArcjetReason)
              "203.0.113.7" ShieldReason 1060) as (Hnew & Hkept).
  destruct (Hkept Hnew) as (Hc & _ & _).
  destruct (Cache_consistent_invariant 1000
              (Cache.set Cache.new "203.0.113.7" ShieldReason 1060)
              "203.0.113.7" ShieldReason 1060) as (_ & Hlive).
  destruct (Cache_consistent_invariant 1060
              (Cache.set Cache.new "203.0.113.7" ShieldReason 1060)
              "198.51.100.4" GenericReason 1030) as (_ & Hset).
  destruct (Cache_consistent_invariant 1060
              (Cache.set Cache.new "203.0.113.7" ShieldReason 1060)
              "203.0.113.7" ShieldReason 1060) as (_ & Hdead).
  split; [exact Hc|]. split; [vm_compute; reflexivity|].
  split; [vm_compute; reflexivity|].
  split; [exact (proj1 (Hset Hc))|].
  split; [exact (proj1 (proj2 (Hdead Hc)))|].
  split; [exact (proj2 (proj2 (Hlive Hc)))|exact (proj2 (proj2 (Hdead Hc)))].
Defined.

(** ** What the rule loop does to the world *)

Lemma evalRules_effects (context : ArcjetContext)
  (details : ArcjetRequestDetails) (rules rest : list loc) (idx : nat)
  (results : list ArcjetRuleResult) (w : World) :
  exists exit w',
    evalRules context details rules idx rest results w = (Ok exit, w')
    /\ clock w' = clock w /\ store w' = store w
    /\ match exit with
       | Completed results' =>
           blockCache w' = blockCache w /\ reads w' = reads w
           /\ length results' = length results
       | Returned decision =>
           d_conclusion decision = DENY
           /\ length (d_results decision) = length results
           /\ if 0 <? d_ttl decision then
                blockCache w'
                = Cache.set (blockCache w) (fingerprint context)
                    (d_reason decision)
                    (clock w (reads w) + d_ttl decision)
                /\ reads w' = S (reads w)
              else blockCache w' = blockCache w /\ reads w' = reads w
       end.
Proof.
  revert idx results w.
  induction rest as [|l rest IH]; intros idx results w.
  - exists (Completed results), w. repeat split.
  - rewrite evalRules_cons. cbn zeta.
    assert (Hrec : forall i r es,
      length r = length results ->
      exists exit w',
        evalRules context details rules i rest r (addTrace w es)
        = (Ok exit, w')
        /\ clock w' = clock w /\ store w' = store w
        /\ match exit with
           | Completed results' =>
               blockCache w' = blockCache w /\ reads w' = reads w
               /\ length results' = length results
           | Returned decision =>
               d_conclusion decision = DENY
               /\ length (d_results decision) = length results
               /\ if 0 <? d_ttl decision then
                    blockCache w'
                    = Cache.set (blockCache w) (fingerprint context)
                        (d_reason decision)
                        (clock w (reads w) + d_ttl decision)
                    /\ reads w' = S (reads w)
                  else blockCache w' = blockCache w /\ reads w' = reads w
           end).
    { intros i r es Hlen.
      destruct (IH i r (addTrace w es)) as (exit & w' & Heq & H).
      exists exit, w'. split; [exact Heq|]. rewrite <- Hlen. exact H. }
    destruct (isLocalRule (store w l)) as [localRule|].
    + destruct (isDenied (localResult localRule context details)).
      * destruct (bool_decide (mode (store w l) ≠ DRY_RUN)).
        -- eexists _, _. split; [reflexivity|].
           cbn [d_conclusion d_results d_ttl d_reason ArcjetDenyDecision].
           rewrite length_insert.
           destruct (0 <? ttl (localResult localRule context details));
             repeat split.
        -- rewrite !addTrace_addTrace. apply Hrec. apply length_insert.
      * apply Hrec. apply length_insert.
    + destruct (IH (S idx) results w) as (exit & w' & Heq & H).
      exists exit, w'. split; [exact Heq|exact H].
Qed.

(** ** What [protect] returns and what it does to the cache *)

Lemma Cache_get_some {T : Type} (now : Z) (c : Cache.t T) (key : string)
  (value : T) :
  fst (Cache.get now c key) = Some value ->
  snd (Cache.get now c key) = c
  /\ Cache.data c !! key = Some value
  /\ exists e, Cache.expires c !! key = Some e /\ now < e.
Proof.
  unfold Cache.get, Cache.ttl.
  destruct (Cache.expires c !! key) as [e|]; cbn.
  - destruct (Z.ltb_spec 0 (e - now)); cbn; [|discriminate].
    intros Hv. repeat split; [exact Hv|]. exists e. split; [reflexivity|lia].
  - rewrite Z.sub_diag. cbn. discriminate.
Qed.

(** Over the limit the decision is the fixed ERROR decision. *)
Lemma protect_over_limit_decision
  (generateFingerprint : BaseContext -> AnalyzeRequest -> string)
  (rt : string) (options : ArcjetOptions) (rules : list loc)
  (ctx : ArcjetAdapterContext) (request : option ArcjetRequest) (w : World) :
  (10 < length rules)%nat ->
  exists es,
    protect generateFingerprint rt options rules ctx request w
    = (Ok (ArcjetErrorDecision 0
             (ErrorReason (JsString "Only 10 rules may be specified")) []),
       addTrace w es).
Proof.
  intros Hlen. unfold protect.
  rewrite (bool_decide_eq_false_2 (length rules < 1)%nat) by lia.
  rewrite (bool_decide_eq_true_2 (10 < length rules)%nat) by exact Hlen.
  unfold_M. cbn. rewrite !addTrace_addTrace. eauto.
Qed.

(** The ways [protect] ends, with the decision and the cache of each. *)
Lemma protect_effects
  (generateFingerprint : BaseContext -> AnalyzeRequest -> string)
  (rt : string) (options : ArcjetOptions) (rules : list loc)
  (ctx : ArcjetAdapterContext) (request : option ArcjetRequest) (w : World) :
  let details := mkDetails (default emptyRequest request) in
  let context := contextOf generateFingerprint rt options ctx details in
  let f := fingerprint context in
  let looked := Cache.get (clock w (reads w)) (blockCache w) f in
  let later := clock w (S (reads w)) in
  exists decision w',
    protect generateFingerprint rt options rules ctx request w
    = (Ok decision, w')
    /\ clock w' = clock w
    /\ ((10 < length rules)%nat /\ d_conclusion decision = ERROR
        /\ d_results decision = [] /\ blockCache w' = blockCache w
        \/ (length rules <= 10)%nat
           /\ (fst looked = Some (d_reason decision)
               /\ d_conclusion decision = DENY
               /\ d_ttl decision = Cache.ttl later (blockCache w) f
               /\ length (d_results decision) = length rules
               /\ blockCache w' = blockCache w
               \/ fst looked = None
                  /\ (d_conclusion decision = DENY
                      /\ length (d_results decision) = length rules
                      /\ blockCache w'
                         = (if 0 <? d_ttl decision then
                              Cache.set (snd looked) f (d_reason decision)
                                (later + d_ttl decision)
                            else snd looked)
                      \/ (exists w1,
                            decide (client options) context details
                              (map (store w1) rules) = Ok decision)
                         /\ blockCache w'
                            = (if decisionIsDenied decision
                                  && (0 <? d_ttl decision) then
                                 Cache.set (snd looked) f (d_reason decision)
                                   (later + d_ttl decision)
                               else snd looked)
                      \/ d_conclusion decision = ERROR
                         /\ length (d_results decision) = length rules
                         /\ blockCache w' = snd looked))).
Proof.
  cbn zeta. destruct (Nat.le_gt_cases (length rules) 10) as [Hle|Hgt].
  - rewrite protect_within_limit by exact Hle. cbn zeta.
    set (details := mkDetails (default emptyRequest request)).
    set (context := contextOf generateFingerprint rt options ctx details).
    set (f := fingerprint context).
    destruct (Cache.get (clock w (reads w)) (blockCache w) f).1
      as [existing|] eqn:Hlooked.
    + eexists _, _. split; [reflexivity|]. split; [reflexivity|].
      right. split; [exact Hle|]. left.
      apply Cache_get_some in Hlooked as (Hsame & _ & _).
      cbn [d_reason d_conclusion d_ttl d_results ArcjetDenyDecision
           blockCache beforeRules].
      rewrite Hsame, length_replicate. repeat split.
    + destruct (evalRules_effects context details rules rules 0
                  (replicate (length rules) notRun)
                  (beforeRules (default [] (opt_characteristics options))
                     rules f w))
        as ([decision|results] & w2 & -> & Hclock & _ & Heff).
      * exists decision, w2. split; [reflexivity|]. split; [exact Hclock|].
        right. split; [exact Hle|]. right. split; [reflexivity|]. left.
        destruct Heff as (Hc & Hlen & Hcache).
        rewrite length_replicate in Hlen.
        split; [exact Hc|]. split; [exact Hlen|].
        cbn [beforeRules clock reads blockCache] in Hcache.
        destruct (0 <? d_ttl decision); tauto.
      * destruct Heff as (Hcache & Hreads & Hlen).
        rewrite length_replicate in Hlen.
        cbn [beforeRules clock reads blockCache] in Hcache, Hreads, Hclock.
        rewrite remoteDecision_spec. cbn zeta.
        destruct (decide (client options) context details
                    (map (store w2) rules)) as [decision|err] eqn:Hdecide.
        -- eexists _, _. split; [reflexivity|].
           split.
           { destruct (decisionIsDenied decision && (0 <? d_ttl decision));
               exact Hclock. }
           right. split; [exact Hle|]. right. split; [reflexivity|].
           right. left. split; [eauto|].
           destruct (decisionIsDenied decision && (0 <? d_ttl decision)).
           ++ unfold cacheBlock. cbn [blockCache addTrace clock reads].
              now rewrite Hcache, Hreads, Hclock.
           ++ exact Hcache.
        -- eexists _, _. split; [reflexivity|]. split; [exact Hclock|].
           right. split; [exact Hle|]. right. split; [reflexivity|].
           right. right. repeat split; [exact Hlen|exact Hcache].
  - destruct (protect_over_limit_decision generateFingerprint rt options
                rules ctx request w Hgt) as (es & ->).
    eexists _, _. split; [reflexivity|]. split; [reflexivity|].
    left. repeat split. exact Hgt.
Qed.

(** Every DENY decision with a positive ttl that [protect] returns is in
    the block cache when [protect] returns: the cache holds its reason for
    the request's fingerprint, with an expiry that lies the decision's ttl
    after a reading of the clock. This covers a block served from the cache,
    a local LIVE denial and a remote denial alike. *)
Theorem protect_deny_is_cached
  (generateFingerprint : BaseContext -> AnalyzeRequest -> string)
  (rt : string) (options : ArcjetOptions) (rules : list loc)
  (ctx : ArcjetAdapterContext) (request : option ArcjetRequest) (w w' : World)
  (decision : ArcjetDecision) :
  let details := mkDetails (default emptyRequest request) in
  let context := contextOf generateFingerprint rt options ctx details in
  let f := fingerprint context in
  protect generateFingerprint rt options rules ctx request w
  = (Ok decision, w') ->
  d_conclusion decision = DENY ->
  0 < d_ttl decision ->
  Cache.data (blockCache w') !! f = Some (d_reason decision)
  /\ exists n,
       Cache.expires (blockCache w') !! f
       = Some (clock w n + d_ttl decision).
Proof.
  intros details context f Hrun Hdeny Httl.
  destruct (protect_effects generateFingerprint rt options rules ctx request w)
    as (d & w2 & Heq & _ & Hcases).
  rewrite Hrun in Heq. injection Heq as <- <-.
  fold details context f in Hcases.
  assert (Hpos : (0 <? d_ttl decision) = true) by now apply Z.ltb_lt.
  destruct Hcases
    as [(_ & Herr & _)
       |(_ & [(Hlooked & _ & Hdttl & _ & Hcache)
             |(_ & [(_ & _ & Hcache)|[(_ & Hcache)|(Herr & _)]])])].
  - congruence.
  - rewrite Hcache.
    apply Cache_get_some in Hlooked as (_ & Hdata & e & He & _).
    split; [exact Hdata|]. exists (S (reads w)). rewrite He, Hdttl.
    unfold Cache.ttl. rewrite He. cbn. f_equal. lia.
  - rewrite Hcache, Hpos. unfold Cache.set. cbn [Cache.data Cache.expires].
    rewrite !lookup_insert_eq. eauto.
  - rewrite Hcache. unfold decisionIsDenied.
    rewrite (bool_decide_eq_true_2 _ Hdeny), Hpos. cbn [andb].
    unfold Cache.set. cbn [Cache.data Cache.expires].
    rewrite !lookup_insert_eq. eauto.
  - congruence.
Qed.

(** [protect] always returns a decision, and its [results] have one entry
    per rule unless there were more than 10 rules (then there are none) or
    the decision is the one [client.decide] returned. *)
Theorem protect_results_length
  (generateFingerprint : BaseContext -> AnalyzeRequest -> string)
  (rt : string) (options : ArcjetOptions) (rules : list loc)
  (ctx : ArcjetAdapterContext) (request : option ArcjetRequest) (w : World) :
  let details := mkDetails (default emptyRequest request) in
  let context := contextOf generateFingerprint rt options ctx details in
  exists decision w',
    protect generateFingerprint rt options rules ctx request w
    = (Ok decision, w')
    /\ (length (d_results decision) = length rules
        \/ ((10 < length rules)%nat /\ d_results decision = [])
        \/ exists w1,
             decide (client options) context details (map (store w1) rules)
             = Ok decision).
Proof.
  cbn zeta.
  destruct (protect_effects generateFingerprint rt options rules ctx request w)
    as (d & w2 & Heq & _ & Hcases).
  exists d, w2. split; [exact Heq|].
  destruct Hcases
    as [(Hgt & _ & Hres & _)
       |(_ & [(_ & _ & _ & Hlen & _)
             |(_ & [(_ & Hlen & _)|[(Hdecide & _)|(_ & Hlen & _)]])])];
    auto.
Qed.

(** [protect] keeps the two maps of the block cache on the same keys. *)
Theorem protect_keeps_cache_consistent
  (generateFingerprint : BaseContext -> AnalyzeRequest -> string)
  (rt : string) (options : ArcjetOptions) (rules : list loc)
  (ctx : ArcjetAdapterContext) (request : option ArcjetRequest) (w : World) :
  cacheConsistent (blockCache w) ->
  cacheConsistent
    (blockCache
       (snd (protect generateFingerprint rt options rules ctx request w))).
Proof.
  intros Hc.
  destruct (protect_effects generateFingerprint rt options rules ctx request w)
    as (d & w2 & -> & _ & Hcases).
  cbn [snd].
  pose proof (cacheConsistent_get (clock w (reads w)) (blockCache w)
                (fingerprint
                   (contextOf generateFingerprint rt options ctx
                      (mkDetails (default emptyRequest request)))) Hc)
    as Hlooked.
  destruct Hcases
    as [(_ & _ & _ & ->)
       |(_ & [(_ & _ & _ & _ & ->)
             |(_ & [(_ & _ & ->)|[(_ & ->)|(_ & _ & ->)]])])];
    try assumption.
  - destruct (0 <? d_ttl d); [now apply cacheConsistent_set|assumption].
  - destruct (decisionIsDenied d && (0 <? d_ttl d));
      [now apply cacheConsistent_set|assumption].
Qed.

Lemma protect_deny_is_cached_witness :
  let run :=
    protect Scenario.fingerprintOf Scenario.rt
      (Scenario.opts Scenario.allowAll) [0; 1; 2]%nat Scenario.ctx
      Signup.curlRequest Signup.w0 in
  fst run
  = Ok (ArcjetDenyDecision 60 (BotReason [] ["CURL"])
          [notRun;
           {| ttl := 60; state := RUN; conclusion := DENY;
              reason := BotReason [] ["CURL"] |};
           notRun])
  /\ Cache.data (blockCache (snd run)) !! "198.51.100.4"
     = Some (BotReason [] ["CURL"])
  /\ exists n,
       Cache.expires (blockCache (snd run)) !! "198.51.100.4"
       = Some (clock Signup.w0 n + 60).
Proof.
  cbn zeta. split; [vm_compute; reflexivity|].
  apply (protect_deny_is_cached Scenario.fingerprintOf Scenario.rt
           (Scenario.opts Scenario.allowAll) [0; 1; 2]%nat Scenario.ctx
           Signup.curlRequest Signup.w0
           (snd (protect Scenario.fingerprintOf Scenario.rt
                   (Scenario.opts Scenario.allowAll) [0; 1; 2]%nat
                   Scenario.ctx Signup.curlRequest Signup.w0))
           (ArcjetDenyDecision 60 (BotReason [] ["CURL"])
              [notRun;
               {| ttl := 60; state := RUN; conclusion := DENY;
                  reason := BotReason [] ["CURL"] |};
               notRun])).
  - apply injective_projections; [vm_compute; reflexivity|reflexivity].
  - reflexivity.
  - cbn. lia.
Defined.

Lemma protect_keeps_cache_consistent_witness :
  cacheConsistent (blockCache Signup.w0)
  /\ cacheConsistent
       (blockCache
          (snd (protect Scenario.fingerprintOf Scenario.rt
                  (Scenario.opts Scenario.allowAll) [0; 1; 2]%nat
                  Scenario.ctx Signup.curlRequest Signup.w0))).
Proof.
  split; [apply cacheConsistent_new|].
  apply (protect_keeps_cache_consistent Scenario.fingerprintOf Scenario.rt
           (Scenario.opts Scenario.allowAll) [0; 1; 2]%nat Scenario.ctx
           Signup.curlRequest Signup.w0).
  apply cacheConsistent_new.
Defined.

(** ** More on the rule loop *)



(** Rules without a [validate]/[protect] pair (rate limits and shield) are
    passed over: a list of such rules leaves the results, the cache and the
    trace as they were. *)
Lemma evalRules_remote_only (context : ArcjetContext)
  (details : ArcjetRequestDetails) (rules rest : list loc) (idx : nat)
  (results : list ArcjetRuleResult) (w : World) :
  Forall (fun l => isLocalRule (store w l) = None) rest ->
  evalRules context details rules idx rest results w
  = (Ok (Completed results), w).
Proof.
  intros Hall. revert idx.
  induction Hall as [|l rest Hl Hrest IH]; intros idx; [reflexivity|].
  rewrite evalRules_cons. cbn zeta. rewrite Hl. apply IH.
Qed.

(** An engine whose rules are all remote-only (rate limits and shield) and
    whose cache holds no live block for the request evaluates nothing
    locally: [protect] is the remote decision, asked with every result
    still NOT_RUN. *)
Theorem protect_remote_only_rules
  (generateFingerprint : BaseContext -> AnalyzeRequest -> string)
  (rt : string) (options : ArcjetOptions) (rules : list loc)
  (ctx : ArcjetAdapterContext) (request : option ArcjetRequest) (w : World) :
  let details := mkDetails (default emptyRequest request) in
  let context := contextOf generateFingerprint rt options ctx details in
  let f := fingerprint context in
  let cs := default [] (opt_characteristics options) in
  (length rules <= 10)%nat ->
  Forall (fun l => isLocalRule (store w l) = None) rules ->
  fst (Cache.get (clock w (reads w)) (blockCache w) f) = None ->
  protect generateFingerprint rt options rules ctx request w
  = remoteDecision options context details rules
      (replicate (length rules) notRun) (beforeRules cs rules f w).
Proof.
  intros details context f cs Hlen Hremote Hlooked.
  rewrite protect_within_limit by exact Hlen. cbn zeta.
  fold details context f cs. rewrite Hlooked.
  rewrite evalRules_remote_only; [reflexivity|].
  cbn [beforeRules store].
  eapply List.Forall_impl; [|exact Hremote]. cbn. intros l Hl.
  destruct (injectCharacteristics_spec cs rules (store w) l)
    as [-> | (_ & _ & _ & ->)]; [exact Hl|exact Hl].
Qed.

Lemma protect_remote_only_rules_witness :
  let run :=
    protect Scenario.fingerprintOf Scenario.rt
      (Scenario.opts Scenario.allowAll) [3; 2]%nat Scenario.ctx
      Scenario.req Scenario.w0 in
  fst run = Ok Scenario.allowed
  /\ callsAfter 0 (snd run) = [KDebug; KCacheGet; KDecide].
Proof.
  cbn zeta.
  rewrite (protect_remote_only_rules Scenario.fingerprintOf Scenario.rt
             (Scenario.opts Scenario.allowAll) [3; 2]%nat Scenario.ctx
             Scenario.req Scenario.w0).
  - split; vm_compute; reflexivity.
  - cbn. lia.
  - repeat constructor.
  - vm_compute. reflexivity.
Defined.

(** Rules in DRY_RUN mode never end the loop and never touch the block
    cache: over a list of DRY_RUN rules the loop runs to its end with one
    result per rule, and the cache and the clock readings are as before. *)
Theorem evalRules_all_dry_run (context : ArcjetContext)
  (details : ArcjetRequestDetails) (rules rest : list loc) (idx : nat)
  (results : list ArcjetRuleResult) (w : World) :
  Forall (fun l => mode (store w l) = DRY_RUN) rest ->
  exists results' w',
    evalRules context details rules idx rest results w
    = (Ok (Completed results'), w')
    /\ length results' = length results
    /\ blockCache w' = blockCache w
    /\ reads w' = reads w.
Proof.
  intros Hall.
  destruct (evalRules_effects context details rules rest idx results w)
    as ([decision|results'] & w' & Heq & _ & _ & Heff).
  - exfalso. apply evalRules_returned_live in Heq
      as (l & lr & Hin & _ & Hmode & _).
    rewrite List.Forall_forall in Hall. now apply Hmode, Hall.
  - exists results', w'. split; [exact Heq|]. tauto.
Qed.

Lemma evalRules_all_dry_run_witness :
  let context := Scenario.context Scenario.allowAll Scenario.ctx in
  exists results' w',
    evalRules context Scenario.details [4; 3]%nat 0 [4; 3]%nat
      [notRun; notRun] Scenario.w0
    = (Ok (Completed results'), w')
    /\ length results' = 2%nat
    /\ blockCache w' = Cache.new.
Proof.
  cbn zeta.
  destruct (evalRules_all_dry_run
              (Scenario.context Scenario.allowAll Scenario.ctx)
              Scenario.details [4; 3]%nat [4; 3]%nat 0 [notRun; notRun]
              Scenario.w0)
    as (results' & w' & Heq & Hlen & Hcache & _).
  - repeat constructor.
  - exists results', w'. split; [exact Heq|]. split; [exact Hlen|exact Hcache].
Defined.

(** ** Expired blocks *)

(** A block whose expiry has passed has no effect on [protect] with at most
    10 rules: the call goes exactly as it does from the same world with that
    entry already evicted. *)
Theorem protect_ignores_expired_block
  (generateFingerprint : BaseContext -> AnalyzeRequest -> string)
  (rt : string) (options : ArcjetOptions) (rules : list loc)
  (ctx : ArcjetAdapterContext) (request : option ArcjetRequest) (w : World) :
  let details := mkDetails (default emptyRequest request) in
  let context := contextOf generateFingerprint rt options ctx details in
  let f := fingerprint context in
  (length rules <= 10)%nat ->
  Cache.ttl (clock w (reads w)) (blockCache w) f <= 0 ->
  let evicted :=
    Cache.mk (delete f (Cache.expires (blockCache w)))
      (delete f (Cache.data (blockCache w))) in
  protect generateFingerprint rt options rules ctx request w
  = protect generateFingerprint rt options rules ctx request
      (setCache w evicted).
Proof.
  intros details context f Hlen Hexpired evicted.
  assert (Hget : Cache.get (clock w (reads w)) (blockCache w) f
                 = (None, evicted)).
  { unfold Cache.get.
    now rewrite (proj2 (Z.ltb_ge 0 _ )) by exact Hexpired. }
  assert (Hagain : Cache.get (clock w (reads w)) evicted f = (None, evicted)).
  { pose proof (Cache_get_again (clock w (reads w)) (blockCache w) f) as H.
    now rewrite Hget in H. }
  rewrite !protect_within_limit by exact Hlen. cbn zeta.
  fold details context f. cbn [setCache clock reads blockCache].
  rewrite Hget, Hagain. cbn [fst].
  replace (beforeRules (default [] (opt_characteristics options)) rules f
             (setCache w evicted))
    with (beforeRules (default [] (opt_characteristics options)) rules f w);
    [reflexivity|].
  unfold beforeRules, setCache. cbn [clock reads blockCache store trace].
  now rewrite Hget, Hagain.
Qed.

Lemma protect_ignores_expired_block_witness :
  let stale :=
    setCache Scenario.w0
      (Cache.set Cache.new "203.0.113.7" ShieldReason 1000) in
  Cache.ttl 1000 (blockCache stale) "203.0.113.7" <= 0
  /\ fst (protect Scenario.fingerprintOf Scenario.rt
            (Scenario.opts Scenario.allowAll) [3; 2]%nat Scenario.ctx
            Scenario.req stale)
     = Ok Scenario.allowed.
Proof.
  cbn zeta. split; [vm_compute; discriminate|].
  rewrite (protect_ignores_expired_block Scenario.fingerprintOf Scenario.rt
             (Scenario.opts Scenario.allowAll) [3; 2]%nat Scenario.ctx
             Scenario.req
             (setCache Scenario.w0
                (Cache.set Cache.new "203.0.113.7" ShieldReason 1000))).
  - vm_compute. reflexivity.
  - cbn. lia.
  - vm_compute. discriminate.
Defined.

(** ** Characteristics of rate limit rules *)

(** After [protect] with at most 10 rules, every rate limit rule of the
    engine has characteristics: its own where it had some, the engine's
    where it had none. Every other rule object is untouched, and a further
    [protect] with the same rules changes no rule object any more. *)
Theorem protect_assigns_characteristics
  (generateFingerprint : BaseContext -> AnalyzeRequest -> string)
  (rt : string) (options : ArcjetOptions) (rules : list loc)
  (ctx : ArcjetAdapterContext) (request : option ArcjetRequest) (w : World) :
  (length rules <= 10)%nat ->
  let engineCharacteristics := default [] (opt_characteristics options) in
  let w' :=
    snd (protect generateFingerprint rt options rules ctx request w) in
  (forall l, In l rules -> type (store w l) = RATE_LIMIT ->
     characteristics (store w' l)
     = Some (default engineCharacteristics (characteristics (store w l))))
  /\ (forall l, ~ In l rules \/ type (store w l) <> RATE_LIMIT ->
        store w' l = store w l)
  /\ forall ctx' request' l,
       store
         (snd (protect generateFingerprint rt options rules ctx' request' w'))
         l
       = store w' l.
Proof.
  intros Hle cs w'.
  assert (Hst : store w' = injectCharacteristics cs rules (store w))
    by (now apply protect_store_within_limit).
  assert (Hrate : forall l, In l rules -> type (store w l) = RATE_LIMIT ->
            characteristics (store w' l)
            = Some (default cs (characteristics (store w l)))).
  { intros l Hin Htype. rewrite Hst.
    destruct (characteristics (store w l)) as [own|] eqn:Hown.
    - destruct (injectCharacteristics_spec cs rules (store w) l)
        as [-> | (_ & _ & H & _)]; [exact Hown|congruence].
    - now rewrite injectCharacteristics_assigned. }
  split; [exact Hrate|]. split.
  - intros l Hl. rewrite Hst.
    destruct (injectCharacteristics_spec cs rules (store w) l)
      as [-> | (Hin & Htype & _)]; [reflexivity|].
    destruct Hl as [Hl|Hl]; contradiction.
  - intros ctx' request' l.
    rewrite protect_store_within_limit by exact Hle. fold cs.
    destruct (injectCharacteristics_spec cs rules (store w') l)
      as [-> | (Hin & Htype & Hnone & _)]; [reflexivity|].
    exfalso.
    assert (Htype0 : type (store w l) = RATE_LIMIT).
    { rewrite Hst in Htype.
      destruct (injectCharacteristics_spec cs rules (store w) l)
        as [H | (_ & H & _)]; [now rewrite H in Htype|exact H]. }
    rewrite (Hrate l Hin Htype0) in Hnone. discriminate.
Qed.

Lemma protect_assigns_characteristics_witness :
  let w' :=
    snd (protect Scenario.fingerprintOf Scenario.rt
           (Scenario.opts Scenario.allowAll) [3; 2]%nat Scenario.ctx
           Scenario.req Scenario.w0) in
  characteristics (store Scenario.w0 2%nat) = None
  /\ characteristics (store w' 2%nat) = Some []
  /\ store w' 3%nat = store Scenario.w0 3%nat.
Proof.
  cbn zeta.
  destruct (protect_assigns_characteristics Scenario.fingerprintOf
              Scenario.rt (Scenario.opts Scenario.allowAll) [3; 2]%nat
              Scenario.ctx Scenario.req Scenario.w0)
    as (Hrate & Hother & _).
  - cbn. lia.
  - split; [reflexivity|]. split.
    + now rewrite (Hrate 2%nat) by (cbn; auto).
    + apply Hother. right. vm_compute. discriminate.
Defined.

(** ** Rule lists *)

Lemma withKey_app {A : Type} (key : A -> Z) (p : Z) (l1 l2 : list A) :
  withKey key p (l1 ++ l2) = withKey key p l1 ++ withKey key p l2.
Proof. unfold withKey. apply List.filter_app. Qed.

Lemma sortByKey_sorted_id {A : Type} (key : A -> Z) (l : list A) :
  sortedByKey key l -> sortByKey key l = l.
Proof.
  intros Hs.
  apply (sortedByKey_unique key); [apply sortByKey_sorted|exact Hs|].
  intros p. apply withKey_sortByKey.
Qed.

(** The rule list an engine starts with holds exactly the rules it was
    given, in ascending priority, and rules of equal priority stay in the
    order they were given. *)
Theorem rootRules_sorted_stable (options : ArcjetOptions)
  (st : loc -> ArcjetRule) :
  let prio := fun l => priority (st l) in
  Permutation (concat (rules options)) (rootRules options st)
  /\ sortedByKey prio (rootRules options st)
  /\ sameTieOrder prio (concat (rules options)) (rootRules options st)
  /\ length (rootRules options st) = length (concat (rules options)).
Proof.
  cbn zeta. unfold rootRules.
  split; [apply sortByKey_perm|]. split; [apply sortByKey_sorted|].
  split; [intros p; symmetry; apply withKey_sortByKey|].
  symmetry. apply Permutation_length, sortByKey_perm.
Qed.

(** [withRule] composes: adding rules in two steps gives the same rule list
    as adding them at once, adding them to a fresh engine gives the list of
    an engine configured with them from the start, and adding nothing to an
    engine keeps its list. *)
Theorem withRule_composes (options : ArcjetOptions) (st : loc -> ArcjetRule)
  (baseRules rule1 rule2 : list loc) :
  withRule st (withRule st baseRules rule1) rule2
  = withRule st baseRules (rule1 ++ rule2)
  /\ withRule st (rootRules options st) rule1
     = rootRules (withRules options (rules options ++ [rule1])) st
  /\ withRule st (rootRules options st) [] = rootRules options st.
Proof.
  unfold withRule, rootRules, withRules. cbn [rules]. repeat split.
  - apply sortByKey_sameTieOrder. intros p.
    rewrite !withKey_app, withKey_sortByKey, withKey_app.
    now rewrite <- app_assoc.
  - apply sortByKey_sameTieOrder. intros p.
    rewrite concat_app. cbn [concat]. rewrite app_nil_r.
    now rewrite !withKey_app, withKey_sortByKey.
  - rewrite app_nil_r. apply sortByKey_sorted_id. apply sortByKey_sorted.
Qed.

(** ** Rule constructors *)

Lemma fixedWindowRules_outcome (parse : JsValue -> Outcome Z)
  (opts : list FixedWindowRateLimitOptions) :
  match fixedWindowRules parse opts with
  | Ok rules =>
      map type rules = replicate (length opts) RATE_LIMIT
      /\ map priority rules = replicate (length opts) Priority.RateLimit
      /\ map isLocalRule rules = replicate (length opts) None
      /\ map mode rules = map (fun opt => modeOf (fw_mode opt)) opts
      /\ Forall (fun opt => exists n, parse (fw_window opt) = Ok n) opts
  | Throw e => Exists (fun opt => parse (fw_window opt) = Throw e) opts
  end.
Proof.
  induction opts as [|opt opts IH]; cbn; [repeat split; constructor|].
  destruct (parse (fw_window opt)) as [n|e] eqn:Hparse; [|now left].
  destruct (fixedWindowRules parse opts) as [rules|e]; [|now right].
  destruct IH as (Ht & Hp & Hl & Hm & Hall). cbn.
  rewrite Ht, Hp, Hl, Hm. repeat split. constructor; eauto.
Qed.

Lemma tokenBucketRules_outcome (parse : JsValue -> Outcome Z)
  (opts : list TokenBucketRateLimitOptions) :
  match tokenBucketRules parse opts with
  | Ok rules =>
      map type rules = replicate (length opts) RATE_LIMIT
      /\ map priority rules = replicate (length opts) Priority.RateLimit
      /\ map isLocalRule rules = replicate (length opts) None
      /\ map mode rules = map (fun opt => modeOf (tb_mode opt)) opts
      /\ Forall (fun opt => exists n, parse (tb_interval opt) = Ok n) opts
  | Throw e => Exists (fun opt => parse (tb_interval opt) = Throw e) opts
  end.
Proof.
  induction opts as [|opt opts IH]; cbn; [repeat split; constructor|].
  destruct (parse (tb_interval opt)) as [n|e] eqn:Hparse; [|now left].
  destruct (tokenBucketRules parse opts) as [rules|e]; [|now right].
  destruct IH as (Ht & Hp & Hl & Hm & Hall). cbn.
  rewrite Ht, Hp, Hl, Hm. repeat split. constructor; eauto.
Qed.

Lemma slidingWindowRules_outcome (parse : JsValue -> Outcome Z)
  (opts : list SlidingWindowRateLimitOptions) :
  match slidingWindowRules parse opts with
  | Ok rules =>
      map type rules = replicate (length opts) RATE_LIMIT
      /\ map priority rules = replicate (length opts) Priority.RateLimit
      /\ map isLocalRule rules = replicate (length opts) None
      /\ map mode rules = map (fun opt => modeOf (sw_mode opt)) opts
      /\ Forall (fun opt => exists n, parse (sw_interval opt) = Ok n) opts
  | Throw e => Exists (fun opt => parse (sw_interval opt) = Throw e) opts
  end.
Proof.
  induction opts as [|opt opts IH]; cbn; [repeat split; constructor|].
  destruct (parse (sw_interval opt)) as [n|e] eqn:Hparse; [|now left].
  destruct (slidingWindowRules parse opts) as [rules|e]; [|now right].
  destruct IH as (Ht & Hp & Hl & Hm & Hall). cbn.
  rewrite Ht, Hp, Hl, Hm. repeat split. constructor; eauto.
Qed.

(** The three rate limit constructors return no rule when called without a
    first option object, even if further ones are given. Otherwise they
    fail exactly when [duration.parse] rejects the interval of some option
    object, with that error, and else return one rule per option object, in
    order: a RATE_LIMIT rule of priority 3 with no [validate]/[protect]
    pair, LIVE only where the option's mode is the string LIVE. *)
Theorem rateLimit_constructors_outcome (parse : JsValue -> Outcome Z) :
  (forall adds, fixedWindow parse None adds = Ok []
     /\ forall options,
          match fixedWindow parse (Some options) adds with
          | Ok rules =>
              map type rules = replicate (S (length adds)) RATE_LIMIT
              /\ map priority rules = replicate (S (length adds)) 3
              /\ map isLocalRule rules = replicate (S (length adds)) None
              /\ map mode rules
                 = map (fun opt => modeOf (fw_mode opt)) (options :: adds)
              /\ Forall (fun opt => exists n, parse (fw_window opt) = Ok n)
                   (options :: adds)
          | Throw e =>
              Exists (fun opt => parse (fw_window opt) = Throw e)
                (options :: adds)
          end)
  /\ (forall adds, tokenBucket parse None adds = Ok []
        /\ forall options,
             match tokenBucket parse (Some options) adds with
             | Ok rules =>
                 map type rules = replicate (S (length adds)) RATE_LIMIT
                 /\ map priority rules = replicate (S (length adds)) 3
                 /\ map isLocalRule rules = replicate (S (length adds)) None
                 /\ map mode rules
                    = map (fun opt => modeOf (tb_mode opt)) (options :: adds)
                 /\ Forall
                      (fun opt => exists n, parse (tb_interval opt) = Ok n)
                      (options :: adds)
             | Throw e =>
                 Exists (fun opt => parse (tb_interval opt) = Throw e)
                   (options :: adds)
             end)
  /\ (forall adds, slidingWindow parse None adds = Ok []
        /\ forall options,
             match slidingWindow parse (Some options) adds with
             | Ok rules =>
                 map type rules = replicate (S (length adds)) RATE_LIMIT
                 /\ map priority rules = replicate (S (length adds)) 3
                 /\ map isLocalRule rules = replicate (S (length adds)) None
                 /\ map mode rules
                    = map (fun opt => modeOf (sw_mode opt)) (options :: adds)
                 /\ Forall
                      (fun opt => exists n, parse (sw_interval opt) = Ok n)
                      (options :: adds)
             | Throw e =>
                 Exists (fun opt => parse (sw_interval opt) = Throw e)
                   (options :: adds)
             end).
Proof.
  split; [|split]; intros adds; (split; [reflexivity|]); intros options.
  - apply (fixedWindowRules_outcome parse (options :: adds)).
  - apply (tokenBucketRules_outcome parse (options :: adds)).
  - apply (slidingWindowRules_outcome parse (options :: adds)).
Qed.

Lemma sensitiveInfoRules_outcome (detect : DetectSensitiveInfo)
  (options : SensitiveInfoOptions) (opts : list SensitiveInfoOptions) :
  match sensitiveInfoRules detect options opts with
  | Ok rules =>
      rules = map (sensitiveInfoRule detect options) opts
      /\ Forall (fun opt => si_allow opt = None \/ si_deny opt = None) opts
  | Throw e =>
      e = JsError "Both allow and deny cannot be provided to sensitiveInfo"
      /\ Exists (fun opt => is_Some (si_allow opt) /\ is_Some (si_deny opt))
           opts
  end.
Proof.
  induction opts as [|opt opts IH]; cbn; [split; [reflexivity|constructor]|].
  destruct (si_allow opt) as [allow|] eqn:Ha, (si_deny opt) as [deny|] eqn:Hd;
    cbn.
  - split; [reflexivity|]. left. rewrite Ha, Hd. eauto.
  - destruct (sensitiveInfoRules detect options opts) as [rules|e].
    + destruct IH as [-> Hall]. split; [reflexivity|]. constructor; auto.
    + destruct IH as [-> Hex]. split; [reflexivity|]. now right.
  - destruct (sensitiveInfoRules detect options opts) as [rules|e].
    + destruct IH as [-> Hall]. split; [reflexivity|]. constructor; auto.
    + destruct IH as [-> Hex]. split; [reflexivity|]. now right.
  - destruct (sensitiveInfoRules detect options opts) as [rules|e].
    + destruct IH as [-> Hall]. split; [reflexivity|]. constructor; auto.
    + destruct IH as [-> Hex]. split; [reflexivity|]. now right.
Qed.

(** [sensitiveInfo] fails exactly when one of its option objects sets both
    [allow] and [deny], with the message saying so; otherwise it returns one
    rule per option object, so at least one: SENSITIVE_INFO rules of
    priority 1, each with a [validate]/[protect] pair, carrying the
    option's lists and mode. *)
Theorem sensitiveInfo_outcome (detect : DetectSensitiveInfo)
  (options : SensitiveInfoOptions)
  (additionalOptions : list SensitiveInfoOptions) :
  let all := options :: additionalOptions in
  match sensitiveInfo detect options additionalOptions with
  | Ok rules =>
      Forall (fun opt => si_allow opt = None \/ si_deny opt = None) all
      /\ length rules = S (length additionalOptions)
      /\ Forall (fun rule => type rule = SENSITIVE_INFO /\ priority rule = 1
                             /\ is_Some (isLocalRule rule)) rules
      /\ map mode rules = map (fun opt => modeOf (si_mode opt)) all
      /\ map fields rules
         = map (fun opt => SensitiveInfoFields (default [] (si_allow opt))
                             (default [] (si_deny opt))) all
  | Throw e =>
      e = JsError "Both allow and deny cannot be provided to sensitiveInfo"
      /\ Exists (fun opt => is_Some (si_allow opt) /\ is_Some (si_deny opt))
           all
  end.
Proof.
  cbn zeta. unfold sensitiveInfo.
  pose proof (sensitiveInfoRules_outcome detect options
                (options :: additionalOptions)) as H.
  destruct (sensitiveInfoRules detect options (options :: additionalOptions))
    as [rules|e]; [|exact H].
  destruct H as [-> Hall]. split; [exact Hall|].
  rewrite length_map. split; [reflexivity|].
  rewrite !List.map_map. cbn [mode fields sensitiveInfoRule].
  split; [|split; reflexivity].
  apply List.Forall_map. apply List.Forall_forall. intros opt _. cbn. eauto.
Qed.

Lemma stringsOf_strings (values : list JsValue) :
  forallb isString values = true ->
  map JsString (stringsOf values) = values.
Proof.
  induction values as [|value values IH]; [reflexivity|].
  destruct value; cbn; try discriminate.
  intros H. f_equal. now apply IH.
Qed.

Lemma forallb_isString_spec (values : list JsValue) :
  if forallb isString values
  then Forall (fun value => exists s, value = JsString s) values
  else Exists (fun value => forall s, value <> JsString s) values.
Proof.
  induction values as [|value values IH]; cbn; [constructor|].
  destruct value; cbn; try (left; intros s; discriminate).
  destruct (forallb isString values).
  - constructor; eauto.
  - now right.
Qed.

(** How the loop of [detectBot] ends. *)
Lemma detectBotRules_outcome (analyze : AnalyzeDetectBot)
  (opts : list BotOptions) :
  let accepted opt :=
    (bot_allow opt = None \/ bot_deny opt = None)
    /\ forallb isString (default [] (bot_allow opt)) = true
    /\ forallb isString (default [] (bot_deny opt)) = true in
  match detectBotRules analyze opts with
  | Ok rules => rules = map (botRule analyze) opts /\ Forall accepted opts
  | Throw e =>
      exists good opt rest,
        opts = good ++ opt :: rest
        /\ Forall accepted good
        /\ ((is_Some (bot_allow opt) /\ is_Some (bot_deny opt)
             /\ e = JsError "Both allow and deny cannot be provided to detectBot")
            \/ ((bot_allow opt = None \/ bot_deny opt = None)
                /\ (forallb isString (default [] (bot_allow opt)) = false
                    \/ forallb isString (default [] (bot_deny opt)) = false)
                /\ e = JsError "all values in `allow` must be a string"))
  end.
Proof.
  cbn zeta. induction opts as [|opt opts IH]; cbn [detectBotRules];
    [split; [reflexivity|constructor]|].
  destruct (bool_decide (is_Some (bot_allow opt))
            && bool_decide (is_Some (bot_deny opt))) eqn:Hboth.
  { exists [], opt, opts. split; [reflexivity|]. split; [constructor|].
    left. apply andb_true_iff in Hboth as [Ha Hd].
    apply bool_decide_eq_true_1 in Ha, Hd. auto. }
  assert (Hone : bot_allow opt = None \/ bot_deny opt = None).
  { destruct (bot_allow opt), (bot_deny opt); auto. discriminate Hboth. }
  destruct (forallb isString (default [] (bot_allow opt))) eqn:Hallow; cbn.
  2:{ exists [], opt, opts. split; [reflexivity|]. split; [constructor|].
      right. auto. }
  destruct (forallb isString (default [] (bot_deny opt))) eqn:Hdeny; cbn.
  2:{ exists [], opt, opts. split; [reflexivity|]. split; [constructor|].
      right. auto. }
  destruct (detectBotRules analyze opts) as [rules|e].
  - destruct IH as [-> Hall]. split; [reflexivity|]. constructor; auto.
  - destruct IH as (good & bad & rest & -> & Hgood & Hbad).
    exists (opt :: good), bad, rest. split; [reflexivity|].
    split; [constructor; auto|exact Hbad].
Qed.

(** [detectBot] fails exactly when one of its option objects sets both
    [allow] and [deny], or has in [allow] or [deny] an element that is not a
    string; the error is the one of the first such option object, where
    setting both lists is checked first, and the message for an element
    that is not a string names [allow] for either list. Otherwise it returns
    one BOT rule of priority 4 per option object, with that object's mode
    and lists, and without a first option object it still returns a rule,
    built from an empty allow list in DRY_RUN mode. *)
Theorem detectBot_outcome (analyze : AnalyzeDetectBot)
  (options : option BotOptions) (additionalOptions : list BotOptions) :
  let all :=
    default {| bot_mode := None; bot_allow := Some []; bot_deny := None |}
      options
    :: additionalOptions in
  let bothSet opt := is_Some (bot_allow opt) /\ is_Some (bot_deny opt) in
  let lists opt := default [] (bot_allow opt) ++ default [] (bot_deny opt) in
  let accepted opt :=
    ~ bothSet opt
    /\ Forall (fun value => exists s, value = JsString s) (lists opt) in
  match detectBot analyze options additionalOptions with
  | Ok rules =>
      Forall accepted all
      /\ length rules = S (length additionalOptions)
      /\ Forall2
           (fun opt rule =>
              type rule = BOT /\ priority rule = 4
              /\ mode rule = modeOf (bot_mode opt)
              /\ characteristics rule = None
              /\ is_Some (isLocalRule rule)
              /\ exists allow deny,
                   default [] (bot_allow opt) = map JsString allow
                   /\ default [] (bot_deny opt) = map JsString deny
                   /\ fields rule = BotFields allow deny)
           all rules
  | Throw e =>
      exists good opt rest,
        all = good ++ opt :: rest
        /\ Forall accepted good
        /\ ((bothSet opt
             /\ e = JsError "Both allow and deny cannot be provided to detectBot")
            \/ (~ bothSet opt
                /\ Exists (fun value => forall s, value <> JsString s)
                     (lists opt)
                /\ e = JsError "all values in `allow` must be a string"))
  end
  /\ detectBot analyze None []
     = Ok [{| type := BOT; priority := 4; mode := DRY_RUN;
              characteristics := None; fields := BotFields [] [];
              local :=
                Some {| rule_validate := botValidate;
                        rule_protect :=
                          botProtect analyze (AllowedBotConfig [] true) |} |}].
Proof.
  cbn zeta. split; [|reflexivity]. unfold detectBot.
  change {| bot_mode := None; bot_allow := Some []; bot_deny := None |}
    with defaultBotOptions.
  assert (Haccepted : forall opt,
    (bot_allow opt = None \/ bot_deny opt = None)
    /\ forallb isString (default [] (bot_allow opt)) = true
    /\ forallb isString (default [] (bot_deny opt)) = true ->
    ~ (is_Some (bot_allow opt) /\ is_Some (bot_deny opt))
    /\ Forall (fun value => exists s, value = JsString s)
         (default [] (bot_allow opt) ++ default [] (bot_deny opt))).
  { intros opt (Hone & Ha & Hd). split.
    - intros [[a Ha'] [d Hd']]. destruct Hone; congruence.
    - apply List.Forall_app. split.
      + pose proof (forallb_isString_spec (default [] (bot_allow opt))) as H.
        now rewrite Ha in H.
      + pose proof (forallb_isString_spec (default [] (bot_deny opt))) as H.
        now rewrite Hd in H. }
  pose proof (detectBotRules_outcome analyze
                (default defaultBotOptions options :: additionalOptions)) as H.
  cbn zeta in H.
  destruct (detectBotRules analyze
              (default defaultBotOptions options :: additionalOptions))
    as [rules|e].
  - destruct H as [-> Hall].
    split; [eapply List.Forall_impl; [exact Haccepted|exact Hall]|].
    rewrite length_map. split; [reflexivity|].
    induction Hall as [|opt opts (Hone & Ha & Hd) Hall IH]; cbn [map];
      constructor; [|exact IH].
    cbn [type priority mode characteristics isLocalRule local fields botRule].
    repeat split; [eauto|].
    exists (stringsOf (default [] (bot_allow opt))),
           (stringsOf (default [] (bot_deny opt))).
    now rewrite !stringsOf_strings.
  - destruct H as (good & opt & rest & Heq & Hgood & Hbad).
    exists good, opt, rest. split; [exact Heq|].
    split; [eapply List.Forall_impl; [exact Haccepted|exact Hgood]|].
    destruct Hbad as [(Ha & Hd & ->)|(Hone & Hbad & ->)]; [left; auto|].
    right. split.
    { intros [[a Ha'] [d Hd']]. destruct Hone; congruence. }
    split; [|reflexivity]. apply List.Exists_app.
    destruct Hbad as [Hbad|Hbad]; [left|right].
    + pose proof (forallb_isString_spec (default [] (bot_allow opt))) as H.
      now rewrite Hbad in H.
    + pose proof (forallb_isString_spec (default [] (bot_deny opt))) as H.
      now rewrite Hbad in H.
Qed.

(** ** What the local rules answer *)

(** Every rule of [validateEmail] (there is always at least one), run by
    the engine: its result never has a ttl; without an email address in the
    request the result is an ERROR carrying the message of the failed
    assertion, and [protect] (so the analyzer) is not called; the result is
    DENY only for a request with an address, and then its reason lists only
    email types the protocol knows. *)
Theorem validateEmail_rule_results (isValidEmail : IsValidEmail)
  (options : option EmailOptions) (additionalOptions : list EmailOptions) :
  length (validateEmail isValidEmail options additionalOptions)
  = S (length additionalOptions)
  /\ Forall
       (fun rule =>
          type rule = EMAIL /\ priority rule = 5
          /\ exists localRule,
               isLocalRule rule = Some localRule
               /\ forall context details idx,
                    let result := localResult localRule context details in
                    let missing :=
                      JsError "ValidateEmail requires `email` to be set." in
                    ttl result = 0
                    /\ (email details = None ->
                        result = errorResult missing
                        /\ localEvents idx rule localRule context details
                           = [RuleValidate idx; failureLog rule missing])
                    /\ (conclusion result = DENY ->
                        is_Some (email details)
                        /\ exists emailTypes,
                             reason result = EmailReason emailTypes
                             /\ Forall (fun t => isEmailType t = true)
                                  emailTypes))
       (validateEmail isValidEmail options additionalOptions).
Proof.
  unfold validateEmail. rewrite length_map. split; [reflexivity|].
  apply List.Forall_map. apply List.Forall_forall. intros opt _.
  split; [reflexivity|]. split; [reflexivity|].
  eexists. split; [reflexivity|]. intros context details idx. cbn zeta.
  unfold localResult, localEvents.
  cbn [rule_validate rule_protect emailRule local].
  unfold emailValidate, emailProtect, assert.
  destruct (email details) as [address|]; cbn.
  - destruct (isValidEmail context (Some address) (emailOptsOf opt))
      as [answer|err]; cbn.
    + destruct (validity answer); cbn.
      * repeat split; try discriminate.
      * split; [reflexivity|]. split; [discriminate|]. intros _.
        split; [eauto|]. eexists. split; [reflexivity|].
        apply List.Forall_forall. intros t Ht.
        now apply List.filter_In in Ht.
    + repeat split; try discriminate.
  - repeat split; try discriminate.
Qed.

(** Every rule of [detectBot], run by the engine: for a request without a
    user-agent header the result is an ERROR saying so and the analyzer is
    not asked; the result is DENY exactly when the analyzer reports a denied
    bot, and exactly then it has a ttl, of 60 seconds, so that in LIVE mode
    the client is blocked from the cache for the next minute. *)
Theorem detectBot_rule_results (analyze : AnalyzeDetectBot)
  (options : option BotOptions) (additionalOptions : list BotOptions) :
  match detectBot analyze options additionalOptions with
  | Throw _ => True
  | Ok rules =>
      Forall
        (fun rule =>
           exists localRule,
             isLocalRule rule = Some localRule
             /\ forall context details idx,
                  let result := localResult localRule context details in
                  let missing :=
                    JsError "bot detection requires user-agent header" in
                  (headersHas "user-agent" (headers details) = false ->
                   result = errorResult missing
                   /\ localEvents idx rule localRule context details
                      = [RuleValidate idx; failureLog rule missing])
                  /\ (conclusion result = DENY ->
                      ttl result = 60
                      /\ headersHas "user-agent" (headers details) = true
                      /\ exists allowed denied,
                           reason result = BotReason allowed denied
                           /\ denied <> [])
                  /\ (conclusion result <> DENY -> ttl result = 0))
        rules
  end.
Proof.
  unfold detectBot.
  pose proof (detectBotRules_outcome analyze
                (default defaultBotOptions options :: additionalOptions)) as H.
  cbn zeta in H.
  destruct (detectBotRules analyze
              (default defaultBotOptions options :: additionalOptions))
    as [rules|e]; [|exact I].
  destruct H as [-> _].
  apply List.Forall_map. apply List.Forall_forall. intros opt _.
  eexists. split; [reflexivity|]. intros context details idx. cbn zeta.
  unfold localResult, localEvents.
  cbn [rule_validate rule_protect botRule local].
  unfold botValidate, botProtect.
  destruct (headersHas "user-agent" (headers details)); cbn.
  - destruct (analyze context (toAnalyzeRequest details) (botConfigOf opt))
      as [answer|err]; cbn.
    + destruct (bot_denied answer) as [|bot bots] eqn:Hdenied; cbn.
      * repeat split; try discriminate.
      * split; [discriminate|]. split; [|intros H; now elim H].
        intros _. split; [reflexivity|]. split; [reflexivity|].
        eexists _, _. split; [reflexivity|]. discriminate.
    + repeat split; try discriminate.
  - repeat split; try discriminate.
Qed.

(** Every rule of [sensitiveInfo], run by the engine: its result never has
    a ttl; when the adapter has no body for the request the result is an
    ERROR in state NOT_RUN and the analyzer is not asked; and the result is
    DENY only when there was a body in which the analyzer reported a denied
    entity. *)
Theorem sensitiveInfo_rule_results (detect : DetectSensitiveInfo)
  (options : SensitiveInfoOptions)
  (additionalOptions : list SensitiveInfoOptions) :
  match sensitiveInfo detect options additionalOptions with
  | Throw _ => True
  | Ok rules =>
      Forall
        (fun rule =>
           exists localRule,
             isLocalRule rule = Some localRule
             /\ forall context details,
                  let result := localResult localRule context details in
                  let body := getBody (base_ctx (ctx_base context)) in
                  ttl result = 0
                  /\ (body = Ok None ->
                      result
                      = {| ttl := 0; state := NOT_RUN; conclusion := ERROR;
                           reason :=
                             ErrorReason
                               (JsString
                                  "Couldn't read the body of the request to perform sensitive info identification.") |})
                  /\ (conclusion result = DENY ->
                      exists text entities size custom found,
                        body = Ok (Some text)
                        /\ detect context text entities size custom = Ok found
                        /\ result_denied found <> []))
        rules
  end.
Proof.
  unfold sensitiveInfo.
  pose proof (sensitiveInfoRules_outcome detect options
                (options :: additionalOptions)) as H.
  destruct (sensitiveInfoRules detect options (options :: additionalOptions))
    as [rules|e]; [|exact I].
  destruct H as [-> _].
  apply List.Forall_map. apply List.Forall_forall. intros opt _.
  eexists. split; [reflexivity|]. intros context details. cbn zeta.
  unfold localResult.
  cbn [rule_validate rule_protect sensitiveInfoRule local].
  unfold sensitiveInfoProtect.
  destruct (getBody (base_ctx (ctx_base context))) as [[text|]|err] eqn:Hbody;
    cbn.
  - destruct (detect context text (entitiesOf opt)
                (orOne (si_contextWindowSize options))
                (convertDetect <$> si_detect opt)) as [found|err] eqn:Hfound;
      cbn.
    + unfold sensitiveInfoResult.
      destruct (result_denied found) as [|entity entities] eqn:Hdenied; cbn.
      * repeat split; try discriminate.
      * split; [reflexivity|]. split; [discriminate|]. intros _.
        eexists _, _, _, _, _. split; [reflexivity|].
        split; [exact Hfound|]. rewrite Hdenied. discriminate.
    + repeat split; try discriminate.
  - repeat split; try discriminate.
  - repeat split; try discriminate.
Qed.

(** ** [protectSignup] *)

Lemma sortedByKey_of_keys {A : Type} (key : A -> Z) (l : list A) :
  StronglySorted Z.le (map key l) -> sortedByKey key l.
Proof.
  unfold sortedByKey. induction l as [|x l IH]; cbn; [constructor|].
  intros H. apply StronglySorted_inv in H as [Hl Hx].
  constructor; [now apply IH|].
  exact (proj1 (List.Forall_map key (Z.le (key x)) l) Hx).
Qed.

Lemma StronglySorted_replicate_app (x : Z) (n : nat) (l : list Z) :
  StronglySorted Z.le l -> Forall (Z.le x) l ->
  StronglySorted Z.le (replicate n x ++ l).
Proof.
  intros Hl Hx. induction n as [|n IH]; cbn; [exact Hl|].
  constructor; [exact IH|].
  apply List.Forall_app. split; [|exact Hx].
  apply List.Forall_forall. intros y Hy.
  apply list_elem_of_In, elem_of_replicate in Hy as [-> _]. lia.
Qed.

Lemma spread_slidingWindow (parse : JsValue -> Outcome Z)
  (x : option (OneOrMany SlidingWindowRateLimitOptions)) :
  match spreadInto (slidingWindow parse) x with
  | Throw _ => True
  | Ok rules =>
      map type rules = replicate (spreadCount 0 x) RATE_LIMIT
      /\ map priority rules = replicate (spreadCount 0 x) 3
  end.
Proof.
  assert (H : forall o l,
    match slidingWindow parse (Some o) l with
    | Throw _ => True
    | Ok rules =>
        map type rules = replicate (S (length l)) RATE_LIMIT
        /\ map priority rules = replicate (S (length l)) 3
    end).
  { intros o l. unfold slidingWindow.
    pose proof (slidingWindowRules_outcome parse (o :: l)) as H.
    destruct (slidingWindowRules parse (o :: l)); [|exact I]. tauto. }
  destruct x as [[o|[|o l]]|]; cbn [spreadInto spreadCount];
    try apply H; cbn; auto.
Qed.

Lemma spread_detectBot (analyze : AnalyzeDetectBot)
  (x : option (OneOrMany BotOptions)) :
  match spreadInto (detectBot analyze) x with
  | Throw _ => True
  | Ok rules =>
      map type rules = replicate (spreadCount 1 x) BOT
      /\ map priority rules = replicate (spreadCount 1 x) 4
  end.
Proof.
  assert (H : forall o l,
    match detectBot analyze o l with
    | Throw _ => True
    | Ok rules =>
        map type rules = replicate (S (length l)) BOT
        /\ map priority rules = replicate (S (length l)) 4
    end).
  { intros o l. unfold detectBot.
    pose proof (detectBotRules_outcome analyze
                  (default defaultBotOptions o :: l)) as H.
    cbn zeta in H.
    destruct (detectBotRules analyze (default defaultBotOptions o :: l));
      [|exact I].
    destruct H as [-> _]. rewrite !List.map_map. cbn [type priority botRule].
    change (S (length l)) with (length (default defaultBotOptions o :: l)).
    generalize (default defaultBotOptions o :: l). intros opts.
    induction opts as [|opt opts [IH1 IH2]]; cbn; [auto|].
    now rewrite IH1, IH2. }
  destruct x as [[o|[|o l]]|]; cbn [spreadInto spreadCount]; apply H.
Qed.

Lemma spread_validateEmail (isValidEmail : IsValidEmail)
  (x : option (OneOrMany EmailOptions)) :
  map type (spreadInto (validateEmail isValidEmail) x)
  = replicate (spreadCount 1 x) EMAIL
  /\ map priority (spreadInto (validateEmail isValidEmail) x)
     = replicate (spreadCount 1 x) 5.
Proof.
  assert (H : forall o l,
    map type (validateEmail isValidEmail o l) = replicate (S (length l)) EMAIL
    /\ map priority (validateEmail isValidEmail o l)
       = replicate (S (length l)) 5).
  { intros o l. unfold validateEmail. rewrite !List.map_map.
    cbn [type priority emailRule].
    change (S (length l)) with (length (default noEmailOptions o :: l)).
    generalize (default noEmailOptions o :: l). intros opts.
    induction opts as [|opt opts [IH1 IH2]]; cbn; [auto|].
    now rewrite IH1, IH2. }
  destruct x as [[o|[|o l]]|]; cbn [spreadInto spreadCount]; apply H.
Qed.

Lemma slidingWindowRules_rules (parse : JsValue -> Outcome Z)
  (opts : list SlidingWindowRateLimitOptions) (rules : list ArcjetRule) :
  slidingWindowRules parse opts = Ok rules ->
  Forall2
    (fun opt rule =>
       exists interval,
         parse (sw_interval opt) = Ok interval
         /\ rule
            = {| type := RATE_LIMIT; priority := 3;
                 mode := modeOf (sw_mode opt);
                 characteristics := sw_characteristics opt;
                 fields :=
                   SlidingWindowFields (sw_match opt) (sw_max opt) interval;
                 local := None |})
    opts rules.
Proof.
  revert rules. induction opts as [|opt opts IH]; intros rules; cbn.
  - intros [= <-]. constructor.
  - destruct (parse (sw_interval opt)) as [interval|e] eqn:Hparse;
      [|discriminate].
    destruct (slidingWindowRules parse opts) as [rules'|e]; [|discriminate].
    intros [= <-]. constructor; [eauto|now apply IH].
Qed.

Lemma Forall2_map_r_eq {A B : Type} (f : A -> B) (l : list A) :
  Forall2 (fun a b => b = f a) l (map f l).
Proof. induction l; constructor; auto. Qed.

(** When [protectSignup] succeeds it returns the rules of [slidingWindow],
    then those of [detectBot], then those of [validateEmail], each built
    from the option objects given for it: a single object counts as a list
    of one, and an absent option or an empty array gives no rate limit rule
    but one bot rule built from an empty allow list and one email rule built
    from an empty option object. Every rate limit rule is a sliding window
    with the match, max and parsed interval of its option object. The list
    is already in priority order, so an engine sorts it into itself. *)
Theorem protectSignup_outcome (parse : JsValue -> Outcome Z)
  (analyze : AnalyzeDetectBot) (isValidEmail : IsValidEmail)
  (options : option ProtectSignupOptions) :
  let given {A : Type} (x : option (OneOrMany A)) : list A :=
    match x with
    | Some (One a) => [a]
    | Some (Many l) => l
    | None => []
    end in
  let orDefault {A : Type} (a : A) (l : list A) : list A :=
    match l with
    | [] => [a]
    | _ => l
    end in
  let rateOptions := given (options ≫= su_rateLimit) in
  let botOptions :=
    orDefault {| bot_mode := None; bot_allow := Some []; bot_deny := None |}
      (given (options ≫= su_bots)) in
  let emailOptions :=
    orDefault
      {| em_mode := None; em_block := None; em_requireTopLevelDomain := None;
         em_allowDomainLiteral := None |}
      (given (options ≫= su_email)) in
  match protectSignup parse analyze isValidEmail options with
  | Throw _ => True
  | Ok rules =>
      exists rateLimitRules botRules emailRules,
        rules = rateLimitRules ++ botRules ++ emailRules
        /\ Forall2
             (fun opt rule =>
                exists interval,
                  parse (sw_interval opt) = Ok interval
                  /\ rule
                     = {| type := RATE_LIMIT; priority := 3;
                          mode := modeOf (sw_mode opt);
                          characteristics := sw_characteristics opt;
                          fields :=
                            SlidingWindowFields (sw_match opt) (sw_max opt)
                              interval;
                          local := None |})
             rateOptions rateLimitRules
        /\ Forall2
             (fun opt rule =>
                exists allow deny,
                  default [] (bot_allow opt) = map JsString allow
                  /\ default [] (bot_deny opt) = map JsString deny
                  /\ rule
                     = {| type := BOT; priority := 4;
                          mode := modeOf (bot_mode opt);
                          characteristics := None;
                          fields := BotFields allow deny;
                          local :=
                            Some {| rule_validate := botValidate;
                                    rule_protect :=
                                      botProtect analyze
                                        match bot_deny opt with
                                        | Some _ => DeniedBotConfig deny true
                                        | None => AllowedBotConfig allow true
                                        end |} |})
             botOptions botRules
        /\ Forall2
             (fun opt rule =>
                rule
                = {| type := EMAIL; priority := 5;
                     mode := modeOf (em_mode opt);
                     characteristics := None;
                     fields :=
                       EmailFields (default [] (em_block opt))
                         (default true (em_requireTopLevelDomain opt))
                         (default false (em_allowDomainLiteral opt));
                     local :=
                       Some {| rule_validate := emailValidate;
                               rule_protect :=
                                 emailProtect isValidEmail opt |} |})
             emailOptions emailRules
        /\ sortByKey priority rules = rules
  end
  /\ protectSignup parse analyze isValidEmail None
     = Ok [{| type := BOT; priority := 4; mode := DRY_RUN;
              characteristics := None; fields := BotFields [] [];
              local :=
                Some {| rule_validate := botValidate;
                        rule_protect :=
                          botProtect analyze (AllowedBotConfig [] true) |} |};
           {| type := EMAIL; priority := 5; mode := DRY_RUN;
              characteristics := None; fields := EmailFields [] true false;
              local :=
                Some {| rule_validate := emailValidate;
                        rule_protect :=
                          emailProtect isValidEmail
                            {| em_mode := None; em_block := None;
                               em_requireTopLevelDomain := None;
                               em_allowDomainLiteral := None |} |} |}].
Proof.
  cbn zeta. split; [|reflexivity]. unfold protectSignup.
  pose proof (spread_slidingWindow parse (options ≫= su_rateLimit)) as Hr.
  destruct (spreadInto (slidingWindow parse) (options ≫= su_rateLimit))
    as [rateLimitRules|e] eqn:Hrate; [|exact I].
  pose proof (spread_detectBot analyze (options ≫= su_bots)) as Hb.
  destruct (spreadInto (detectBot analyze) (options ≫= su_bots))
    as [botRules|e] eqn:Hbots; [|exact I].
  destruct (spread_validateEmail isValidEmail (options ≫= su_email))
    as [Het Hep].
  destruct Hr as [Hrt Hrp], Hb as [Hbt Hbp].
  exists rateLimitRules, botRules,
    (spreadInto (validateEmail isValidEmail) (options ≫= su_email)).
  split; [reflexivity|]. split; [|split; [|split]].
  - destruct (options ≫= su_rateLimit) as [[o|[|o l]]|];
      cbn [spreadInto slidingWindow] in Hrate;
      try (injection Hrate as <-; constructor);
      now apply slidingWindowRules_rules.
  - assert (H : forall o l rules,
      detectBot analyze o l = Ok rules ->
      Forall2
        (fun opt rule =>
           exists allow deny,
             default [] (bot_allow opt) = map JsString allow
             /\ default [] (bot_deny opt) = map JsString deny
             /\ rule
                = {| type := BOT; priority := 4;
                     mode := modeOf (bot_mode opt);
                     characteristics := None;
                     fields := BotFields allow deny;
                     local :=
                       Some {| rule_validate := botValidate;
                               rule_protect :=
                                 botProtect analyze
                                   match bot_deny opt with
                                   | Some _ => DeniedBotConfig deny true
                                   | None => AllowedBotConfig allow true
                                   end |} |})
        (default defaultBotOptions o :: l) rules).
    { intros o l rules Hrules. unfold detectBot in Hrules.
      pose proof (detectBotRules_outcome analyze
                    (default defaultBotOptions o :: l)) as H.
      cbn zeta in H. rewrite Hrules in H. destruct H as [-> Hall].
      clear Hrules.
      induction Hall as [|opt opts (Hone & Ha & Hd) Hall IH]; cbn [map];
        constructor; [|exact IH].
      exists (stringsOf (default [] (bot_allow opt))),
             (stringsOf (default [] (bot_deny opt))).
      rewrite !stringsOf_strings by assumption.
      split; [reflexivity|]. split; [reflexivity|].
      unfold botRule, botConfigOf.
      destruct (bot_allow opt), (bot_deny opt); reflexivity. }
    destruct (options ≫= su_bots) as [[o|[|o l]]|];
      cbn [spreadInto] in Hbots; now apply H in Hbots.
  - assert (H : forall o l,
      Forall2
        (fun opt rule =>
           rule
           = {| type := EMAIL; priority := 5;
                mode := modeOf (em_mode opt);
                characteristics := None;
                fields :=
                  EmailFields (default [] (em_block opt))
                    (default true (em_requireTopLevelDomain opt))
                    (default false (em_allowDomainLiteral opt));
                local :=
                  Some {| rule_validate := emailValidate;
                          rule_protect :=
                            emailProtect isValidEmail opt |} |})
        (default noEmailOptions o :: l) (validateEmail isValidEmail o l)).
    { intros o l. unfold validateEmail.
      apply (Forall2_map_r_eq (emailRule isValidEmail)). }
    destruct (options ≫= su_email) as [[o|[|o l]]|]; cbn [spreadInto].
    + exact (H (Some o) []).
    + exact (H None []).
    + exact (H (Some o) l).
    + exact (H None []).
  - apply sortByKey_sorted_id, sortedByKey_of_keys.
    rewrite !List.map_app, Hrp, Hbp, Hep.
    apply StronglySorted_replicate_app.
    + apply StronglySorted_replicate_app.
      * rewrite <- (app_nil_r (replicate _ 5)).
        apply StronglySorted_replicate_app; constructor.
      * apply List.Forall_forall. intros y Hy.
        apply list_elem_of_In, elem_of_replicate in Hy as [-> _]. lia.
    + apply List.Forall_app. split; apply List.Forall_forall; intros y Hy;
        apply list_elem_of_In, elem_of_replicate in Hy as [-> _]; lia.
Qed.

(** ** Request properties and entity names *)


(** Converting an entity name to the analyzer's form and back gives the
    name again. The other way round holds for every entity except a custom
    one that bears the name of a built-in entity, which comes back as the
    built-in one. *)
Theorem sensitiveInfo_entity_round_trip (name : string)
  (entity : SensitiveInfoEntity) :
  analyzeSensitiveInfoEntitiesToString
    (protocolSensitiveInfoEntitiesToAnalyze name) = name
  /\ ((forall val, entity = EntityCustom val ->
         val ∉ ["EMAIL"; "PHONE_NUMBER"; "IP_ADDRESS"; "CREDIT_CARD_NUMBER"])
      -> protocolSensitiveInfoEntitiesToAnalyze
           (analyzeSensitiveInfoEntitiesToString entity) = entity)
  /\ protocolSensitiveInfoEntitiesToAnalyze
       (analyzeSensitiveInfoEntitiesToString (EntityCustom "EMAIL"))
     = EntityEmail.
Proof.
  split; [|split; [|reflexivity]].
  - unfold protocolSensitiveInfoEntitiesToAnalyze.
    repeat case_bool_decide; subst; reflexivity.
  - intros Hcustom. destruct entity as [| | | |val]; try reflexivity.
    specialize (Hcustom val eq_refl). cbn.
    unfold protocolSensitiveInfoEntitiesToAnalyze.
    repeat case_bool_decide; subst; try reflexivity;
      exfalso; apply Hcustom; set_solver.
Qed.

(** ** A block, then the next request *)

Lemma protect_deny_cached_reason
  (generateFingerprint : BaseContext -> AnalyzeRequest -> string)
  (rt : string) (options : ArcjetOptions) (rules : list loc)
  (ctx : ArcjetAdapterContext) (request : option ArcjetRequest) (w w' : World)
  (decision : ArcjetDecision) :
  protect generateFingerprint rt options rules ctx request w
  = (Ok decision, w') ->
  d_conclusion decision = DENY ->
  0 < d_ttl decision ->
  Cache.data (blockCache w')
  !! fingerprint
       (contextOf generateFingerprint rt options ctx
          (mkDetails (default emptyRequest request)))
  = Some (d_reason decision).
Proof.
  intros Hrun Hdeny Httl.
  destruct (protect_effects generateFingerprint rt options rules ctx request w)
    as (d & w2 & Heq & _ & Hcases).
  rewrite Hrun in Heq. injection Heq as <- <-.
  assert (Hpos : (0 <? d_ttl decision) = true) by now apply Z.ltb_lt.
  destruct Hcases
    as [(_ & Herr & _)
       |(_ & [(Hlooked & _ & _ & _ & Hcache)
             |(_ & [(_ & _ & Hcache)|[(_ & Hcache)|(Herr & _)]])])].
  - congruence.
  - rewrite Hcache. now apply Cache_get_some in Hlooked as (_ & Hdata & _).
  - rewrite Hcache, Hpos. unfold Cache.set. cbn [Cache.data].
    now rewrite lookup_insert_eq.
  - rewrite Hcache. unfold decisionIsDenied.
    rewrite (bool_decide_eq_true_2 _ Hdeny), Hpos. cbn [andb].
    unfold Cache.set. cbn [Cache.data]. now rewrite lookup_insert_eq.
  - congruence.
Qed.

(** After [protect] has returned a DENY decision with a positive ttl, the
    next [protect] of the same engine (or of a view made by [withRule]) for a
    request with the same fingerprint, started while the cached block is
    still live, returns DENY with the same reason and every result NOT_RUN:
    it reports the decision but validates and runs no rule and does not call
    [client.decide]. *)
Theorem protect_block_is_served_next
  (generateFingerprint : BaseContext -> AnalyzeRequest -> string)
  (rt : string) (options : ArcjetOptions) (rules rules2 : list loc)
  (ctx ctx2 : ArcjetAdapterContext) (request request2 : option ArcjetRequest)
  (w w1 : World) (decision : ArcjetDecision) :
  let f :=
    fingerprint
      (contextOf generateFingerprint rt options ctx
         (mkDetails (default emptyRequest request))) in
  let context2 :=
    contextOf generateFingerprint rt options ctx2
      (mkDetails (default emptyRequest request2)) in
  protect generateFingerprint rt options rules ctx request w
  = (Ok decision, w1) ->
  d_conclusion decision = DENY ->
  0 < d_ttl decision ->
  fingerprint context2 = f ->
  (length rules2 <= 10)%nat ->
  0 < Cache.ttl (clock w1 (reads w1)) (blockCache w1) f ->
  let served :=
    protect generateFingerprint rt options rules2 ctx2 request2 w1 in
  fst served
  = Ok (ArcjetDenyDecision
          (Cache.ttl (clock w1 (S (reads w1))) (blockCache w1) f)
          (d_reason decision) (replicate (length rules2) notRun))
  /\ callsAfter (length (trace w1)) (snd served)
     = KDebug
       :: (if bool_decide (length rules2 < 1)%nat then [KWarn] else [])
       ++ [KCacheGet; KDebug; KCacheTtl; KReport; KDebug].
Proof.
  intros f context2 Hrun Hdeny Httl Hsame Hlen Hlive. cbn zeta.
  pose proof (protect_deny_cached_reason _ _ _ _ _ _ _ _ _ Hrun Hdeny Httl)
    as Hdata.
  fold f in Hdata.
  assert (Hget : Cache.get (clock w1 (reads w1)) (blockCache w1) f
                 = (Some (d_reason decision), blockCache w1)).
  { unfold Cache.get. rewrite (proj2 (Z.ltb_lt 0 _)) by exact Hlive.
    now rewrite Hdata. }
  rewrite protect_within_limit by exact Hlen. cbn zeta.
  fold context2. rewrite Hsame, Hget. cbn [fst snd]. split.
  - unfold beforeRules. cbn [blockCache]. now rewrite Hget.
  - unfold callsAfter, beforeRules. cbn [trace].
    rewrite <- !app_assoc, drop_app_length.
    cbn [app]. rewrite !map_cons, !map_app.
    destruct (bool_decide (length rules2 < 1)%nat); reflexivity.
Qed.

Lemma protect_block_is_served_next_witness :
  let call :=
    protect Scenario.fingerprintOf Scenario.rt
      (Scenario.opts Scenario.allowAll) [0; 1; 2]%nat Scenario.ctx
      Signup.curlRequest in
  let w1 := snd (call Signup.w0) in
  fst (call Signup.w0)
  = Ok (ArcjetDenyDecision 60 (BotReason [] ["CURL"])
          [notRun;
           {| ttl := 60; state := RUN; conclusion := DENY;
              reason := BotReason [] ["CURL"] |};
           notRun])
  /\ fst (call w1)
     = Ok (ArcjetDenyDecision 58 (BotReason [] ["CURL"])
             [notRun; notRun; notRun])
  /\ callsAfter (length (trace w1)) (snd (call w1))
     = [KDebug; KCacheGet; KDebug; KCacheTtl; KReport; KDebug].
Proof.
  cbn zeta. split; [vm_compute; reflexivity|].
  destruct (protect_block_is_served_next Scenario.fingerprintOf Scenario.rt
              (Scenario.opts Scenario.allowAll) [0; 1; 2]%nat [0; 1; 2]%nat
              Scenario.ctx Scenario.ctx Signup.curlRequest Signup.curlRequest
              Signup.w0
              (snd (protect Scenario.fingerprintOf Scenario.rt
                      (Scenario.opts Scenario.allowAll) [0; 1; 2]%nat
                      Scenario.ctx Signup.curlRequest Signup.w0))
              (ArcjetDenyDecision 60 (BotReason [] ["CURL"])
                 [notRun;
                  {| ttl := 60; state := RUN; conclusion := DENY;
                     reason := BotReason [] ["CURL"] |};
                  notRun]))
    as [Hd Hcalls].
  - apply injective_projections; [vm_compute; reflexivity|reflexivity].
  - reflexivity.
  - cbn. lia.
  - reflexivity.
  - cbn. lia.
  - vm_compute. reflexivity.
  - split.
    + rewrite Hd. vm_compute. reflexivity.
    + rewrite Hcalls. reflexivity.
Defined.
